(** * NHL viewing-schedule analyzer ([timezoner/script.py])

    A shallow embedding of [NHLScheduleAnalyzer] and the properties of its
    fetch / parse / evaluate / rank / aggregate pipeline.

    Layout:
    - [PyDatetime]: the part of CPython's [datetime] module the script uses
      (proleptic Gregorian ordinals, [datetime + timedelta], [weekday],
      comparisons of [date] and [time]);
    - [PyStr], [PyValue]: the string operations and the decoded JSON values,
      with Python's truthiness, [==] and [dict.get];
    - [Runtime]: the clock, the remote API, [json.loads] and
      [datetime.fromisoformat], which the script takes from outside;
    - the analyzer state, a state-and-exception monad, and the methods of the
      class, one definition per method. A thread pool is refused when it is
      built without workers; otherwise it is modelled by the order in which
      its futures complete (or, for [executor.map], start, with the futures
      that are cancelled after an exception), an argument of the methods
      that use it;
    - the notions the properties are stated with, and sample worlds;
    - the properties: calendar, evaluator, parser and cache, sorting, ranker,
      aggregator, and then one theorem per claim. *)

From Stdlib Require Import ZArith Lia String Ascii List Bool SpecFloat.
From Stdlib Require Import Sorting.Sorted Sorting.Permutation.
From stdpp Require Import base gmap strings list sorting.

Local Open Scope string_scope.
Local Open Scope list_scope.
Local Open Scope Z_scope.

(** ** Exceptions and results *)

Inductive exn : Type :=
| RequestException
| JSONDecodeError
| AttributeError
| TypeError
| ValueError
| OverflowError.

Inductive result (A : Type) : Type :=
| Ok (a : A)
| Raise (e : exn).
Arguments Ok {A} a.
Arguments Raise {A} e.

Definition rbind {A B} (r : result A) (k : A -> result B) : result B :=
  match r with
  | Ok a => k a
  | Raise e => Raise e
  end.

(** ** CPython's [datetime], as far as the script needs it *)

Module PyDatetime.

Record date := mkdate { year : Z; month : Z; day : Z }.
Record time := mktime { hour : Z; minute : Z; second : Z; microsecond : Z }.
(** [tzinfo] is the UTC offset, in seconds, of a fixed-offset zone. *)
Record datetime := mkdatetime { dt_date : date; dt_time : time; tzinfo : option Z }.
Record timedelta := mktimedelta { days : Z; seconds : Z; microseconds : Z }.

Definition _MAXORDINAL : Z := 3652059.

Definition _DAYS_IN_MONTH (m : Z) : Z :=
  match m with
  | 1 => 31 | 2 => 28 | 3 => 31 | 4 => 30 | 5 => 31 | 6 => 30
  | 7 => 31 | 8 => 31 | 9 => 30 | 10 => 31 | 11 => 30 | 12 => 31
  | _ => -1
  end.

Definition _DAYS_BEFORE_MONTH (m : Z) : Z :=
  match m with
  | 1 => 0 | 2 => 31 | 3 => 59 | 4 => 90 | 5 => 120 | 6 => 151
  | 7 => 181 | 8 => 212 | 9 => 243 | 10 => 273 | 11 => 304 | 12 => 334
  | _ => -1
  end.

Definition _is_leap (y : Z) : bool :=
  (y mod 4 =? 0) && (negb (y mod 100 =? 0) || (y mod 400 =? 0)).

Definition _days_before_year (yr : Z) : Z :=
  let y := yr - 1 in y * 365 + y / 4 - y / 100 + y / 400.

Definition _days_in_month (y m : Z) : Z :=
  if (m =? 2) && _is_leap y then 29 else _DAYS_IN_MONTH m.

Definition _days_before_month (y m : Z) : Z :=
  _DAYS_BEFORE_MONTH m + (if (2 <? m) && _is_leap y then 1 else 0).

Definition _ymd2ord (y m d : Z) : Z :=
  _days_before_year y + _days_before_month y m + d.

Definition _DI400Y : Z := 146097.
Definition _DI100Y : Z := 36524.
Definition _DI4Y : Z := 1461.

Definition _ord2ymd (n0 : Z) : date :=
  let n := n0 - 1 in
  let n400 := n / _DI400Y in
  let n := n mod _DI400Y in
  let yr := n400 * 400 + 1 in
  let n100 := n / _DI100Y in
  let n := n mod _DI100Y in
  let n4 := n / _DI4Y in
  let n := n mod _DI4Y in
  let n1 := n / 365 in
  let n := n mod 365 in
  let yr := yr + n100 * 100 + n4 * 4 + n1 in
  if (n1 =? 4) || (n100 =? 4) then mkdate (yr - 1) 12 31
  else
    let leapyear := (n1 =? 3) && (negb (n4 =? 24) || (n100 =? 3)) in
    let mth := Z.shiftr (n + 50) 5 in
    let preceding := _DAYS_BEFORE_MONTH mth + (if (2 <? mth) && leapyear then 1 else 0) in
    if n <? preceding then
      let mth' := mth - 1 in
      let preceding' :=
        preceding - (_DAYS_IN_MONTH mth' + (if (mth' =? 2) && leapyear then 1 else 0)) in
      mkdate yr mth' (n - preceding' + 1)
    else mkdate yr mth (n - preceding + 1).

Definition toordinal (d : date) : Z := _ymd2ord (year d) (month d) (day d).
Definition fromordinal (n : Z) : date := _ord2ymd n.

(** [date.weekday()]: Monday is 0. *)
Definition weekday (d : date) : Z := (toordinal d + 6) mod 7.

Definition day_names : list string :=
  ["Monday"; "Tuesday"; "Wednesday"; "Thursday"; "Friday"; "Saturday"; "Sunday"].

(** [strftime("%A")] in the C locale, which is the one the script runs in. *)
Definition strftime_A (dt : datetime) : string :=
  nth (Z.to_nat (weekday (dt_date dt))) day_names EmptyString.

(** Tuple comparison as [date._cmp] and [time._cmp] do it. *)
Definition date_compare (a b : date) : comparison :=
  match year a ?= year b with
  | Eq => match month a ?= month b with
          | Eq => day a ?= day b
          | c => c
          end
  | c => c
  end.

Definition date_gt (a b : date) : bool :=
  match date_compare a b with Gt => true | _ => false end.

Definition time_compare (a b : time) : comparison :=
  match hour a ?= hour b with
  | Eq => match minute a ?= minute b with
          | Eq => match second a ?= second b with
                  | Eq => microsecond a ?= microsecond b
                  | c => c
                  end
          | c => c
          end
  | c => c
  end.

Definition time_le (a b : time) : bool :=
  match time_compare a b with Gt => false | _ => true end.

(** [timedelta(days, seconds, microseconds)] on integers: normalisation and
    the magnitude check on [days]. *)
Definition timedelta_new (d s us : Z) : result timedelta :=
  let s := s + us / 1000000 in
  let us := us mod 1000000 in
  let d := d + s / 86400 in
  let s := s mod 86400 in
  if Z.abs d <=? 999999999 then Ok (mktimedelta d s us) else Raise OverflowError.

Definition timedelta_hours (h : Z) : result timedelta :=
  timedelta_new 0 (h * 3600) 0.

Definition timedelta_add (a b : timedelta) : result timedelta :=
  timedelta_new (days a + days b) (seconds a + seconds b)
                (microseconds a + microseconds b).

(** [datetime.__add__]. *)
Definition datetime_add (dt : datetime) (other : timedelta) : result datetime :=
  let t := dt_time dt in
  rbind (timedelta_new (toordinal (dt_date dt))
                       (hour t * 3600 + minute t * 60 + second t)
                       (microsecond t)) (fun delta =>
  rbind (timedelta_add delta other) (fun delta =>
  let hr := seconds delta / 3600 in
  let rem := seconds delta mod 3600 in
  let mi := rem / 60 in
  let se := rem mod 60 in
  if (0 <? days delta) && (days delta <=? _MAXORDINAL) then
    Ok (mkdatetime (fromordinal (days delta))
                   (mktime hr mi se (microseconds delta)) (tzinfo dt))
  else Raise OverflowError)).

Definition datetime_date (dt : datetime) : date := dt_date dt.
Definition datetime_time (dt : datetime) : time := dt_time dt.

End PyDatetime.
Import PyDatetime.

(** The calendar decomposition at the end of [_ord2ymd], on its own: month and
    day of the [n]-th day (from 0) of a year. *)
Definition month_day (leapyear : bool) (n : Z) : Z * Z :=
  let mth := Z.shiftr (n + 50) 5 in
  let preceding := _DAYS_BEFORE_MONTH mth + (if (2 <? mth) && leapyear then 1 else 0) in
  if n <? preceding then
    let mth' := mth - 1 in
    let preceding' :=
      preceding - (_DAYS_IN_MONTH mth' + (if (mth' =? 2) && leapyear then 1 else 0)) in
    (mth', n - preceding' + 1)
  else (mth, n - preceding + 1).

Definition month_day_ok (leap : bool) (n : Z) : bool :=
  let '(m, d) := month_day leap n in
  (1 <=? m) && (m <=? 12) && (1 <=? d) &&
  (d <=? _DAYS_IN_MONTH m + (if (m =? 2) && leap then 1 else 0)) &&
  (_DAYS_BEFORE_MONTH m + (if (2 <? m) && leap then 1 else 0) + d =? n + 1).

(** A [date] as Python can hold it. *)
Definition valid_date (d : date) : Prop :=
  1 <= year d <= 9999 /\ 1 <= month d <= 12 /\ 1 <= day d <= 31.

(** Seconds since the start of day 0 of the proleptic Gregorian calendar: the
    linear time line on which "plus [h] hours" is an addition. *)
Definition to_seconds (dt : datetime) : Z :=
  toordinal (dt_date dt) * 86400
  + hour (dt_time dt) * 3600 + minute (dt_time dt) * 60 + second (dt_time dt).

(** Microseconds since midnight. *)
Definition time_micros (t : time) : Z :=
  ((hour t * 60 + minute t) * 60 + second t) * 1000000 + microsecond t.

Definition valid_time (t : time) : Prop :=
  0 <= hour t < 24 /\ 0 <= minute t < 60 /\ 0 <= second t < 60 /\
  0 <= microsecond t < 1000000.

(** ** Python strings *)

Module PyStr.

(** [s.replace(old, new)] for a one-character [old]. *)
Fixpoint replace (old : ascii) (new : string) (s : string) : string :=
  match s with
  | EmptyString => EmptyString
  | String c r =>
      if Ascii.eqb c old then new +:+ replace old new r
      else String c (replace old new r)
  end.

(** [s.split(sep)[0]] for a one-character [sep]. *)
Fixpoint split_0 (sep : ascii) (s : string) : string :=
  match s with
  | EmptyString => EmptyString
  | String c r => if Ascii.eqb c sep then EmptyString else String c (split_0 sep r)
  end.

Definition digit (d : Z) : ascii := ascii_of_N (48 + Z.to_N d).

(** Decimal digits of a natural number, most significant first; [fuel] bounds
    the number of digits. *)
Fixpoint digits_fuel (fuel : nat) (n : Z) (acc : string) : string :=
  match fuel with
  | O => acc
  | S fuel' =>
      let acc' := String (digit (n mod 10)) acc in
      if n / 10 =? 0 then acc' else digits_fuel fuel' (n / 10) acc'
  end.

Definition decimal (n : Z) : string :=
  digits_fuel (S (Z.to_nat (Z.log2 n))) n EmptyString.

(** [f"{n:+d}"]: the sign is always written. *)
Definition format_plus_d (n : Z) : string :=
  (if n <? 0 then "-" else "+") +:+ decimal (Z.abs n).

(** ["%02d" % n] and ["%04d" % n] for the values a [date] holds. *)
Definition fmt02 (n : Z) : string :=
  String (digit (n / 10 mod 10)) (String (digit (n mod 10)) EmptyString).

Definition fmt04 (n : Z) : string :=
  String (digit (n / 1000 mod 10)) (String (digit (n / 100 mod 10)) (fmt02 n)).

(** [date.isoformat()]. *)
Definition isoformat (d : date) : string :=
  fmt04 (year d) +:+ "-" +:+ fmt02 (month d) +:+ "-" +:+ fmt02 (day d).

Definition chars (s : string) : list string :=
  map (fun c => String c EmptyString) (list_ascii_of_string s).

End PyStr.

(** ** Decoded JSON values, with the Python operations the parser applies *)

Module PyValue.

#[local] Set Warnings "-register-all".

Inductive json : Type :=
| JNull
| JBool (b : bool)
| JInt (z : Z)
| JFloat (f : spec_float)
| JStr (s : string)
| JArr (l : list json)
| JObj (kvs : list (string * json)).

Fixpoint assoc {V} (k : string) (kvs : list (string * V)) : option V :=
  match kvs with
  | [] => None
  | (k', v) :: r => if String.eqb k k' then Some v else assoc k r
  end.

(** [d[k] = v] on an insertion-ordered dict. *)
Fixpoint dict_set {V} (k : string) (v : V) (kvs : list (string * V)) : list (string * V) :=
  match kvs with
  | [] => [(k, v)]
  | (k', v') :: r => if String.eqb k k' then (k', v) :: r else (k', v') :: dict_set k v r
  end.

(** [v.get(k, default)]: only a dict has [get]. *)
Definition py_get (v : json) (k : string) (default : json) : result json :=
  match v with
  | JObj kvs => Ok (match assoc k kvs with Some x => x | None => default end)
  | _ => Raise AttributeError
  end.

Definition float_eq_int (f : spec_float) (n : Z) : bool :=
  match f with
  | S754_zero _ => n =? 0
  | S754_finite s m e =>
      let v := if s then Z.neg m else Z.pos m in
      if 0 <=? e then v * 2 ^ e =? n else v =? n * 2 ^ (- e)
  | _ => false
  end.

(** [v == n] for an int [n]. *)
Definition py_eq_int (v : json) (n : Z) : bool :=
  match v with
  | JInt z => z =? n
  | JBool b => (if b then 1 else 0) =? n
  | JFloat f => float_eq_int f n
  | _ => false
  end.

(** [bool(v)]. *)
Definition truthy (v : json) : bool :=
  match v with
  | JNull => false
  | JBool b => b
  | JInt z => negb (z =? 0)
  | JFloat (S754_zero _) => false
  | JFloat _ => true
  | JStr s => negb (String.eqb s EmptyString)
  | JArr l => match l with [] => false | _ => true end
  | JObj l => match l with [] => false | _ => true end
  end.

(** [iter(v)], as [for x in v] needs it. *)
Definition py_iter (v : json) : result (list json) :=
  match v with
  | JArr l => Ok l
  | JObj kvs => Ok (map (fun kv => JStr (fst kv)) kvs)
  | JStr s => Ok (map JStr (PyStr.chars s))
  | _ => Raise TypeError
  end.

End PyValue.
Import PyValue.

(** ** The world outside the script *)

(** What [requests.Session.get(url, timeout=10)] ends in. *)
Inductive http_outcome : Type :=
| ConnectionError
| Timeout
| Response (status : Z) (text : string).

(** The libraries and the remote API, as the script sees them:
    - [today]: the reading of [datetime.now().date()] when the analyzer is built;
    - [session_get k url]: how the API answers [url] when [k] requests have
      been made before;
    - [json_loads]: [json.loads], [None] standing for [JSONDecodeError];
    - [fromisoformat]: [datetime.fromisoformat], [None] standing for
      [ValueError]. *)
Class Runtime : Type := {
  today : date;
  session_get : nat -> string -> http_outcome;
  json_loads : string -> option json;
  fromisoformat : string -> option datetime;
}.

(** ** The analyzer *)

(** One parsed game: the start instant and the text before ['T']. *)
Definition game : Type := datetime * string.
Definition schedule : Type := list game.

(** [[team, viewable_games, game_dates]]. *)
Definition row : Type := string * Z * list string.
Definition row_team (r : row) : string := fst (fst r).
Definition row_count (r : row) : Z := snd (fst r).
Definition row_dates (r : row) : list string := snd r.

(** The instance attributes, the memo table of [lru_cache] on
    [fetch_api_data] (most recently used first) and the requests the session
    has sent (oldest first). *)
Record NHLScheduleAnalyzer : Type := mkanalyzer {
  max_workers : Z;
  _cache : gmap string schedule;
  current_date : date;
  fetch_cache : list (string * string);
  requests : list string;
}.

Abbreviation analyzer := NHLScheduleAnalyzer (only parsing).

Definition set_cache (c : gmap string schedule) (a : analyzer) : analyzer :=
  mkanalyzer (max_workers a) c (current_date a) (fetch_cache a) (requests a).

Definition NHL_TEAMS : list (Z * string) :=
  [(1, "NJD"); (2, "NYI"); (3, "NYR"); (4, "PHI"); (5, "PIT"); (6, "BOS"); (7, "BUF");
   (8, "MTL"); (9, "OTT"); (10, "TOR"); (13, "FLA"); (14, "TBL"); (12, "CAR"); (15, "WSH");
   (16, "CHI"); (17, "DET"); (18, "NSH"); (19, "STL"); (20, "CGY"); (21, "COL"); (22, "EDM");
   (23, "VAN"); (24, "ANA"); (25, "DAL"); (26, "LAK"); (28, "SJS"); (29, "CBJ"); (30, "MIN");
   (52, "WPG"); (54, "VGK"); (55, "SEA"); (59, "UTA")].

Definition team_list : list string := map snd NHL_TEAMS.

(** [datetime.strptime(s, "%H:%M:%S").time()] on the two-digit fields of the
    table below. *)
Definition digit_val (c : ascii) : option Z :=
  let n := Z.of_N (N_of_ascii c) in
  if (48 <=? n) && (n <=? 57) then Some (n - 48) else None.

Definition two_digits (a b : ascii) : option Z :=
  match digit_val a, digit_val b with
  | Some x, Some y => Some (10 * x + y)
  | _, _ => None
  end.

Definition strptime_HMS (s : string) : option time :=
  match list_ascii_of_string s with
  | [h1; h2; c1; m1; m2; c2; s1; s2] =>
      if Ascii.eqb c1 ":" && Ascii.eqb c2 ":" then
        match two_digits h1 h2, two_digits m1 m2, two_digits s1 s2 with
        | Some h, Some m, Some se =>
            if (h <? 24) && (m <? 60) && (se <? 60) then Some (mktime h m se 0) else None
        | _, _, _ => None
        end
      else None
  | _ => None
  end.

Definition viewing_windows_str : list (string * (string * string)) :=
  [("Monday", ("15:00:00", "22:30:00"));
   ("Tuesday", ("15:00:00", "22:30:00"));
   ("Wednesday", ("15:00:00", "22:30:00"));
   ("Thursday", ("15:00:00", "22:30:00"));
   ("Friday", ("15:00:00", "23:30:00"));
   ("Saturday", ("09:00:00", "23:30:00"));
   ("Sunday", ("09:00:00", "22:00:00"))].

(** [_precompute_time_windows], filling the class attribute from its initial
    [{}]; a string [strptime] rejects would raise, which none of the table's
    does. *)
Definition _precompute_time_windows (table : list (string * (time * time)))
  : list (string * (time * time)) :=
  fold_left (fun tbl e =>
               match strptime_HMS (fst (snd e)), strptime_HMS (snd (snd e)) with
               | Some start_time, Some end_time => dict_set (fst e) (start_time, end_time) tbl
               | _, _ => tbl
               end)
            viewing_windows_str table.

(** The class attribute once [__init__] has run. *)
Definition VIEWING_WINDOWS_TIME : list (string * (time * time)) :=
  Eval vm_compute in _precompute_time_windows [].

(** *** State and exceptions *)

Definition M (A : Type) : Type := analyzer -> result A * analyzer.

Definition ret {A} (x : A) : M A := fun a => (Ok x, a).
Definition bind {A B} (m : M A) (k : A -> M B) : M B :=
  fun a => match m a with
           | (Ok x, a') => k x a'
           | (Raise e, a') => (Raise e, a')
           end.
Definition lift {A} (r : result A) : M A := fun a => (r, a).
Definition of_option {A} (e : exn) (o : option A) : result A :=
  match o with Some x => Ok x | None => Raise e end.

Notation "'let*' x ':=' m 'in' k" := (bind m (fun x => k))
  (at level 10, x name, m at level 100, k at level 200).
Notation "'let+' x ':=' r 'in' k" := (rbind r (fun x => k))
  (at level 10, x name, r at level 100, k at level 200).

Section Methods.
Context `{RT : Runtime}.

(** [__init__]. *)
Definition __init__ (workers : Z) : analyzer :=
  mkanalyzer workers ∅ today [] [].

(** [response.raise_for_status()] and [response.text], inside the [try] of
    [fetch_api_data]. *)
Definition fetch_body (o : http_outcome) : result string :=
  match o with
  | ConnectionError => Raise RequestException
  | Timeout => Raise RequestException
  | Response status text =>
      if (400 <=? status) && (status <? 600) then Raise RequestException else Ok text
  end.

Definition lru_maxsize : nat := 128.

Definition lru_remove (k : string) (c : list (string * string)) : list (string * string) :=
  List.filter (fun kv => negb (String.eqb k (fst kv))) c.

(** [fetch_api_data] under [lru_cache(maxsize=128)]. *)
Definition fetch_api_data (url : string) : M string := fun a =>
  match assoc url (fetch_cache a) with
  | Some text =>
      (Ok text,
       mkanalyzer (max_workers a) (_cache a) (current_date a)
                  ((url, text) :: lru_remove url (fetch_cache a)) (requests a))
  | None =>
      let text :=
        match fetch_body (session_get (length (requests a)) url) with
        | Ok text => text
        | Raise _ => "{}"
        end in
      (Ok text,
       mkanalyzer (max_workers a) (_cache a) (current_date a)
                  (take lru_maxsize ((url, text) :: fetch_cache a))
                  (requests a ++ [url]))
  end.

Definition schedule_url (team : string) : string :=
  "https://api-web.nhle.com/v1/club-schedule-season/" +:+ team +:+ "/now".

(** The body of the [try] in the parsing loop: [Ok (Some g)] appends [g],
    [Ok None] appends nothing. *)
Definition parse_start_time (cur : date) (start_time : json) : result (option game) :=
  match start_time with
  | JStr s =>
      let+ dt := of_option ValueError (fromisoformat (PyStr.replace "Z" "+00:00" s)) in
      if date_gt (datetime_date dt) cur then Ok (Some (dt, PyStr.split_0 "T" s))
      else Ok None
  | _ => Raise AttributeError
  end.

(** One iteration of [for game in games]. *)
Definition parse_game (cur : date) (g : json) (parsed_games : schedule) : result schedule :=
  let+ game_type := py_get g "gameType" JNull in
  if py_eq_int game_type 2 then
    let+ start_time := py_get g "startTimeUTC" (JStr EmptyString) in
    if truthy start_time then
      match parse_start_time cur start_time with
      | Ok (Some p) => Ok (parsed_games ++ [p])
      | Ok None => Ok parsed_games
      | Raise ValueError => Ok parsed_games
      | Raise AttributeError => Ok parsed_games
      | Raise e => Raise e
      end
    else Ok parsed_games
  else Ok parsed_games.

Fixpoint parse_games (cur : date) (games : list json) (parsed_games : schedule)
  : result schedule :=
  match games with
  | [] => Ok parsed_games
  | g :: rest =>
      let+ parsed_games := parse_game cur g parsed_games in
      parse_games cur rest parsed_games
  end.

(** [get_team_schedule_cached]. *)
Definition get_team_schedule_cached (team : string) : M schedule := fun a =>
  match _cache a !! team with
  | Some s => (Ok s, a)
  | None =>
      (let* json_data := fetch_api_data (schedule_url team) in
       let* schedule_data := lift (of_option JSONDecodeError (json_loads json_data)) in
       let* games := lift (py_get schedule_data "games" (JArr [])) in
       let* items := lift (py_iter games) in
       let* parsed_games := (fun a => (parse_games (current_date a) items [], a)) in
       fun a => (Ok parsed_games, set_cache (<[team := parsed_games]> (_cache a)) a)) a
  end.

(** The loop of [analyze_team_viewing_time], with its two accumulators. *)
Fixpoint viewing_loop (tz_delta : timedelta) (sched : schedule)
         (viewable_games : Z) (game_dates : list string) : result (Z * list string) :=
  match sched with
  | [] => Ok (viewable_games, game_dates)
  | (utc_datetime, date_str) :: rest =>
      let+ local_time := datetime_add utc_datetime tz_delta in
      let weekday := strftime_A local_time in
      let local_time_only := datetime_time local_time in
      match assoc weekday VIEWING_WINDOWS_TIME with
      | Some (start_time, end_time) =>
          if time_le start_time local_time_only && time_le local_time_only end_time then
            viewing_loop tz_delta rest (viewable_games + 1) (game_dates ++ [date_str])
          else viewing_loop tz_delta rest viewable_games game_dates
      | None => viewing_loop tz_delta rest viewable_games game_dates
      end
  end.

(** [analyze_team_viewing_time]. *)
Definition analyze_team_viewing_time (team : string) (timezone_offset : Z) : M row :=
  let* sched := get_team_schedule_cached team in
  let* tz_delta := lift (timedelta_hours timezone_offset) in
  let* counted := lift (viewing_loop tz_delta sched 0 []) in
  ret (team, fst counted, snd counted).

(** [sorted(rows, key=lambda x: x[1], reverse=True)]. Python's sort is stable
    also under [reverse=True]; a stable sort has one possible output, which
    this insertion sort computes. *)
Fixpoint insert_desc (x : row) (l : list row) : list row :=
  match l with
  | [] => [x]
  | y :: r => if row_count x <? row_count y then y :: insert_desc x r else x :: y :: r
  end.

Definition sorted_desc (l : list row) : list row :=
  fold_right insert_desc [] l.

(** [concurrent.futures.ThreadPoolExecutor(max_workers=n)]: the constructor
    refuses a pool without workers. *)
Definition ThreadPoolExecutor (n : Z) : result unit :=
  if n <=? 0 then Raise ValueError else Ok tt.

(** The [as_completed] loop of [rank_teams_by_viewing_availability_parallel]:
    [completed] lists the teams in the order their futures are yielded, and
    each task is taken to run when it is yielded. A task that raised is
    reported and leaves no row. *)
Fixpoint collect_rankings (timezone_offset : Z) (completed : list string)
         (team_rankings : list row) : M (list row) :=
  match completed with
  | [] => ret team_rankings
  | team :: rest => fun a =>
      match analyze_team_viewing_time team timezone_offset a with
      | (Ok r, a') =>
          collect_rankings timezone_offset rest
            (team_rankings ++ [(row_team r, row_count r, row_dates r)]) a'
      | (Raise _, a') => collect_rankings timezone_offset rest team_rankings a'
      end
  end.

(** [rank_teams_by_viewing_availability_parallel]. The pool is built from
    [self.max_workers] before any task is submitted; it then decides
    [completed], a permutation of [team_list]. *)
Definition rank_teams_by_viewing_availability_parallel
           (timezone_offset : Z) (completed : list string) : M (list row) :=
  let* _executor := (fun a => (ThreadPoolExecutor (max_workers a), a)) in
  let* team_rankings := collect_rankings timezone_offset completed [] in
  ret (sorted_desc team_rankings).

Definition timezone_range : list Z := map (fun i => Z.of_nat i - 12) (seq 0 25).

(** [process_timezone] inside [generate_timezone_analysis_parallel]. *)
Definition process_timezone (top_n_teams : Z) (tz_offset : Z) (completed : list string)
  : M (Z * list (string * Z)) :=
  let* team_rankings := rank_teams_by_viewing_availability_parallel tz_offset completed in
  let n := Z.min top_n_teams (Z.of_nat (length team_rankings)) in
  ret (tz_offset,
       fold_left (fun res i =>
                    match team_rankings !! i with
                    | Some r => dict_set (row_team r) (row_count r) res
                    | None => res
                    end)
                 (seq 0 (Z.to_nat n)) []).

Definition timezone_key (tz_offset : Z) : string := "UTC" +:+ PyStr.format_plus_d tz_offset.

(** The [as_completed] loop of [generate_timezone_analysis_parallel]:
    [tz_completed] is the order in which the timezone futures are yielded and
    [team_completed tz] the order inside the ranking of [tz]. *)
Fixpoint collect_timezones (top_n_teams : Z) (tz_completed : list Z)
         (team_completed : Z -> list string)
         (timezone_analysis : list (string * list (string * Z)))
  : M (list (string * list (string * Z))) :=
  match tz_completed with
  | [] => ret timezone_analysis
  | tz :: rest => fun a =>
      match process_timezone top_n_teams tz (team_completed tz) a with
      | (Ok (tz_offset, team_data), a') =>
          collect_timezones top_n_teams rest team_completed
            (dict_set (timezone_key tz_offset) team_data timezone_analysis) a'
      | (Raise _, a') =>
          collect_timezones top_n_teams rest team_completed timezone_analysis a'
      end
  end.

(** [generate_timezone_analysis_parallel]. Its own pool has
    [min(8, len(timezone_range))] workers, which is 8. *)
Definition generate_timezone_analysis_parallel
           (top_n_teams : Z) (tz_completed : list Z) (team_completed : Z -> list string)
  : M (list (string * list (string * Z))) :=
  let* _executor :=
    lift (ThreadPoolExecutor (Z.min 8 (Z.of_nat (length timezone_range)))) in
  collect_timezones top_n_teams tz_completed team_completed [].

(** The rankings the timezone tasks of [generate_timezone_analysis_parallel]
    obtain, each in the state of the analyzer in which its task runs. *)
Fixpoint rankings_of_run (tz_completed : list Z) (team_completed : Z -> list string)
  : analyzer -> list (Z * result (list row)) :=
  match tz_completed with
  | [] => fun _ => []
  | tz :: rest => fun a =>
      let '(r, a') := rank_teams_by_viewing_availability_parallel tz (team_completed tz) a in
      (tz, r) :: rankings_of_run rest team_completed a'
  end.

(** A sequence of loads, one after the other, with what each ended in. *)
Fixpoint run_loads (started : list string) (results : list (string * result schedule))
  : analyzer -> list (string * result schedule) * analyzer :=
  match started with
  | [] => fun a => (results, a)
  | team :: rest => fun a =>
      let '(r, a') := get_team_schedule_cached team a in
      run_loads rest (results ++ [(team, r)]) a'
  end.

Fixpoint first_exception (teams : list string) (results : list (string * result schedule))
  : option exn :=
  match teams with
  | [] => None
  | team :: rest =>
      match assoc team results with
      | Some (Raise e) => Some e
      | _ => first_exception rest results
      end
  end.

(** The iterator of [executor.map] hands out the results in the order of
    [teams]; it has met a result that raised when every team before has
    returned and the next one raised. *)
Fixpoint exception_seen (teams : list string) (results : list (string * result schedule))
  : bool :=
  match teams with
  | [] => false
  | team :: rest =>
      match assoc team results with
      | Some (Ok _) => exception_seen rest results
      | Some (Raise _) => true
      | None => false
      end
  end.

(** [executor.map(load_team_schedule, self.team_list)] consumed by [list]:
    every load is submitted at once and the loads start in the order
    [started]. When the iterator meets a result that raised it cancels the
    futures that have not started, so that their loads never run; [racing]
    tells which loads start all the same, before the cancellation reaches
    their future. The loads that started run to their end. *)
Fixpoint map_loads (started : list string) (racing : string -> bool)
         (results : list (string * result schedule))
  : analyzer -> list (string * result schedule) * analyzer :=
  match started with
  | [] => fun a => (results, a)
  | team :: rest => fun a =>
      if exception_seen team_list results && negb (racing team) then
        map_loads rest racing results a
      else
        let '(r, a') := get_team_schedule_cached team a in
        map_loads rest racing (results ++ [(team, r)]) a'
  end.

(** [warm_cache]: the pool is built from [self.max_workers], and
    [list(executor.map(..))] re-raises the first exception in the order of
    [team_list]. *)
Definition warm_cache (started : list string) (racing : string -> bool) : M unit :=
  let* _executor := (fun a => (ThreadPoolExecutor (max_workers a), a)) in
  fun a =>
    let '(results, a') := map_loads started racing [] a in
    match first_exception team_list results with
    | Some e => (Raise e, a')
    | None => (Ok tt, a')
    end.

(** [main], up to the printing. *)
Definition main (started : list string) (racing : string -> bool) (tz_completed : list Z)
           (team_completed : Z -> list string)
  : result (list (string * list (string * Z))) * analyzer :=
  (let* _u := warm_cache started racing in
   generate_timezone_analysis_parallel 5 tz_completed team_completed) (__init__ 12).

End Methods.

(** ** Specification-side notions *)

(** Microseconds since the start of day 0: a [datetime] on the time line. *)
Definition to_micros (dt : datetime) : Z :=
  to_seconds dt * 1000000 + microsecond (dt_time dt).

Definition micros_per_day : Z := 86400000000.

(** The local instant of a game seen [off] whole hours from UTC. *)
Definition local_micros (off : Z) (dt : datetime) : Z :=
  to_micros dt + off * 3600000000.

Definition local_day (off : Z) (dt : datetime) : Z :=
  local_micros off dt / micros_per_day.

Definition local_weekday_name (off : Z) (dt : datetime) : string :=
  nth (Z.to_nat ((local_day off dt + 6) mod 7)) day_names EmptyString.

(** A game is watchable at offset [off] when the weekday of its local instant
    has a viewing window and its local time of day lies in the window, both
    bounds included. *)
Definition watchable (off : Z) (g : game) : bool :=
  match assoc (local_weekday_name off (fst g)) VIEWING_WINDOWS_TIME with
  | Some (start_time, end_time) =>
      let tod := local_micros off (fst g) mod micros_per_day in
      (time_micros start_time <=? tod) && (tod <=? time_micros end_time)
  | None => false
  end.

(** The local instant exists as a [datetime]: its day is one of the days
    [date] can hold. *)
Definition representable (off : Z) (g : game) : Prop :=
  1 <= local_day off (fst g) <= _MAXORDINAL.

Definition valid_datetime (dt : datetime) : Prop :=
  valid_date (dt_date dt) /\ valid_time (dt_time dt).

(** What the parser makes of one entry of [games], in the words of its
    description: a regular-season entry whose start time is a non-empty string
    that parses to a day after [cur]. *)
Definition retained (RT : Runtime) (cur : date) (g : json) : option game :=
  match py_get g "gameType" JNull, py_get g "startTimeUTC" (JStr EmptyString) with
  | Ok game_type, Ok (JStr s) =>
      if py_eq_int game_type 2 && negb (String.eqb s EmptyString) then
        match fromisoformat (PyStr.replace "Z" "+00:00" s) with
        | Some dt => if date_gt (dt_date dt) cur then Some (dt, PyStr.split_0 "T" s) else None
        | None => None
        end
      else None
  | _, _ => None
  end.

Definition kept (RT : Runtime) (cur : date) (g : json) : schedule :=
  match retained RT cur g with Some p => [p] | None => [] end.

Definition is_object (v : json) : Prop :=
  match v with JObj _ => True | _ => False end.

(** Descending order of [viewable_count]. *)
Definition count_ge (x y : row) : Prop := row_count y <= row_count x.

Definition has_count (c : Z) (r : row) : bool := row_count r =? c.

(** The entry a ranking leaves in the leaderboard. *)
Definition top_entries (top_n : Z) (ranking : list row) : list (string * Z) :=
  map (fun r => (row_team r, row_count r)) (take (Z.to_nat top_n) ranking).

(** The test of the evaluation loop on one game, as the code makes it. *)
Definition counted (tz_delta : timedelta) (g : game) : bool :=
  match datetime_add (fst g) tz_delta with
  | Ok local_time =>
      match assoc (strftime_A local_time) VIEWING_WINDOWS_TIME with
      | Some (start_time, end_time) =>
          time_le start_time (datetime_time local_time)
          && time_le (datetime_time local_time) end_time
      | None => false
      end
  | Raise _ => false
  end.

(** What [analyze_team_viewing_time] computes once the schedule is at hand. *)
Definition evaluate (off : Z) (team : string) (sched : schedule) : result row :=
  let+ tz_delta := timedelta_hours off in
  let+ counted := viewing_loop tz_delta sched 0 [] in
  Ok (team, fst counted, snd counted).

(** The row a team contributes at offset [off] when the cache holds its
    schedule; none when the evaluation raises. *)
Definition snapshot_row (cache : gmap string schedule) (off : Z) (team : string)
  : option row :=
  match cache !! team with
  | Some sched => match evaluate off team sched with Ok r => Some r | Raise _ => None end
  | None => None
  end.

(** The offsets [timedelta(hours=off)] accepts. *)
Definition timedelta_range (off : Z) : Prop :=
  -23999999976 <= off <= 23999999999.

(** The canonical labels, from UTC-12 to UTC+12. *)
Definition timezone_labels : list string :=
  ["UTC-12"; "UTC-11"; "UTC-10"; "UTC-9"; "UTC-8"; "UTC-7"; "UTC-6"; "UTC-5"; "UTC-4";
   "UTC-3"; "UTC-2"; "UTC-1"; "UTC+0"; "UTC+1"; "UTC+2"; "UTC+3"; "UTC+4"; "UTC+5";
   "UTC+6"; "UTC+7"; "UTC+8"; "UTC+9"; "UTC+10"; "UTC+11"; "UTC+12"].

(** One entry of the leaderboard against the timezone it stands for and the
    ranking its task obtained: the key is the label of the timezone and the
    teams are the first [top_n] rows of that ranking, all of them when the
    ranking is shorter. *)
Definition entry_of (top_n : Z) (ranked : Z * result (list row))
           (e : string * list (string * Z)) : Prop :=
  fst e = timezone_key (fst ranked) /\
  exists ranking,
    snd ranked = Ok ranking /\
    snd e = top_entries top_n ranking /\
    Z.of_nat (length (snd e)) = Z.max 0 (Z.min top_n (Z.of_nat (length ranking))) /\
    NoDup (map fst (snd e)).

(** The text [fetch_api_data] makes of the answer to the request number [k]
    for [url]: the body, or the empty object when the request failed. *)
Definition response_text (RT : Runtime) (k : nat) (url : string) : string :=
  match fetch_body (session_get k url) with
  | Ok text => text
  | Raise _ => "{}"
  end.

(** The analyzers a program can hold: one that [__init__] built and that was
    used since through its methods, all of which change it through
    [fetch_api_data] and [get_team_schedule_cached] only. *)
Inductive reachable (RT : Runtime) : analyzer -> Prop :=
| reach_init workers : reachable RT (__init__ workers)
| reach_fetch a url r a' :
    reachable RT a -> fetch_api_data url a = (r, a') -> reachable RT a'
| reach_get a team r a' :
    reachable RT a -> get_team_schedule_cached team a = (r, a') -> reachable RT a'.

(** Every text of the memo table is an answer of the API to its URL, and
    every cached schedule is what the parser retains of such an answer for
    the team's URL. *)
Definition memo_from_api (RT : Runtime) (a : analyzer) : Prop :=
  forall url text, In (url, text) (fetch_cache a) -> exists k, text = response_text RT k url.

Definition cache_from_api (RT : Runtime) (a : analyzer) : Prop :=
  forall team sched, _cache a !! team = Some sched ->
    exists k payload items,
      json_loads (response_text RT k (schedule_url team)) = Some payload /\
      rbind (py_get payload "games" (JArr [])) py_iter = Ok items /\
      sched = omap (retained RT (current_date a)) items.

(** ** Sample worlds *)

(** A reference decoder for the start times the API sends once [Z] has been
    replaced: [YYYY-MM-DDTHH:MM:SS+HH:MM]. [datetime.fromisoformat] reads these
    strings the same way. *)
Definition iso_datetime (s : string) : option datetime :=
  match list_ascii_of_string s with
  | [y1; y2; y3; y4; c1; m1; m2; c2; d1; d2; sep; h1; h2; c3; i1; i2; c4; s1; s2;
     sign; o1; o2; c5; p1; p2] =>
      match two_digits y1 y2, two_digits y3 y4, two_digits m1 m2, two_digits d1 d2,
            two_digits h1 h2, two_digits i1 i2, two_digits s1 s2,
            two_digits o1 o2, two_digits p1 p2 with
      | Some ya, Some yb, Some m, Some d, Some h, Some mi, Some se, Some oh, Some om =>
          let y := 100 * ya + yb in
          if Ascii.eqb c1 "-" && Ascii.eqb c2 "-" && Ascii.eqb c3 ":" && Ascii.eqb c4 ":"
             && Ascii.eqb c5 ":" && (Ascii.eqb sign "+" || Ascii.eqb sign "-")
             && (1 <=? y) && (1 <=? m) && (m <=? 12) && (1 <=? d)
             && (d <=? _days_in_month y m) && (h <? 24) && (mi <? 60) && (se <? 60)
             && (oh <? 24) && (om <? 60)
          then
            let off := oh * 3600 + om * 60 in
            Some (mkdatetime (mkdate y m d) (mktime h mi se 0)
                             (Some (if Ascii.eqb sign "-" then - off else off)))
          else None
      | _, _, _, _, _, _, _, _, _ => None
      end
  | _ => None
  end.

(** A world given by tables: what the API answers per URL (unreachable for a
    URL not listed) and what [json.loads] makes of the bodies. *)
Definition table_runtime (now : date) (api : list (string * http_outcome))
           (decoded : list (string * json)) : Runtime :=
  {| today := now;
     session_get := fun _ url =>
       match assoc url api with Some o => o | None => ConnectionError end;
     json_loads := fun text => assoc text decoded;
     fromisoformat := iso_datetime |}.

Definition one_game_payload (start_time : string) : json :=
  JObj [("games", JArr [JObj [("gameType", JInt 2); ("startTimeUTC", JStr start_time)]])].

Definition quoted (s : string) : string := String "034" (s +:+ String "034" EmptyString).

Definition one_game_body (start_time : string) : string :=
  "{" +:+ quoted "games" +:+ ": [{" +:+ quoted "gameType" +:+ ": 2, "
  +:+ quoted "startTimeUTC" +:+ ": " +:+ quoted start_time +:+ "}]}".

(** Every team plays one game, at [start_time]; the run starts on [now]. *)
Definition one_game_world (now : date) (start_time : string) : Runtime :=
  table_runtime now
    (map (fun team => (schedule_url team, Response 200 (one_game_body start_time))) team_list)
    [("{}", JObj []); (one_game_body start_time, one_game_payload start_time)].

(** The API is down for every team. *)
Definition offline_world : Runtime := table_runtime (mkdate 2025 1 1) [] [("{}", JObj [])].

(** The API answers [NJD] with a page that is not JSON and is down for the
    other teams. *)
Definition error_page : string := "<html>502 Bad Gateway</html>".

Definition error_page_world : Runtime :=
  table_runtime (mkdate 2025 1 1)
    [(schedule_url "NJD", Response 200 error_page)] [("{}", JObj [])].

(** The API answers [NJD] with one regular-season game followed by [null] in
    [games], and is down for the other teams. *)
Definition null_entry_body : string :=
  "{" +:+ quoted "games" +:+ ": [{" +:+ quoted "gameType" +:+ ": 2, "
  +:+ quoted "startTimeUTC" +:+ ": " +:+ quoted "2025-01-06T23:00:00Z" +:+ "}, null]}".

Definition null_entry_payload : json :=
  JObj [("games", JArr [JObj [("gameType", JInt 2);
                              ("startTimeUTC", JStr "2025-01-06T23:00:00Z")];
                        JNull])].

Definition null_entry_world : Runtime :=
  table_runtime (mkdate 2025 1 1)
    [(schedule_url "NJD", Response 200 null_entry_body)]
    [("{}", JObj []); (null_entry_body, null_entry_payload)].

(** The loads that twelve workers have in hand when the first of them ends,
    and the one its worker takes next. *)
Definition first_thirteen (team : string) : bool :=
  existsb (String.eqb team) (take 13 team_list).

(** An analyzer whose cache holds [sched] for every team. *)
Definition warmed (RT : Runtime) (sched : schedule) : analyzer :=
  set_cache (list_to_map (map (fun team => (team, sched)) team_list)) (__init__ 12).

Definition utc (y m d h mi : Z) : datetime :=
  mkdatetime (mkdate y m d) (mktime h mi 0 0) (Some 0).

(** The world and the schedule of the end-to-end scenario: one regular-season
    game on Monday 2025-01-06 at 23:00 UTC, seen from 2025-01-01. *)
Definition scenario_world : Runtime :=
  one_game_world (mkdate 2025 1 1) "2025-01-06T23:00:00Z".

(** One game in the small hours of New Year's Day, UTC, seen from
    2023-12-01. *)
Definition rollover_world : Runtime :=
  one_game_world (mkdate 2023 12 1) "2024-01-01T02:00:00Z".

(** The analyzer of [rollover_world] after its first fetch for [NJD]. *)
Definition rollover_fetched : analyzer :=
  mkanalyzer 12 ∅ (mkdate 2023 12 1)
    [(schedule_url "NJD", one_game_body "2024-01-01T02:00:00Z")] [schedule_url "NJD"].

Definition scenario_games : list json :=
  [JObj [("gameType", JInt 2); ("startTimeUTC", JStr "2025-01-06T23:00:00Z")]].

(** The analyzer of [scenario_world] after its first fetch for [NJD]. *)
Definition scenario_fetched : analyzer :=
  mkanalyzer 12 ∅ (mkdate 2025 1 1)
    [(schedule_url "NJD", one_game_body "2025-01-06T23:00:00Z")] [schedule_url "NJD"].

Definition scenario_schedule : schedule := [(utc 2025 1 6 23 0, "2025-01-06")].

Definition scenario_analyzer : analyzer := warmed scenario_world scenario_schedule.

(** ** The summary printer *)

(** [int(s)] in base 10, on strings of code points below 256: white space
    around the number, one sign, digits with single underscores between
    them, and the limit on the number of digits. [None] stands for
    [ValueError]. *)
Module PyInt.

Definition is_space (c : ascii) : bool :=
  let n := Z.of_N (N_of_ascii c) in
  ((9 <=? n) && (n <=? 13)) || (n =? 32) || (n =? 133) || (n =? 160).

Fixpoint lstrip (s : string) : string :=
  match s with
  | EmptyString => EmptyString
  | String c r => if is_space c then lstrip r else s
  end.

Fixpoint rstrip (s : string) : string :=
  match s with
  | EmptyString => EmptyString
  | String c r =>
      match rstrip r with
      | EmptyString => if is_space c then EmptyString else String c EmptyString
      | r' => String c r'
      end
  end.

(** The digits after the sign: the value and the number of digits read so
    far, and whether the last character was a digit. *)
Fixpoint digits_body (s : string) (prev_digit : bool) (acc : Z) (n : nat)
  : option (Z * nat) :=
  match s with
  | EmptyString => if prev_digit then Some (acc, n) else None
  | String c r =>
      match digit_val c with
      | Some d => digits_body r true (acc * 10 + d) (S n)
      | None =>
          if Ascii.eqb c "_" && prev_digit then digits_body r false acc n else None
      end
  end.

Definition max_str_digits : nat := 4300.

Definition magnitude (s : string) : option Z :=
  match digits_body s false 0 0 with
  | Some (v, n) => if (n <=? max_str_digits)%nat then Some v else None
  | None => None
  end.

Definition int (s : string) : option Z :=
  match rstrip (lstrip s) with
  | String "+" b => magnitude b
  | String "-" b => option_map Z.opp (magnitude b)
  | t => magnitude t
  end.

(** [str(n)] for an int. *)
Definition str (n : Z) : string :=
  (if n <? 0 then "-" else EmptyString) +:+ PyStr.decimal (Z.abs n).

End PyInt.

(** [s[n:]]. *)
Fixpoint str_drop (n : nat) (s : string) : string :=
  match n, s with
  | O, _ => s
  | S n', String _ r => str_drop n' r
  | S _, EmptyString => EmptyString
  end.

(** [timezone_sort_key] inside [print_analysis_summary]. *)
Definition timezone_sort_key (timezone_str : string) : result Z :=
  if String.prefix "UTC" timezone_str then
    of_option ValueError (PyInt.int (str_drop 3 timezone_str))
  else Ok 0.

(** [sorted(l, key=key)]: the keys are computed first, in the order of the
    list, and the sort is stable. *)
Fixpoint keys_of (key : string -> result Z) (l : list string) : result (list (Z * string)) :=
  match l with
  | [] => Ok []
  | x :: r =>
      let+ k := key x in
      let+ ks := keys_of key r in
      Ok ((k, x) :: ks)
  end.

Fixpoint insert_by_key (x : Z * string) (l : list (Z * string)) : list (Z * string) :=
  match l with
  | [] => [x]
  | y :: r => if fst y <? fst x then y :: insert_by_key x r else x :: y :: r
  end.

Definition sorted_with_key (key : string -> result Z) (l : list string)
  : result (list string) :=
  let+ ks := keys_of key l in
  Ok (map snd (fold_right insert_by_key [] ks)).

(** What can end [print_analysis_summary]: an exception of the kinds above,
    or the [KeyError] of [analysis_data[timezone]]. *)
Inductive summary_error : Type :=
| Builtin (e : exn)
| KeyError.

Definition newline : string := String "010" EmptyString.

Definition summary_title : string := "NHL Viewing Schedule Summary " +:+ newline.

Definition timezone_header (timezone : string) : string := newline +:+ timezone +:+ ":".

Definition team_line (tc : string * Z) : string :=
  "  " +:+ fst tc +:+ ": " +:+ PyInt.str (snd tc) +:+ " viewable games".

(** The loop over the sorted timezones; [stdout] collects the argument of
    each [print]. *)
Fixpoint print_timezones (analysis_data : list (string * list (string * Z)))
         (sorted_timezones : list string) (stdout : list string)
  : list string * option summary_error :=
  match sorted_timezones with
  | [] => (stdout, None)
  | timezone :: rest =>
      match assoc timezone analysis_data with
      | None => (stdout, Some KeyError)
      | Some teams =>
          print_timezones analysis_data rest
            (stdout ++ timezone_header timezone :: map team_line teams)
      end
  end.

(** [print_analysis_summary]: what it prints, and the error that ended it if
    one did. *)
Definition print_analysis_summary (analysis_data : list (string * list (string * Z)))
  : list string * option summary_error :=
  let stdout := [summary_title] in
  match sorted_with_key timezone_sort_key (map fst analysis_data) with
  | Raise e => (stdout, Some (Builtin e))
  | Ok sorted_timezones => print_timezones analysis_data sorted_timezones stdout
  end.

(** The lines a timezone contributes to the summary. *)
Definition timezone_block (analysis_data : list (string * list (string * Z)))
           (timezone : string) : list string :=
  match assoc timezone analysis_data with
  | Some teams => timezone_header timezone :: map team_line teams
  | None => []
  end.

(** ** Invariants of the analyzer *)

(** Every cached game is on a day after the date of construction. *)
Definition cache_future (a : analyzer) : Prop :=
  forall t s, _cache a !! t = Some s ->
    Forall (fun g : game => date_gt (dt_date (fst g)) (current_date a) = true) s.

(** The memo table of the fetch holds at most [maxsize] entries, one per
    URL. *)
Definition memo_ok (a : analyzer) : Prop :=
  (length (fetch_cache a) <= lru_maxsize)%nat /\ NoDup (map fst (fetch_cache a)).

(** A property of the analyzer that no call of [get_team_schedule_cached]
    breaks. *)
Definition kept_by_get (RT : Runtime) (P : analyzer -> Prop) : Prop :=
  forall team a r a', P a -> get_team_schedule_cached team a = (r, a') -> P a'.

(** The analyzer after the loads of the teams [done], none of them known
    before: one request per team, in order, and nothing cached or memoized
    for another team. *)
Definition loaded (done : list string) (a : analyzer) : Prop :=
  requests a = map schedule_url done /\
  (forall t, is_Some (_cache a !! t) -> In t done) /\
  (forall u, In u (map fst (fetch_cache a)) -> In u (map schedule_url done)).

(** The exceptions a load can end in. *)
Definition load_error (e : exn) : Prop :=
  e = JSONDecodeError \/ e = AttributeError \/ e = TypeError.

(** A world whose API answers [NJD] with an object that has no [games]. *)
Definition no_games_body : string := "{" +:+ quoted "error" +:+ ": 1}".

Definition no_games_world : Runtime :=
  table_runtime (mkdate 2025 1 1)
    [(schedule_url "NJD", Response 200 no_games_body)]
    [("{}", JObj []); (no_games_body, JObj [("error", JInt 1)])].

(** * Properties *)

Ltac bool_cases :=
  repeat match goal with
  | |- context [?a =? ?b] => destruct (Z.eqb_spec a b)
  | |- context [?a <? ?b] => destruct (Z.ltb_spec a b)
  | |- context [?a <=? ?b] => destruct (Z.leb_spec a b)
  end; cbn [andb orb negb].

(** Quotient and remainder by a positive constant, as two linear facts. *)
Ltac divmod x k q r :=
  set (q := x / k) in *; set (r := x mod k) in *;
  let H := fresh "Hdm" in
  assert (H : x = k * q + r /\ 0 <= r < k)
    by (subst q r; split; [apply Z.div_mod; lia | apply Z.mod_pos_bound; lia]);
  clearbody q r.

Ltac divmod_facts x k :=
  pose proof (Z.div_mod x k ltac:(lia));
  pose proof (Z.mod_pos_bound x k ltac:(lia)).

(** ** The calendar *)

Section Calendar.

Lemma month_day_spec (leap : bool) (n : Z) :
  0 <= n < 365 + (if leap then 1 else 0) ->
  month_day_ok leap n = true.
Proof.
  intros Hn.
  assert (Hall : forallb (fun k => month_day_ok true (Z.of_nat k)
                                   && (Nat.eqb k 365 || month_day_ok false (Z.of_nat k)))
                         (seq 0 366) = true) by (vm_compute; reflexivity).
  rewrite forallb_forall in Hall.
  specialize (Hall (Z.to_nat n)).
  rewrite Z2Nat.id in Hall by lia.
  assert (Hin : In (Z.to_nat n) (seq 0 366)) by (apply in_seq; destruct leap; lia).
  apply Hall in Hin. apply andb_true_iff in Hin as [Ht Hf].
  destruct leap; [exact Ht|].
  apply orb_true_iff in Hf as [Hf | Hf]; [|exact Hf].
  apply Nat.eqb_eq in Hf. lia.
Qed.

Lemma ord2ymd_unfold n0 :
  _ord2ymd n0 =
  let n := n0 - 1 in
  let n400 := n / 146097 in let n := n mod 146097 in
  let n100 := n / 36524 in let n := n mod 36524 in
  let n4 := n / 1461 in let n := n mod 1461 in
  let n1 := n / 365 in let n := n mod 365 in
  let yr := n400 * 400 + 1 + n100 * 100 + n4 * 4 + n1 in
  if (n1 =? 4) || (n100 =? 4) then mkdate (yr - 1) 12 31
  else let md := month_day ((n1 =? 3) && (negb (n4 =? 24) || (n100 =? 3))) n in
       mkdate yr (fst md) (snd md).
Proof.
  unfold _ord2ymd, month_day, _DI400Y, _DI100Y, _DI4Y. cbv zeta.
  destruct (_ || _); [reflexivity|].
  destruct (_ <? _); reflexivity.
Qed.

(** [fromordinal] inverts [toordinal] on the days a [date] can hold, and
    yields a date in range. *)
Lemma fromordinal_spec n :
  1 <= n <= _MAXORDINAL ->
  toordinal (fromordinal n) = n /\ valid_date (fromordinal n).
Proof.
  intros Hn. unfold toordinal, fromordinal, valid_date. rewrite ord2ymd_unfold. cbv zeta.
  unfold _ymd2ord, _days_before_year, _days_before_month, _MAXORDINAL in *.
  set (a := n - 1).
  divmod a 146097 n400 r400. divmod r400 36524 n100 r100.
  divmod r100 1461 n4 r4. divmod r4 365 n1 r.
  assert (H400 : 0 <= n400 <= 24) by lia.
  assert (H100 : 0 <= n100 <= 4) by lia.
  assert (H4 : 0 <= n4 <= 24) by lia.
  assert (H1 : 0 <= n1 <= 4) by lia.
  set (y := n400 * 400 + 1 + n100 * 100 + n4 * 4 + n1).
  destruct ((n1 =? 4) || (n100 =? 4)) eqn:Esp.
  - cbn [year month day]. unfold _is_leap, _DAYS_BEFORE_MONTH. subst y.
    apply orb_true_iff in Esp. rewrite !Z.eqb_eq in Esp.
    split; [bool_cases; Z.div_mod_to_equations; lia | lia].
  - apply orb_false_iff in Esp. rewrite !Z.eqb_neq in Esp.
    assert (Hdy : (y - 1) * 365 + (y - 1) / 4 - (y - 1) / 100 + (y - 1) / 400 = a - r)
      by (subst y; Z.div_mod_to_equations; lia).
    assert (Hleap : _is_leap y = (n1 =? 3) && (negb (n4 =? 24) || (n100 =? 3))).
    { unfold _is_leap. subst y.
      bool_cases; try reflexivity; exfalso; Z.div_mod_to_equations; lia. }
    cbn [year month day]. rewrite Hleap, Hdy.
    set (leap := (n1 =? 3) && _).
    pose proof (month_day_spec leap r) as Hmd.
    unfold month_day_ok in Hmd. destruct (month_day leap r) as [m d]. cbn [fst snd].
    rewrite !andb_true_iff in Hmd.
    destruct Hmd as [[[[Hm1 Hm2] Hd1] Hd2] Hsum]; [destruct leap; lia|].
    apply Z.eqb_eq in Hsum. apply Z.leb_le in Hm1, Hm2, Hd1, Hd2.
    split; [lia|]. split; [subst y; lia|]. split; [lia|]. split; [lia|].
    assert (_DAYS_IN_MONTH m <= 31) by (unfold _DAYS_IN_MONTH; repeat (destruct m as [|[m|m|]|]; try lia)).
    destruct ((m =? 2) && leap) eqn:Em; [|lia].
    apply andb_true_iff in Em as [Em _]. apply Z.eqb_eq in Em. subst m. cbn in Hd2. lia.
Qed.

Lemma toordinal_range d : valid_date d -> 1 <= toordinal d <= _MAXORDINAL.
Proof.
  intros (Hy & Hm & Hd).
  unfold toordinal, _ymd2ord, _days_before_year, _days_before_month, _is_leap, _MAXORDINAL.
  assert (Hb : 0 <= _DAYS_BEFORE_MONTH (month d) <= 334).
  { assert (Hc : month d = 1 \/ month d = 2 \/ month d = 3 \/ month d = 4 \/ month d = 5 \/
                 month d = 6 \/ month d = 7 \/ month d = 8 \/ month d = 9 \/ month d = 10 \/
                 month d = 11 \/ month d = 12) by lia.
    repeat (destruct Hc as [-> | Hc]); try rewrite Hc; cbn; lia. }
  revert Hb. generalize (_DAYS_BEFORE_MONTH (month d)). intros b Hb.
  bool_cases; Z.div_mod_to_equations; lia.
Qed.

(** Tuple order on valid times is the order of the microsecond of the day. *)
Lemma time_le_micros a b :
  valid_time a -> valid_time b ->
  time_le a b = (time_micros a <=? time_micros b).
Proof.
  intros (Ha1 & Ha2 & Ha3 & Ha4) (Hb1 & Hb2 & Hb3 & Hb4).
  unfold time_le, time_compare, time_micros.
  destruct (Z.compare_spec (hour a) (hour b));
    [destruct (Z.compare_spec (minute a) (minute b));
     [destruct (Z.compare_spec (second a) (second b));
      [destruct (Z.compare_spec (microsecond a) (microsecond b))| |]| |]| |];
    symmetry; first [apply Z.leb_le; lia | apply Z.leb_gt; lia].
Qed.

Lemma windows_valid wd s e :
  assoc wd VIEWING_WINDOWS_TIME = Some (s, e) -> valid_time s /\ valid_time e.
Proof.
  assert (H : Forall (fun kv => valid_time (fst (snd kv)) /\ valid_time (snd (snd kv)))
                     VIEWING_WINDOWS_TIME)
    by (unfold VIEWING_WINDOWS_TIME, valid_time; repeat constructor; cbn; lia).
  induction H as [|[k [s' e']] l Hx _ IH]; cbn; [discriminate|].
  destruct (String.eqb wd k); [intros [= <- <-]; exact Hx | exact IH].
Qed.

(** [datetime + timedelta(hours=off)] is the addition of [off] hours on the
    time line, whenever the sum is a day [date] can hold. *)
Lemma datetime_add_hours dt off :
  valid_datetime dt ->
  1 <= local_day off dt <= _MAXORDINAL ->
  exists delta loc,
    timedelta_hours off = Ok delta /\
    datetime_add dt delta = Ok loc /\
    to_micros loc = local_micros off dt /\
    toordinal (dt_date loc) = local_day off dt /\
    time_micros (dt_time loc) = local_micros off dt mod micros_per_day /\
    valid_datetime loc /\
    tzinfo loc = tzinfo dt.
Proof.
  intros [Hvd (Hh & Hmi & Hse & Hus)] Hday.
  pose proof (toordinal_range _ Hvd) as Hord.
  unfold local_day, local_micros, to_micros, to_seconds, micros_per_day in *.
  unfold timedelta_hours, datetime_add, timedelta_add, timedelta_new, _MAXORDINAL in *.
  set (ord := toordinal (dt_date dt)) in *.
  set (hs := hour (dt_time dt) * 3600 + minute (dt_time dt) * 60 + second (dt_time dt)).
  assert (Hhs : 0 <= hs < 86400) by (subst hs; lia).
  set (us := microsecond (dt_time dt)) in *.
  replace (ord * 86400 + hour (dt_time dt) * 3600 + minute (dt_time dt) * 60
           + second (dt_time dt)) with (ord * 86400 + hs) in * by (subst hs; lia).
  clearbody ord hs us.
  change (0 / 1000000) with 0. change (0 mod 1000000) with 0.
  rewrite !Z.add_0_r, !Z.add_0_l.
  assert (Hus0 : us / 1000000 = 0) by (apply Z.div_small; lia).
  assert (Hus1 : us mod 1000000 = us) by (apply Z.mod_small; lia).
  assert (Hhs0 : hs / 86400 = 0) by (apply Z.div_small; lia).
  assert (Hhs1 : hs mod 86400 = hs) by (apply Z.mod_small; lia).
  set (T := (ord * 86400 + hs) * 1000000 + us + off * 3600000000) in *.
  divmod_facts T 86400000000.
  divmod_facts (off * 3600) 86400.
  set (doff := off * 3600 / 86400) in *. set (soff := (off * 3600) mod 86400) in *.
  divmod_facts (hs + soff) 86400.
  set (c := (hs + soff) / 86400) in *. set (sod := (hs + soff) mod 86400) in *.
  divmod_facts sod 3600. divmod_facts (sod mod 3600) 60.
  assert (HD : ord + doff + c = T / 86400000000) by lia.
  assert (Hd1 : (Z.abs doff <=? 999999999) = true) by (apply Z.leb_le; lia).
  assert (Hd2 : (Z.abs ord <=? 999999999) = true) by (apply Z.leb_le; lia).
  assert (Hd3 : (Z.abs (ord + doff + c) <=? 999999999) = true) by (apply Z.leb_le; lia).
  assert (Hd4 : (0 <? ord + doff + c) && (ord + doff + c <=? 3652059) = true)
    by (apply andb_true_iff; split; [apply Z.ltb_lt | apply Z.leb_le]; lia).
  destruct (fromordinal_spec (ord + doff + c)) as [Hrt Hvl]; [unfold _MAXORDINAL; lia|].
  rewrite Hd1. eexists _, _. split; [reflexivity|].
  cbn [rbind days seconds microseconds].
  rewrite Hus0, Hus1, !Z.add_0_r, Hhs0, Hhs1, !Z.add_0_r, Hd2.
  cbn [rbind days seconds microseconds].
  rewrite ?Z.add_0_r, Hus0, Hus1, ?Z.add_0_r. fold c sod. rewrite Hd3.
  cbn [rbind days seconds microseconds]. rewrite Hd4.
  split; [reflexivity|].
  cbn [dt_date dt_time hour minute second microsecond tzinfo].
  unfold time_micros, valid_datetime, valid_time.
  cbn [dt_date dt_time hour minute second microsecond]. rewrite Hrt.
  split; [lia|]. split; [lia|]. split; [lia|]. split; [|reflexivity].
  split; [exact Hvl|]. lia.
Qed.

End Calendar.

(** ** The evaluator *)

Section Evaluator.

Lemma timedelta_hours_ok off :
  timedelta_range off -> exists delta, timedelta_hours off = Ok delta.
Proof.
  unfold timedelta_range, timedelta_hours, timedelta_new. intros H.
  change (0 / 1000000) with 0. rewrite Z.add_0_r, Z.add_0_l.
  destruct (Z.leb_spec (Z.abs (off * 3600 / 86400)) 999999999) as [_ | Hgt]; [eauto|].
  exfalso. divmod_facts (off * 3600) 86400. lia.
Qed.

Lemma counted_eq delta dt d loc :
  datetime_add dt delta = Ok loc ->
  counted delta (dt, d) =
  match assoc (strftime_A loc) VIEWING_WINDOWS_TIME with
  | Some (s, e) => time_le s (datetime_time loc) && time_le (datetime_time loc) e
  | None => false
  end.
Proof. intros H. unfold counted. cbn [fst]. rewrite H. reflexivity. Qed.

Lemma viewing_loop_inv delta (sched : schedule) : forall n ds n' ds',
  viewing_loop delta sched n ds = Ok (n', ds') ->
  Forall (fun g => exists loc, datetime_add (fst g) delta = Ok loc) sched /\
  n' = n + Z.of_nat (length (List.filter (counted delta) sched)) /\
  ds' = ds ++ map snd (List.filter (counted delta) sched).
Proof.
  induction sched as [|[dt d] rest IH]; intros n ds n' ds' H; cbn [viewing_loop] in H.
  - injection H as <- <-. cbn. rewrite app_nil_r. split; [constructor | split; [lia | reflexivity]].
  - cbn [List.filter].
    assert (Hc : counted delta (dt, d) =
                 match datetime_add dt delta with
                 | Ok loc =>
                     match assoc (strftime_A loc) VIEWING_WINDOWS_TIME with
                     | Some (s, e) =>
                         time_le s (datetime_time loc) && time_le (datetime_time loc) e
                     | None => false
                     end
                 | Raise _ => false
                 end) by reflexivity.
    destruct (datetime_add dt delta) as [loc|e] eqn:Eadd; cbn [rbind] in H; [|discriminate].
    assert (Hex : exists loc, datetime_add (fst (dt, d)) delta = Ok loc) by (cbn [fst]; eauto).
    destruct (assoc (strftime_A loc) VIEWING_WINDOWS_TIME) as [[s e]|];
      [destruct (time_le s (datetime_time loc) && time_le (datetime_time loc) e)|];
      rewrite Hc; apply IH in H as (HF & -> & ->);
      (split; [constructor; assumption|]); cbn [length map snd];
      rewrite <- ?app_assoc; split; first [lia | reflexivity].
Qed.

Lemma viewing_loop_total delta (sched : schedule) : forall n ds,
  Forall (fun g => exists loc, datetime_add (fst g) delta = Ok loc) sched ->
  viewing_loop delta sched n ds =
  Ok (n + Z.of_nat (length (List.filter (counted delta) sched)),
      ds ++ map snd (List.filter (counted delta) sched)).
Proof.
  induction sched as [|[dt d] rest IH]; intros n ds HF; cbn [viewing_loop].
  - cbn. rewrite app_nil_r, Z.add_0_r. reflexivity.
  - inversion HF as [|g l [loc Hloc] HF']; subst. cbn [fst] in Hloc.
    cbn [List.filter]. rewrite (counted_eq _ _ _ _ Hloc), Hloc. cbn [rbind].
    destruct (assoc (strftime_A loc) VIEWING_WINDOWS_TIME) as [[s e]|].
    + destruct (time_le s (datetime_time loc) && time_le (datetime_time loc) e);
        rewrite IH by assumption; [|reflexivity].
      cbn [length map snd]. rewrite <- app_assoc. f_equal. f_equal. lia.
    + apply IH. assumption.
Qed.

(** The test the loop makes on the decomposed local time is the test on the
    time line. *)
Lemma counted_watchable off delta (g : game) :
  timedelta_hours off = Ok delta ->
  valid_datetime (fst g) -> representable off g ->
  exists loc,
    datetime_add (fst g) delta = Ok loc /\
    to_micros loc = to_micros (fst g) + off * 3600000000 /\
    strftime_A loc = local_weekday_name off (fst g) /\
    counted delta g = watchable off g.
Proof.
  intros Hd Hv Hr.
  destruct (datetime_add_hours (fst g) off Hv Hr)
    as (delta' & loc & Hd' & Hadd & Hmic & Hord & Htod & [_ Hvt] & _).
  rewrite Hd in Hd'. injection Hd' as <-.
  exists loc. split; [exact Hadd|]. split; [exact Hmic|].
  assert (Hwd : strftime_A loc = local_weekday_name off (fst g))
    by (unfold strftime_A, local_weekday_name, weekday; rewrite Hord; reflexivity).
  split; [exact Hwd|].
  unfold counted, watchable. rewrite Hadd, Hwd.
  destruct (assoc (local_weekday_name off (fst g)) VIEWING_WINDOWS_TIME)
    as [[s e]|] eqn:Ew; [|reflexivity].
  destruct (windows_valid _ _ _ Ew) as [Hs He].
  unfold datetime_time. rewrite !time_le_micros, Htod by assumption. reflexivity.
Qed.

Lemma viewing_loop_spec off delta (sched : schedule) :
  timedelta_hours off = Ok delta ->
  Forall (fun g : game => valid_datetime (fst g)) sched ->
  Forall (representable off) sched ->
  viewing_loop delta sched 0 [] =
  Ok (Z.of_nat (length (List.filter (watchable off) sched)),
      map snd (List.filter (watchable off) sched)).
Proof.
  intros Hd Hv Hr.
  assert (Hext : forall g : game, In g sched -> counted delta g = watchable off g).
  { intros g Hg. rewrite List.Forall_forall in Hv, Hr.
    destruct (counted_watchable off delta g Hd (Hv g Hg) (Hr g Hg)) as (? & _ & _ & _ & H).
    exact H. }
  rewrite viewing_loop_total.
  - rewrite (List.filter_ext_in _ _ _ Hext). reflexivity.
  - apply List.Forall_forall. intros g Hg. rewrite List.Forall_forall in Hv, Hr.
    destruct (counted_watchable off delta g Hd (Hv g Hg) (Hr g Hg)) as (loc & H & _).
    eauto.
Qed.

End Evaluator.

(** ** The parser and the schedule cache *)

Section Cache.
Context `{RT : Runtime}.

Lemma assoc_In {V} t (r : V) rs : assoc t rs = Some r -> In (t, r) rs.
Proof.
  induction rs as [|[t' r'] rest IH]; cbn; [discriminate|].
  destruct (String.eqb_spec t t') as [-> | _]; [intros [= ->]; left; reflexivity|].
  intros H. right. apply IH, H.
Qed.

Lemma parse_game_object cur g acc :
  is_object g -> parse_game cur g acc = Ok (acc ++ kept RT cur g).
Proof.
  destruct g as [| | | | |l|kvs]; try contradiction. intros _.
  unfold parse_game, kept, retained, py_get. cbn [rbind].
  set (gt := match assoc "gameType" kvs with Some x => x | None => JNull end).
  set (st := match assoc "startTimeUTC" kvs with Some x => x | None => JStr EmptyString end).
  destruct (py_eq_int gt 2); cbn [andb];
    [|destruct st; rewrite app_nil_r; reflexivity].
  destruct st as [|b|z|f|s|l|o]; cbn [truthy parse_start_time rbind].
  - rewrite app_nil_r; reflexivity.
  - destruct b; rewrite app_nil_r; reflexivity.
  - destruct (negb _); rewrite app_nil_r; reflexivity.
  - destruct f; rewrite app_nil_r; reflexivity.
  - destruct (String.eqb s EmptyString); cbn [negb]; [rewrite app_nil_r; reflexivity|].
    destruct (fromisoformat _) as [dt|]; cbn [of_option rbind]; [|rewrite app_nil_r; reflexivity].
    unfold datetime_date. destruct (date_gt (dt_date dt) cur); [reflexivity|].
    rewrite app_nil_r. reflexivity.
  - destruct l; rewrite app_nil_r; reflexivity.
  - destruct o; rewrite app_nil_r; reflexivity.
Qed.

Lemma omap_kept cur games :
  omap (retained RT cur) games = concat (map (kept RT cur) games).
Proof.
  induction games as [|g rest IH]; [reflexivity|].
  cbn. unfold kept at 1. destruct (retained RT cur g); cbn; rewrite IH; reflexivity.
Qed.

(** On a list of objects the loop is an order-preserving filter. *)
Lemma parse_games_objects cur games : forall acc,
  Forall is_object games ->
  parse_games cur games acc = Ok (acc ++ omap (retained RT cur) games).
Proof.
  induction games as [|g rest IH]; intros acc HF; cbn [parse_games].
  - cbn. rewrite app_nil_r. reflexivity.
  - inversion HF as [|? ? Hg HF']; subst.
    rewrite parse_game_object by exact Hg. cbn [rbind]. rewrite IH by exact HF'.
    rewrite <- app_assoc. f_equal. f_equal.
    unfold kept. cbn [omap list_omap]. destruct (retained RT cur g); reflexivity.
Qed.

(** An entry that is not an object stops the loop with [AttributeError]. *)
Lemma parse_games_not_object cur g rest acc :
  ~ is_object g -> parse_games cur (g :: rest) acc = Raise AttributeError.
Proof.
  intros H. cbn [parse_games]. unfold parse_game.
  destruct g; cbn in *; try reflexivity. contradiction.
Qed.

Lemma retained_iff cur g dt d :
  retained RT cur g = Some (dt, d) <->
  exists game_type s,
    py_get g "gameType" JNull = Ok game_type /\
    py_eq_int game_type 2 = true /\
    py_get g "startTimeUTC" (JStr EmptyString) = Ok (JStr s) /\
    s <> EmptyString /\
    fromisoformat (PyStr.replace "Z" "+00:00" s) = Some dt /\
    date_gt (dt_date dt) cur = true /\
    d = PyStr.split_0 "T" s.
Proof.
  unfold retained. split.
  - destruct (py_get g "gameType" JNull) as [gt|]; [|discriminate].
    destruct (py_get g "startTimeUTC" (JStr EmptyString)) as [[| | | |s| |]|]; try discriminate.
    destruct (py_eq_int gt 2) eqn:Et; [|discriminate].
    destruct (String.eqb_spec s EmptyString) as [|Hne]; [discriminate|]. cbn [andb negb].
    destruct (fromisoformat _) as [dt'|] eqn:Ef; [|discriminate].
    destruct (date_gt (dt_date dt') cur) eqn:Eg; [|discriminate].
    intros [= <- <-]. exists gt, s. auto 10.
  - intros (gt & s & -> & -> & -> & Hne & -> & -> & ->).
    destruct (String.eqb_spec s EmptyString); [contradiction|]. reflexivity.
Qed.

Lemma fetch_api_data_spec url a :
  exists text a',
    fetch_api_data url a = (Ok text, a') /\
    _cache a' = _cache a /\ current_date a' = current_date a /\
    max_workers a' = max_workers a /\
    (requests a' = requests a \/ requests a' = requests a ++ [url]).
Proof.
  unfold fetch_api_data. destruct (assoc url (fetch_cache a)); eexists _, _;
    (split; [reflexivity|]); cbn; auto.
Qed.

Lemma fetch_api_data_miss url a text a1 :
  assoc url (fetch_cache a) = None ->
  fetch_api_data url a = (Ok text, a1) ->
  requests a1 = requests a ++ [url] /\
  text = match fetch_body (session_get (length (requests a)) url) with
         | Ok t => t
         | Raise _ => "{}"
         end.
Proof.
  intros Hl. unfold fetch_api_data. rewrite Hl. intros [= <- <-]. auto.
Qed.

Lemma get_cached_hit team a s :
  _cache a !! team = Some s -> get_team_schedule_cached team a = (Ok s, a).
Proof. intros H. unfold get_team_schedule_cached. rewrite H. reflexivity. Qed.

(** The cold path, step by step. *)
Lemma get_cached_miss team a text a1 :
  _cache a !! team = None ->
  fetch_api_data (schedule_url team) a = (Ok text, a1) ->
  get_team_schedule_cached team a =
  match (let+ schedule_data := of_option JSONDecodeError (json_loads text) in
         let+ games := py_get schedule_data "games" (JArr []) in
         let+ items := py_iter games in
         parse_games (current_date a1) items []) with
  | Ok parsed => (Ok parsed, set_cache (<[team := parsed]> (_cache a1)) a1)
  | Raise e => (Raise e, a1)
  end.
Proof.
  intros Hm Hf. unfold get_team_schedule_cached. rewrite Hm.
  unfold bind, lift. rewrite Hf.
  destruct (json_loads text) as [sd|]; cbn [of_option rbind]; [|reflexivity].
  destruct (py_get sd "games" (JArr [])) as [games|]; cbn [rbind]; [|reflexivity].
  destruct (py_iter games) as [items|]; cbn [rbind]; [|reflexivity].
  destruct (parse_games (current_date a1) items []); reflexivity.
Qed.

(** A call keeps the date of construction and the entries the cache has, and
    sends at most one request. *)
Lemma get_cached_frame team a r a' :
  get_team_schedule_cached team a = (r, a') ->
  current_date a' = current_date a /\
  (forall t s, _cache a !! t = Some s -> _cache a' !! t = Some s) /\
  (requests a' = requests a \/ requests a' = requests a ++ [schedule_url team]).
Proof.
  intros H. destruct (_cache a !! team) as [s|] eqn:Ec.
  - rewrite (get_cached_hit _ _ _ Ec) in H. injection H as <- <-. auto.
  - destruct (fetch_api_data_spec (schedule_url team) a)
      as (text & a1 & Hf & Hc & Hd & _ & Hr).
    rewrite (get_cached_miss _ _ _ _ Ec Hf) in H.
    destruct (let+ _ := _ in _) as [parsed|e]; injection H as <- <-.
    + cbn. split; [exact Hd|]. split; [|exact Hr].
      intros t s Ht. rewrite Hc. destruct (decide (team = t)) as [<-|Hne].
      * congruence.
      * rewrite lookup_insert_ne by exact Hne. exact Ht.
    + split; [exact Hd|]. split; [|exact Hr]. intros t s Ht. rewrite Hc. exact Ht.
Qed.

Lemma run_loads_frame later : forall results a results' a',
  run_loads later results a = (results', a') ->
  current_date a' = current_date a /\
  (forall t s, _cache a !! t = Some s -> _cache a' !! t = Some s).
Proof.
  induction later as [|team rest IH]; intros results a results' a' H; cbn [run_loads] in H.
  - injection H as <- <-. auto.
  - destruct (get_team_schedule_cached team a) as [r a1] eqn:Eg.
    apply get_cached_frame in Eg as (Hd & Hc & _).
    apply IH in H as (Hd' & Hc'). split; [congruence | auto].
Qed.

End Cache.

(** ** The ranker *)

Section Sorting.

Lemma insert_desc_perm x l : Permutation (insert_desc x l) (x :: l).
Proof.
  induction l as [|y r IH]; cbn; [reflexivity|].
  destruct (row_count x <? row_count y); [|reflexivity].
  rewrite IH. apply perm_swap.
Qed.

Lemma sorted_desc_perm l : Permutation (sorted_desc l) l.
Proof.
  induction l as [|x r IH]; cbn; [reflexivity|].
  rewrite insert_desc_perm. constructor. exact IH.
Qed.

Lemma insert_desc_sorted x l :
  StronglySorted count_ge l -> StronglySorted count_ge (insert_desc x l).
Proof.
  induction 1 as [|y r Hs IH Hall]; cbn; [repeat constructor|].
  destruct (Z.ltb_spec (row_count x) (row_count y)) as [Hlt|Hge].
  - constructor; [exact IH|].
    rewrite insert_desc_perm.
    constructor; [unfold count_ge; lia | exact Hall].
  - constructor; [constructor; assumption|].
    constructor; [exact Hge|].
    eapply Forall_impl; [exact Hall|]. unfold count_ge. cbn. intros z Hz. lia.
Qed.

Lemma sorted_desc_sorted l : StronglySorted count_ge (sorted_desc l).
Proof.
  induction l as [|x r IH]; cbn; [constructor|]. apply insert_desc_sorted, IH.
Qed.

Lemma insert_desc_stable c x l :
  List.filter (has_count c) (insert_desc x l) = List.filter (has_count c) (x :: l).
Proof.
  induction l as [|y r IH]; [reflexivity|]. cbn [insert_desc].
  destruct (Z.ltb_spec (row_count x) (row_count y)) as [Hlt|Hge]; [|reflexivity].
  cbn [List.filter] in *. rewrite IH. unfold has_count.
  destruct (Z.eqb_spec (row_count x) c), (Z.eqb_spec (row_count y) c); try reflexivity. lia.
Qed.

(** The sort is stable: rows with one count keep their order. *)
Lemma sorted_desc_stable c l :
  List.filter (has_count c) (sorted_desc l) = List.filter (has_count c) l.
Proof.
  induction l as [|x r IH]; [reflexivity|]. cbn [sorted_desc fold_right].
  rewrite insert_desc_stable. cbn [List.filter]. fold (sorted_desc r). rewrite IH. reflexivity.
Qed.

(** Two descending rankings of the same rows show the same counts. *)
Lemma sorted_counts_unique l1 l2 :
  StronglySorted count_ge l1 -> StronglySorted count_ge l2 -> Permutation l1 l2 ->
  map row_count l1 = map row_count l2.
Proof.
  intros H1 H2 HP.
  assert (Hanti : AntiSymm (=) (fun x y : Z => y <= x)) by (intros x y ? ?; lia).
  apply (StronglySorted_unique (fun x y : Z => y <= x)).
  - apply (StronglySorted_fmap row_count count_ge); [|exact H1]. unfold count_ge. auto.
  - apply (StronglySorted_fmap row_count count_ge); [|exact H2]. unfold count_ge. auto.
  - apply Permutation_map. exact HP.
Qed.

(** Without ties the ranking is determined by the set of rows. *)
Lemma perm_distinct_keys_eq (l1 : list row) : forall l2,
  Permutation l1 l2 -> NoDup (map row_count l1) ->
  map row_count l1 = map row_count l2 -> l1 = l2.
Proof.
  induction l1 as [|x r IH]; intros [|y l2] HP Hnd Hmap; try discriminate; [reflexivity|].
  cbn in Hmap. injection Hmap as Hxy Hmap.
  apply NoDup_cons in Hnd as [Hnin Hnd].
  assert (Hy : y ∈ x :: r) by (rewrite HP; left).
  apply elem_of_cons in Hy as [-> | Hy].
  - f_equal. apply IH; [|assumption|assumption]. eapply Permutation_cons_inv, HP.
  - exfalso. apply Hnin. rewrite Hxy. apply list_elem_of_fmap. eauto.
Qed.

End Sorting.

Section Ranker.
Context `{RT : Runtime}.

Lemma analyze_unfold team off a :
  analyze_team_viewing_time team off a =
  match get_team_schedule_cached team a with
  | (Ok sched, a') => (evaluate off team sched, a')
  | (Raise e, a') => (Raise e, a')
  end.
Proof.
  unfold analyze_team_viewing_time, bind, lift, ret, evaluate.
  destruct (get_team_schedule_cached team a) as [[sched|e] a']; [|reflexivity].
  destruct (timedelta_hours off) as [delta|e]; cbn [rbind]; [|reflexivity].
  destruct (viewing_loop delta sched 0 []); reflexivity.
Qed.

Lemma evaluate_team off team sched r :
  evaluate off team sched = Ok r -> row_team r = team.
Proof.
  unfold evaluate. destruct (timedelta_hours off); cbn [rbind]; [|discriminate].
  destruct (viewing_loop _ _ _ _); cbn [rbind]; [|discriminate].
  intros [= <-]. reflexivity.
Qed.

Lemma analyze_warm team off a sched :
  _cache a !! team = Some sched ->
  analyze_team_viewing_time team off a = (evaluate off team sched, a).
Proof. intros H. rewrite analyze_unfold, (get_cached_hit _ _ _ H). reflexivity. Qed.

Lemma analyze_frame team off a r a' :
  analyze_team_viewing_time team off a = (r, a') ->
  current_date a' = current_date a /\
  (forall t s, _cache a !! t = Some s -> _cache a' !! t = Some s) /\
  (forall x, r = Ok x -> row_team x = team).
Proof.
  rewrite analyze_unfold.
  destruct (get_team_schedule_cached team a) as [[sched|e] a1] eqn:Eg;
    apply get_cached_frame in Eg as (Hd & Hc & _); intros [= <- <-];
    (split; [exact Hd|]); (split; [exact Hc|]).
  - intros x Hx. eapply evaluate_team, Hx.
  - discriminate.
Qed.

(** The collection loop never raises; it leaves one row per task that
    returned, in the order of completion. *)
Lemma collect_rankings_total off completed : forall acc a,
  exists rows a',
    collect_rankings off completed acc a = (Ok (acc ++ rows), a') /\
    map row_team rows `sublist_of` completed /\
    current_date a' = current_date a /\
    (forall t s, _cache a !! t = Some s -> _cache a' !! t = Some s).
Proof.
  induction completed as [|team rest IH]; intros acc a; cbn [collect_rankings].
  - exists [], a. rewrite app_nil_r. split; [reflexivity|]. split; [constructor|]. auto.
  - destruct (analyze_team_viewing_time team off a) as [[r|e] a1] eqn:Ea;
      apply analyze_frame in Ea as (Hd & Hc & Ht).
    + destruct (IH (acc ++ [(row_team r, row_count r, row_dates r)]) a1)
        as (rows & a' & -> & Hsub & Hd' & Hc').
      exists ((row_team r, row_count r, row_dates r) :: rows), a'.
      rewrite <- app_assoc. split; [reflexivity|].
      split; [|split; [congruence | auto]].
      cbn [map]. unfold row_team at 1. cbn [fst]. rewrite (Ht r eq_refl).
      constructor. exact Hsub.
    + destruct (IH acc a1) as (rows & a' & -> & Hsub & Hd' & Hc').
      exists rows, a'. split; [reflexivity|].
      split; [constructor; exact Hsub | split; [congruence | auto]].
Qed.

(** On a warm cache the analyzer is left as it was and the rows are those of
    the snapshot. *)
Lemma collect_rankings_warm off completed : forall acc a,
  (forall t, In t completed -> is_Some (_cache a !! t)) ->
  collect_rankings off completed acc a =
  (Ok (acc ++ omap (snapshot_row (_cache a) off) completed), a).
Proof.
  induction completed as [|team rest IH]; intros acc a Hw; cbn [collect_rankings].
  - cbn. rewrite app_nil_r. reflexivity.
  - destruct (Hw team (or_introl eq_refl)) as [sched Hs].
    rewrite (analyze_warm _ off _ _ Hs).
    cbn [omap list_omap]. unfold snapshot_row at 1. rewrite Hs.
    destruct (evaluate off team sched) as [[[t c] ds]|e].
    + rewrite IH by (intros t' Ht'; apply Hw; right; exact Ht').
      rewrite <- app_assoc. reflexivity.
    + apply IH. intros t' Ht'. apply Hw. right. exact Ht'.
Qed.

Lemma pool_built n : 0 < n -> ThreadPoolExecutor n = Ok tt.
Proof. unfold ThreadPoolExecutor. intros H. destruct (Z.leb_spec n 0); [lia | reflexivity]. Qed.

Lemma pool_refused n : n <= 0 -> ThreadPoolExecutor n = Raise ValueError.
Proof. unfold ThreadPoolExecutor. intros H. destruct (Z.leb_spec n 0); [reflexivity | lia]. Qed.

(** With a pool of at least one worker the ranking is the sort of what the
    collection loop leaves. *)
Lemma rank_unfold off completed a :
  0 < max_workers a ->
  rank_teams_by_viewing_availability_parallel off completed a =
  match collect_rankings off completed [] a with
  | (Ok rows, a') => (Ok (sorted_desc rows), a')
  | (Raise e, a') => (Raise e, a')
  end.
Proof.
  intros Hw. unfold rank_teams_by_viewing_availability_parallel, bind, ret.
  rewrite (pool_built _ Hw).
  destruct (collect_rankings off completed [] a) as [[rows|e] a']; reflexivity.
Qed.

(** Without a worker the pool is refused and no task is submitted. *)
Lemma rank_without_workers off completed a :
  max_workers a <= 0 ->
  rank_teams_by_viewing_availability_parallel off completed a = (Raise ValueError, a).
Proof.
  intros Hw. unfold rank_teams_by_viewing_availability_parallel, bind.
  rewrite (pool_refused _ Hw). reflexivity.
Qed.

Lemma generate_unfold top_n tz_completed team_completed a :
  generate_timezone_analysis_parallel top_n tz_completed team_completed a
  = collect_timezones top_n tz_completed team_completed [] a.
Proof. reflexivity. Qed.

Lemma warm_cache_unfold started racing a :
  0 < max_workers a ->
  warm_cache started racing a =
  (let '(results, a') := map_loads started racing [] a in
   match first_exception team_list results with
   | Some e => (Raise e, a')
   | None => (Ok tt, a')
   end).
Proof. intros Hw. unfold warm_cache, bind. rewrite (pool_built _ Hw). reflexivity. Qed.

Lemma warm_cache_without_workers started racing a :
  max_workers a <= 0 -> warm_cache started racing a = (Raise ValueError, a).
Proof. intros Hw. unfold warm_cache, bind. rewrite (pool_refused _ Hw). reflexivity. Qed.

(** *** The loads of [executor.map] *)

Lemma run_loads_extends started : forall results a results' a',
  run_loads started results a = (results', a') ->
  exists rs, results' = results ++ rs /\ map fst rs = started.
Proof.
  induction started as [|team rest IH]; intros results a results' a'; cbn [run_loads].
  - intros [= <- _]. exists []. rewrite app_nil_r. auto.
  - destruct (get_team_schedule_cached team a) as [r a1]. intros H.
    apply IH in H as (rs & -> & Hrs). exists ((team, r) :: rs).
    rewrite <- app_assoc. cbn. rewrite Hrs. auto.
Qed.

Lemma assoc_app_Some {V} t (v : V) rs rs' :
  assoc t rs = Some v -> assoc t (rs ++ rs') = Some v.
Proof.
  induction rs as [|[t' v'] r IH]; cbn; [discriminate|].
  destruct (String.eqb t t'); [auto | exact IH].
Qed.

(** Once met, an exception stays met. *)
Lemma exception_seen_mono teams (rs rs' : list (string * result schedule)) :
  exception_seen teams rs = true -> exception_seen teams (rs ++ rs') = true.
Proof.
  induction teams as [|t rest IH]; cbn [exception_seen]; [discriminate|].
  destruct (assoc t rs) as [[s|e]|] eqn:E; [| |discriminate];
    rewrite (assoc_app_Some _ _ _ rs' E); auto.
Qed.

(** The loads of [executor.map] are the loads of those that ran, a part of
    those submitted and all of them unless an exception was met. *)
Lemma map_loads_ran started racing : forall results a results' a',
  map_loads started racing results a = (results', a') ->
  exists ran,
    ran `sublist_of` started /\
    run_loads ran results a = (results', a') /\
    (exception_seen team_list results' = false -> ran = started).
Proof.
  induction started as [|team rest IH]; intros results a results' a'; cbn [map_loads].
  - intros [= <- <-]. exists []. split; [constructor|]. split; reflexivity.
  - destruct (exception_seen team_list results && negb (racing team)) eqn:Ecancel.
    + intros H. destruct (IH _ _ _ _ H) as (ran & Hsub & Hrun & _).
      exists ran. split; [constructor; exact Hsub|]. split; [exact Hrun|].
      intros Hend. exfalso. apply andb_true_iff in Ecancel as [Hseen _].
      destruct (run_loads_extends _ _ _ _ _ Hrun) as (rs & -> & _).
      rewrite (exception_seen_mono _ _ rs Hseen) in Hend. discriminate.
    + destruct (get_team_schedule_cached team a) as [r a1] eqn:Eg. intros H.
      destruct (IH _ _ _ _ H) as (ran & Hsub & Hrun & Hall).
      exists (team :: ran). split; [constructor; exact Hsub|].
      split; [cbn [run_loads]; rewrite Eg; exact Hrun|].
      intros Hend. rewrite (Hall Hend). reflexivity.
Qed.

(** When the load of the first team of [team_list] raises, [warm_cache]
    raises its exception, whichever loads are cancelled. *)
Lemma warm_cache_first_raises (started : list string) (racing : string -> bool)
      (a a1 : analyzer) (e : exn) :
  0 < max_workers a ->
  get_team_schedule_cached "NJD" a = (Raise e, a1) ->
  fst (warm_cache ("NJD" :: started) racing a) = Raise e.
Proof.
  intros Hw Hg. rewrite warm_cache_unfold by exact Hw. cbn [map_loads].
  change (exception_seen team_list []) with false. cbn [andb]. rewrite Hg.
  destruct (map_loads started racing ([] ++ [("NJD", Raise e)]) a1) as [results a2] eqn:Em.
  destruct (map_loads_ran _ _ _ _ _ _ Em) as (ran & _ & Hrun & _).
  destruct (run_loads_extends _ _ _ _ _ Hrun) as (rs & -> & _).
  change team_list with ("NJD" :: tail team_list). cbn [first_exception app assoc].
  reflexivity.
Qed.

End Ranker.

(** ** What every method keeps *)

Section Invariants.
Context `{RT : Runtime}.
Variable P : analyzer -> Prop.
Hypothesis HP : kept_by_get RT P.

Lemma analyze_keeps team off a r a' :
  P a -> analyze_team_viewing_time team off a = (r, a') -> P a'.
Proof.
  intros Ha. rewrite analyze_unfold.
  destruct (get_team_schedule_cached team a) as [[sched|e] a1] eqn:Eg;
    intros [= _ <-]; eapply HP; eassumption.
Qed.

Lemma collect_rankings_keeps off completed : forall acc a r a',
  P a -> collect_rankings off completed acc a = (r, a') -> P a'.
Proof.
  induction completed as [|team rest IH]; intros acc a r a' Ha; cbn [collect_rankings].
  - intros [= _ <-]. exact Ha.
  - destruct (analyze_team_viewing_time team off a) as [[x|e] a1] eqn:Ea;
      apply (analyze_keeps _ _ _ _ _ Ha) in Ea; apply IH; exact Ea.
Qed.

Lemma rank_keeps off completed a r a' :
  P a -> rank_teams_by_viewing_availability_parallel off completed a = (r, a') -> P a'.
Proof.
  intros Ha. destruct (Z.lt_ge_cases 0 (max_workers a)) as [Hw | Hw].
  - rewrite rank_unfold by exact Hw.
    destruct (collect_rankings off completed [] a) as [[rows|e] a1] eqn:Ec;
      intros [= _ <-]; eapply collect_rankings_keeps; eassumption.
  - rewrite rank_without_workers by exact Hw. intros [= _ <-]. exact Ha.
Qed.

Lemma process_timezone_keeps top_n tz completed a r a' :
  P a -> process_timezone top_n tz completed a = (r, a') -> P a'.
Proof.
  intros Ha. unfold process_timezone, bind, ret.
  destruct (rank_teams_by_viewing_availability_parallel tz completed a) as [[rows|e] a1] eqn:Er;
    intros [= _ <-]; eapply rank_keeps; eassumption.
Qed.

Lemma collect_timezones_keeps top_n team_completed tz_completed : forall acc a r a',
  P a -> collect_timezones top_n tz_completed team_completed acc a = (r, a') -> P a'.
Proof.
  induction tz_completed as [|tz rest IH]; intros acc a r a' Ha; cbn [collect_timezones].
  - intros [= _ <-]. exact Ha.
  - destruct (process_timezone top_n tz (team_completed tz) a) as [[[tz' data]|e] a1] eqn:Ep;
      apply (process_timezone_keeps _ _ _ _ _ _ Ha) in Ep; apply IH; exact Ep.
Qed.

Lemma generate_keeps top_n tz_completed team_completed a r a' :
  P a -> generate_timezone_analysis_parallel top_n tz_completed team_completed a = (r, a') ->
  P a'.
Proof. rewrite generate_unfold. apply collect_timezones_keeps. Qed.

Lemma run_loads_keeps started : forall results a results' a',
  P a -> run_loads started results a = (results', a') -> P a'.
Proof.
  induction started as [|team rest IH]; intros results a results' a' Ha; cbn [run_loads].
  - intros [= _ <-]. exact Ha.
  - destruct (get_team_schedule_cached team a) as [r a1] eqn:Eg.
    apply IH. eapply HP; eassumption.
Qed.

Lemma map_loads_keeps started racing : forall results a results' a',
  P a -> map_loads started racing results a = (results', a') -> P a'.
Proof.
  intros results a results' a' Ha H.
  destruct (map_loads_ran started racing results a results' a' H) as (ran & _ & Hrun & _).
  eapply run_loads_keeps; eassumption.
Qed.

Lemma warm_cache_keeps started racing a r a' :
  P a -> warm_cache started racing a = (r, a') -> P a'.
Proof.
  intros Ha. destruct (Z.lt_ge_cases 0 (max_workers a)) as [Hw | Hw].
  - rewrite warm_cache_unfold by exact Hw.
    destruct (map_loads started racing [] a) as [results a1] eqn:Er.
    apply (map_loads_keeps _ _ _ _ _ _ Ha) in Er.
    destruct (first_exception team_list results); intros [= _ <-]; exact Er.
  - rewrite warm_cache_without_workers by exact Hw. intros [= _ <-]. exact Ha.
Qed.

Lemma main_keeps started racing tz_completed team_completed :
  P (__init__ 12) -> P (snd (main started racing tz_completed team_completed)).
Proof.
  intros H0. unfold main, bind.
  destruct (warm_cache started racing (__init__ 12)) as [[u|e] a1] eqn:Ew;
    apply (warm_cache_keeps _ _ _ _ _ H0) in Ew; [|exact Ew].
  destruct (generate_timezone_analysis_parallel 5 tz_completed team_completed a1)
    as [r a2] eqn:Ec.
  eapply generate_keeps; eassumption.
Qed.

End Invariants.

Section Workers.
Context `{RT : Runtime}.

Lemma workers_kept w : kept_by_get RT (fun a => max_workers a = w).
Proof.
  intros team a r a' Ha Hg. destruct (_cache a !! team) as [s|] eqn:Ec.
  - rewrite (get_cached_hit _ _ _ Ec) in Hg. injection Hg as _ <-. exact Ha.
  - destruct (fetch_api_data_spec (schedule_url team) a) as (text & a1 & Hf & _ & _ & Hw & _).
    rewrite (get_cached_miss _ _ _ _ Ec Hf) in Hg.
    destruct (let+ _ := _ in _); injection Hg as _ <-; cbn; congruence.
Qed.

End Workers.


(** ** The aggregator *)

Section Aggregator.
Context `{RT : Runtime}.

Lemma dict_set_fresh {V} k (v : V) l :
  k ∉ map fst l -> dict_set k v l = l ++ [(k, v)].
Proof.
  induction l as [|[k' v'] r IH]; cbn; intros Hn; [reflexivity|].
  destruct (String.eqb_spec k k') as [->|Hne].
  - exfalso. apply Hn. left.
  - rewrite IH; [reflexivity|]. intros Hin. apply Hn. right. exact Hin.
Qed.

(** The dict built from the first [k] rows of a ranking of distinct teams. *)
Lemma top_rows_fold (rows : list row) k :
  NoDup (map row_team rows) -> (k <= length rows)%nat ->
  fold_left (fun res i =>
               match rows !! i with
               | Some r => dict_set (row_team r) (row_count r) res
               | None => res
               end) (seq 0 k) [] =
  map (fun r => (row_team r, row_count r)) (take k rows).
Proof.
  intros Hnd. induction k as [|k IH]; intros Hk; [reflexivity|].
  rewrite seq_S, fold_left_app, IH by lia. cbn [fold_left Nat.add].
  destruct (lookup_lt_is_Some_2 rows k ltac:(lia)) as [r Hr]. rewrite Hr.
  rewrite (take_S_r _ _ _ Hr), map_app. cbn [map].
  apply dict_set_fresh. rewrite map_map. cbn [fst].
  intros Hin. rewrite <- (take_drop k rows), (drop_S _ _ _ Hr), map_app in Hnd.
  apply NoDup_app in Hnd as (_ & Hdis & _). apply (Hdis _ Hin). cbn [map]. left.
Qed.

Lemma rank_total off completed a :
  0 < max_workers a ->
  exists presort a',
    collect_rankings off completed [] a = (Ok presort, a') /\
    rank_teams_by_viewing_availability_parallel off completed a
      = (Ok (sorted_desc presort), a') /\
    map row_team presort `sublist_of` completed /\
    max_workers a' = max_workers a.
Proof.
  intros Hw.
  destruct (collect_rankings_total off completed [] a) as (rows & a' & Hc & Hsub & _).
  exists rows, a'. rewrite rank_unfold, Hc by exact Hw.
  split; [reflexivity|]. split; [reflexivity|]. split; [exact Hsub|].
  exact (collect_rankings_keeps _ (workers_kept (max_workers a)) _ _ _ _ _ _ eq_refl Hc).
Qed.

Lemma process_timezone_spec top_n tz completed a :
  0 < max_workers a ->
  NoDup completed ->
  exists ranking a',
    rank_teams_by_viewing_availability_parallel tz completed a = (Ok ranking, a') /\
    process_timezone top_n tz completed a = (Ok (tz, top_entries top_n ranking), a') /\
    Z.of_nat (length (top_entries top_n ranking))
      = Z.max 0 (Z.min top_n (Z.of_nat (length ranking))) /\
    NoDup (map fst (top_entries top_n ranking)) /\
    max_workers a' = max_workers a.
Proof.
  intros Hw Hnd.
  destruct (rank_total tz completed a Hw) as (presort & a' & _ & Hr & Hsub & Hw').
  assert (Hteams : NoDup (map row_team (sorted_desc presort))).
  { rewrite (Permutation_map row_team (sorted_desc_perm presort)).
    eapply sublist_NoDup; [exact Hnd | exact Hsub]. }
  exists (sorted_desc presort), a'. split; [exact Hr|].
  unfold process_timezone, bind, ret. rewrite Hr.
  set (ranking := sorted_desc presort) in *.
  assert (Htake : take (Z.to_nat (Z.min top_n (Z.of_nat (length ranking)))) ranking
                  = take (Z.to_nat top_n) ranking).
  { destruct (Z.le_gt_cases top_n (Z.of_nat (length ranking))).
    - rewrite Z.min_l by lia. reflexivity.
    - rewrite Z.min_r, Nat2Z.id, firstn_all by lia. symmetry. apply take_ge. lia. }
  split; [|split; [|split]].
  - rewrite top_rows_fold by (exact Hteams || lia). unfold top_entries. rewrite Htake.
    reflexivity.
  - unfold top_entries. rewrite length_map, length_take. lia.
  - unfold top_entries. rewrite map_map. cbn [fst].
    rewrite <- (take_drop (Z.to_nat top_n) ranking), map_app in Hteams.
    apply NoDup_app in Hteams as (H & _). exact H.
  - exact Hw'.
Qed.

(** With a pool of at least one worker every timezone gets its entry, made
    of the ranking its own task obtained. *)
Lemma collect_timezones_spec top_n team_completed tz_completed : forall acc a,
  0 < max_workers a ->
  (forall tz, NoDup (team_completed tz)) ->
  NoDup (map timezone_key tz_completed) ->
  (forall tz, In tz tz_completed -> timezone_key tz ∉ map fst acc) ->
  exists entries a',
    collect_timezones top_n tz_completed team_completed acc a = (Ok (acc ++ entries), a') /\
    Forall2 (entry_of top_n) (rankings_of_run tz_completed team_completed a) entries /\
    map fst (rankings_of_run tz_completed team_completed a) = tz_completed.
Proof.
  induction tz_completed as [|tz rest IH]; intros acc a Hw Hteams Hnd Hacc;
    cbn [collect_timezones rankings_of_run].
  - exists [], a. rewrite app_nil_r. split; [reflexivity|]. split; [constructor | reflexivity].
  - destruct (process_timezone_spec top_n tz (team_completed tz) a Hw (Hteams tz))
      as (ranking & a1 & Hr & -> & Hlen & Hnd' & Hw1).
    rewrite Hr.
    rewrite dict_set_fresh by (apply Hacc; left; reflexivity).
    cbn [map] in Hnd. apply NoDup_cons in Hnd as [Hnin Hnd].
    destruct (IH (acc ++ [(timezone_key tz, top_entries top_n ranking)]) a1
                 ltac:(rewrite Hw1; exact Hw) Hteams Hnd)
      as (entries & a' & -> & HF & Hfst).
    { intros tz' Hin. rewrite map_app. cbn [map fst]. rewrite elem_of_app.
      intros [H | H].
      - revert H. apply Hacc. right. exact Hin.
      - apply list_elem_of_singleton in H. apply Hnin. rewrite <- H.
        apply list_elem_of_fmap. exists tz'. split; [reflexivity|].
        apply list_elem_of_In. exact Hin. }
    exists ((timezone_key tz, top_entries top_n ranking) :: entries), a'.
    rewrite <- app_assoc. split; [reflexivity|].
    split; [|cbn [map fst]; rewrite Hfst; reflexivity].
    constructor; [|exact HF]. split; [reflexivity|]. exists ranking. auto.
Qed.

(** Without a worker every timezone task raises and the mapping stays
    empty. *)
Lemma collect_timezones_without_workers top_n team_completed tz_completed : forall acc a,
  max_workers a <= 0 ->
  collect_timezones top_n tz_completed team_completed acc a = (Ok acc, a).
Proof.
  induction tz_completed as [|tz rest IH]; intros acc a Hw; cbn [collect_timezones];
    [reflexivity|].
  unfold process_timezone, bind. rewrite rank_without_workers by exact Hw. apply IH, Hw.
Qed.

Lemma timezone_keys : map timezone_key timezone_range = timezone_labels.
Proof. vm_compute. reflexivity. Qed.

Lemma timezone_labels_NoDup : NoDup timezone_labels.
Proof. apply (bool_decide_unpack _). vm_compute. reflexivity. Qed.

Lemma team_list_NoDup : NoDup team_list.
Proof. apply (bool_decide_unpack _). vm_compute. reflexivity. Qed.

End Aggregator.

(** ** Dates as text *)

Section DateText.

Lemma digit_inj a b : 0 <= a < 10 -> 0 <= b < 10 -> PyStr.digit a = PyStr.digit b -> a = b.
Proof.
  intros Ha Hb H. unfold PyStr.digit in H.
  apply (f_equal N_of_ascii) in H.
  rewrite !N_ascii_embedding in H by lia. lia.
Qed.

Lemma fmt02_inj a b : 0 <= a < 100 -> 0 <= b < 100 -> PyStr.fmt02 a = PyStr.fmt02 b -> a = b.
Proof.
  intros Ha Hb H. unfold PyStr.fmt02 in H. injection H as H1 H2.
  apply digit_inj in H1; [|Z.div_mod_to_equations; lia..].
  apply digit_inj in H2; [|Z.div_mod_to_equations; lia..].
  Z.div_mod_to_equations; lia.
Qed.

Lemma fmt04_inj a b :
  0 <= a < 10000 -> 0 <= b < 10000 -> PyStr.fmt04 a = PyStr.fmt04 b -> a = b.
Proof.
  intros Ha Hb H. unfold PyStr.fmt04, PyStr.fmt02 in H. injection H as H1 H2 H3 H4.
  apply digit_inj in H1; [|Z.div_mod_to_equations; lia..].
  apply digit_inj in H2; [|Z.div_mod_to_equations; lia..].
  apply digit_inj in H3; [|Z.div_mod_to_equations; lia..].
  apply digit_inj in H4; [|Z.div_mod_to_equations; lia..].
  Z.div_mod_to_equations; lia.
Qed.

(** Two dates with the same ISO text are the same date. *)
Lemma isoformat_inj d1 d2 :
  valid_date d1 -> valid_date d2 -> PyStr.isoformat d1 = PyStr.isoformat d2 -> d1 = d2.
Proof.
  intros (Hy1 & Hm1 & Hd1) (Hy2 & Hm2 & Hd2) H.
  destruct d1 as [y1 m1 d1], d2 as [y2 m2 d2]. cbn [year month day] in *.
  unfold PyStr.isoformat in H. cbn [year month day] in H.
  assert (Hy : PyStr.fmt04 y1 = PyStr.fmt04 y2 /\ PyStr.fmt02 m1 = PyStr.fmt02 m2
               /\ PyStr.fmt02 d1 = PyStr.fmt02 d2).
  { unfold PyStr.fmt04, PyStr.fmt02 in *. cbn [String.append] in H.
    injection H as -> -> -> -> -> -> -> ->. auto. }
  destruct Hy as (Ey & Em & Ed).
  apply fmt04_inj in Ey; [|lia..]. apply fmt02_inj in Em, Ed; [|lia..]. congruence.
Qed.

Lemma datetime_add_valid_date dt delta loc :
  datetime_add dt delta = Ok loc -> valid_date (dt_date loc).
Proof.
  unfold datetime_add.
  destruct (timedelta_new _ _ _) as [d1|]; cbn [rbind]; [|discriminate].
  destruct (timedelta_add d1 delta) as [d2|]; cbn [rbind]; [|discriminate].
  destruct ((0 <? days d2) && (days d2 <=? _MAXORDINAL)) eqn:E; [|discriminate].
  intros [= <-]. cbn [dt_date].
  apply andb_true_iff in E as [E1 E2]. apply Z.ltb_lt in E1. apply Z.leb_le in E2.
  apply fromordinal_spec. lia.
Qed.

End DateText.

(** * The claims *)

Lemma warmed_lookup (RT : Runtime) (sched : schedule) t :
  In t team_list -> _cache (warmed RT sched) !! t = Some sched.
Proof.
  revert t. apply List.Forall_forall. unfold warmed, set_cache. cbn [_cache].
  repeat constructor; vm_compute; reflexivity.
Qed.

Lemma warmed_is_warm (RT : Runtime) (sched : schedule) t :
  In t team_list -> is_Some (_cache (warmed RT sched) !! t).
Proof. intros H. rewrite (warmed_lookup RT sched t H). eauto. Qed.

(** ** C1: what the completion order can and cannot change *)

(** C1, as stated, fails: with every team on one game counted at UTC-5, the
    ranking lists the teams in the order their evaluations completed, so two
    completion orders of one snapshot give two rankings. *)
Lemma completion_order_changes_ranking :
  Permutation (rev team_list) team_list /\
  (forall t, In t team_list -> is_Some (_cache scenario_analyzer !! t)) /\
  @rank_teams_by_viewing_availability_parallel scenario_world (-5) team_list
     scenario_analyzer
  = (Ok (map (fun t => (t, 1, ["2025-01-06"])) team_list), scenario_analyzer) /\
  @rank_teams_by_viewing_availability_parallel scenario_world (-5) (rev team_list)
     scenario_analyzer
  = (Ok (map (fun t => (t, 1, ["2025-01-06"])) (rev team_list)), scenario_analyzer) /\
  fst (@rank_teams_by_viewing_availability_parallel scenario_world (-5) team_list
         scenario_analyzer)
  <> fst (@rank_teams_by_viewing_availability_parallel scenario_world (-5) (rev team_list)
            scenario_analyzer).
Proof.
  split; [symmetry; apply Permutation_rev|].
  split; [apply warmed_is_warm|].
  assert (H1 : @rank_teams_by_viewing_availability_parallel scenario_world (-5) team_list
                 scenario_analyzer
               = (Ok (map (fun t => (t, 1, ["2025-01-06"])) team_list), scenario_analyzer))
    by (vm_compute; reflexivity).
  assert (H2 : @rank_teams_by_viewing_availability_parallel scenario_world (-5)
                 (rev team_list) scenario_analyzer
               = (Ok (map (fun t => (t, 1, ["2025-01-06"])) (rev team_list)),
                  scenario_analyzer))
    by (vm_compute; reflexivity).
  split; [exact H1|]. split; [exact H2|].
  rewrite H1, H2. cbn [fst]. intros H. vm_compute in H. discriminate H.
Qed.

(** C1, amended: on one snapshot of the cache the ranking is the stable
    descending sort of the snapshot's rows taken in completion order, so
    that rows with one count stay in completion order. Two runs, with pools
    of any two sizes of at least one worker (a pool without workers is
    refused with [ValueError]), leave the analyzer as it was and give
    rankings that are permutations of each other with the same sequence of
    counts; the rankings are equal when the completion orders are, or when
    no two teams have the same count. *)
Theorem ranking_determined_up_to_ties `{RT : Runtime} (a1 a2 : analyzer) (off : Z)
        (o1 o2 : list string) :
  0 < max_workers a1 -> 0 < max_workers a2 ->
  _cache a1 = _cache a2 ->
  (forall t, In t team_list -> is_Some (_cache a1 !! t)) ->
  Permutation o1 team_list -> Permutation o2 team_list ->
  exists r1 r2,
    rank_teams_by_viewing_availability_parallel off o1 a1 = (Ok r1, a1) /\
    rank_teams_by_viewing_availability_parallel off o2 a2 = (Ok r2, a2) /\
    r1 = sorted_desc (omap (snapshot_row (_cache a1) off) o1) /\
    r2 = sorted_desc (omap (snapshot_row (_cache a1) off) o2) /\
    Permutation r1 r2 /\
    map row_count r1 = map row_count r2 /\
    (forall c, List.filter (has_count c) r1
               = List.filter (has_count c) (omap (snapshot_row (_cache a1) off) o1)) /\
    (o1 = o2 -> r1 = r2) /\
    (NoDup (map row_count r1) -> r1 = r2).
Proof.
  intros Hpool1 Hpool2 Hc Hw Hp1 Hp2.
  assert (Hw1 : forall t, In t o1 -> is_Some (_cache a1 !! t)).
  { intros t Ht. apply Hw. eapply Permutation_in; [exact Hp1 | exact Ht]. }
  assert (Hw2 : forall t, In t o2 -> is_Some (_cache a2 !! t)).
  { intros t Ht. rewrite <- Hc. apply Hw. eapply Permutation_in; [exact Hp2 | exact Ht]. }
  eexists _, _.
  rewrite !rank_unfold, !collect_rankings_warm by assumption. cbn [app].
  rewrite <- Hc.
  split; [reflexivity|]. split; [reflexivity|]. split; [reflexivity|]. split; [reflexivity|].
  set (f := snapshot_row (_cache a1) off).
  assert (HP : Permutation (sorted_desc (omap f o1)) (sorted_desc (omap f o2))).
  { rewrite !sorted_desc_perm. apply omap_Permutation. rewrite Hp1, Hp2. reflexivity. }
  assert (Hcounts : map row_count (sorted_desc (omap f o1))
                    = map row_count (sorted_desc (omap f o2)))
    by (apply sorted_counts_unique; [apply sorted_desc_sorted.. | exact HP]).
  split; [exact HP|]. split; [exact Hcounts|].
  split; [intros c; apply sorted_desc_stable|]. split; [intros ->; reflexivity|].
  intros Hnd. apply perm_distinct_keys_eq; assumption.
Qed.

Lemma ranking_determined_up_to_ties_witness :
  exists r1 r2,
    @rank_teams_by_viewing_availability_parallel scenario_world (-5) team_list
       scenario_analyzer = (Ok r1, scenario_analyzer) /\
    @rank_teams_by_viewing_availability_parallel scenario_world (-5) (rev team_list)
       scenario_analyzer = (Ok r2, scenario_analyzer) /\
    r1 = sorted_desc (omap (snapshot_row (_cache scenario_analyzer) (-5)) team_list) /\
    r2 = sorted_desc (omap (snapshot_row (_cache scenario_analyzer) (-5)) (rev team_list)) /\
    Permutation r1 r2 /\
    map row_count r1 = map row_count r2 /\
    (forall c, List.filter (has_count c) r1
               = List.filter (has_count c)
                   (omap (snapshot_row (_cache scenario_analyzer) (-5)) team_list)) /\
    (team_list = rev team_list -> r1 = r2) /\
    (NoDup (map row_count r1) -> r1 = r2).
Proof.
  apply (@ranking_determined_up_to_ties scenario_world scenario_analyzer scenario_analyzer
           (-5) team_list (rev team_list)).
  - reflexivity.
  - reflexivity.
  - reflexivity.
  - apply warmed_is_warm.
  - reflexivity.
  - symmetry. apply Permutation_rev.
Defined.

(** ** C2: the ranking is sorted, and the sort is stable *)

(** C2: every ranking returned is in descending order of [viewable_count] and
    is a stable rearrangement of the rows as they were collected: for each
    count, the rows with that count appear in the order in which they were
    appended, which is the order of completion. With a pool of at least one
    worker the call returns such a ranking; the only call that returns
    none is the one whose pool is refused. *)
Theorem ranking_sorted_and_stable `{RT : Runtime} (off : Z) (completed : list string)
        (a : analyzer) :
  0 < max_workers a ->
  exists presort ranking a',
    collect_rankings off completed [] a = (Ok presort, a') /\
    rank_teams_by_viewing_availability_parallel off completed a = (Ok ranking, a') /\
    map row_team presort `sublist_of` completed /\
    Permutation ranking presort /\
    StronglySorted count_ge ranking /\
    forall c, List.filter (has_count c) ranking = List.filter (has_count c) presort.
Proof.
  intros Hw. destruct (rank_total off completed a Hw) as (presort & a' & Hc & Hr & Hsub & _).
  exists presort, (sorted_desc presort), a'.
  split; [exact Hc|]. split; [exact Hr|]. split; [exact Hsub|].
  split; [apply sorted_desc_perm|]. split; [apply sorted_desc_sorted|].
  intros c. apply sorted_desc_stable.
Qed.

Lemma ranking_sorted_and_stable_witness :
  0 < max_workers scenario_analyzer /\
  exists presort ranking a',
    @collect_rankings scenario_world (-5) (rev team_list) [] scenario_analyzer
    = (Ok presort, a') /\
    @rank_teams_by_viewing_availability_parallel scenario_world (-5) (rev team_list)
       scenario_analyzer = (Ok ranking, a') /\
    map row_team presort `sublist_of` rev team_list /\
    Permutation ranking presort /\
    StronglySorted count_ge ranking /\
    forall c, List.filter (has_count c) ranking = List.filter (has_count c) presort.
Proof.
  assert (H : 0 < max_workers scenario_analyzer) by reflexivity.
  split; [exact H|].
  exact (@ranking_sorted_and_stable scenario_world (-5) (rev team_list) scenario_analyzer H).
Defined.

(** Every call that returns a ranking had a pool of at least one worker, so
    that every ranking returned is one of those above; a call whose pool is
    refused raises [ValueError] and leaves the analyzer as it was. *)
Lemma ranking_returned_had_workers `{RT : Runtime} (off : Z) (completed : list string)
      (a a' : analyzer) (ranking : list row) :
  rank_teams_by_viewing_availability_parallel off completed a = (Ok ranking, a') ->
  0 < max_workers a.
Proof.
  intros H. destruct (Z.lt_ge_cases 0 (max_workers a)) as [Hw | Hw]; [exact Hw|].
  rewrite rank_without_workers in H by exact Hw. discriminate.
Qed.

(** ** C3 and C8: the evaluation in local time *)

(** C3: for a schedule of datetimes and an offset whose local instants are
    days [date] can hold, the evaluation returns, and it counts exactly the
    games whose local instant (the UTC instant plus [off] hours on the time
    line) falls, on the weekday of that local instant, inside that weekday's
    window with both bounds included; the dates reported are those of the
    counted games, in order. The local [datetime] the code builds is that
    instant and carries that weekday. A game at 2024-01-01T02:00Z seen from
    UTC-5 is at 21:00 on Sunday 2023-12-31, and counts as a Sunday game. *)
Theorem evaluation_counts_local_window `{RT : Runtime} (a a' : analyzer) (team : string)
        (off : Z) (sched : schedule) :
  get_team_schedule_cached team a = (Ok sched, a') ->
  timedelta_range off ->
  Forall (fun g : game => valid_datetime (fst g)) sched ->
  Forall (representable off) sched ->
  analyze_team_viewing_time team off a
  = (Ok (team, Z.of_nat (length (List.filter (watchable off) sched)),
         map snd (List.filter (watchable off) sched)), a') /\
  (forall g : game, In g sched ->
     exists delta loc,
       timedelta_hours off = Ok delta /\
       datetime_add (fst g) delta = Ok loc /\
       to_micros loc = to_micros (fst g) + off * 3600000000 /\
       strftime_A loc = local_weekday_name off (fst g) /\
       (watchable off g = true <->
        exists s e, assoc (strftime_A loc) VIEWING_WINDOWS_TIME = Some (s, e) /\
                    time_le s (dt_time loc) = true /\ time_le (dt_time loc) e = true)) /\
  (rbind (timedelta_hours (-5)) (datetime_add (utc 2024 1 1 2 0))
   = Ok (mkdatetime (mkdate 2023 12 31) (mktime 21 0 0 0) (Some 0)) /\
   strftime_A (mkdatetime (mkdate 2023 12 31) (mktime 21 0 0 0) (Some 0)) = "Sunday" /\
   strftime_A (utc 2024 1 1 2 0) = "Monday" /\
   local_weekday_name (-5) (utc 2024 1 1 2 0) = "Sunday" /\
   watchable (-5) (utc 2024 1 1 2 0, "2024-01-01") = true).
Proof.
  intros Hget Hoff Hv Hr.
  destruct (timedelta_hours_ok off Hoff) as [delta Hd].
  split; [|split].
  - rewrite analyze_unfold, Hget. unfold evaluate. rewrite Hd. cbn [rbind].
    rewrite (viewing_loop_spec off delta sched Hd Hv Hr). reflexivity.
  - intros g Hg. rewrite List.Forall_forall in Hv, Hr.
    destruct (counted_watchable off delta g Hd (Hv g Hg) (Hr g Hg))
      as (loc & Hadd & Hmic & Hwd & Hcw).
    exists delta, loc. repeat (split; [assumption|]).
    rewrite <- Hcw. destruct g as [dt d]. rewrite (counted_eq _ _ _ _ Hadd).
    unfold datetime_time.
    destruct (assoc (strftime_A loc) VIEWING_WINDOWS_TIME) as [[s e]|].
    + rewrite andb_true_iff. split.
      * intros [H1 H2]. exists s, e. auto.
      * intros (s' & e' & [= <- <-] & H1 & H2). auto.
    + split; [discriminate|]. intros (s' & e' & H & _). discriminate H.
  - repeat split; vm_compute; reflexivity.
Qed.

Lemma evaluation_counts_local_window_witness :
  (@get_team_schedule_cached scenario_world "NJD" scenario_analyzer
   = (Ok scenario_schedule, scenario_analyzer) /\
   timedelta_range (-5) /\
   Forall (fun g : game => valid_datetime (fst g)) scenario_schedule /\
   Forall (representable (-5)) scenario_schedule) /\
  @analyze_team_viewing_time scenario_world "NJD" (-5) scenario_analyzer
  = (Ok ("NJD", Z.of_nat (length (List.filter (watchable (-5)) scenario_schedule)),
         map snd (List.filter (watchable (-5)) scenario_schedule)), scenario_analyzer).
Proof.
  assert (H1 : @get_team_schedule_cached scenario_world "NJD" scenario_analyzer
               = (Ok scenario_schedule, scenario_analyzer)) by (vm_compute; reflexivity).
  assert (H2 : timedelta_range (-5)) by (unfold timedelta_range; lia).
  assert (H3 : Forall (fun g : game => valid_datetime (fst g)) scenario_schedule)
    by (repeat constructor; cbn; lia).
  assert (H4 : Forall (representable (-5)) scenario_schedule).
  { repeat constructor; unfold representable; cbn [fst];
      change (local_day (-5) (utc 2025 1 6 23 0)) with 739257; unfold _MAXORDINAL; lia. }
  split; [auto|].
  exact (proj1 (@evaluation_counts_local_window scenario_world scenario_analyzer
                  scenario_analyzer "NJD" (-5) scenario_schedule H1 H2 H3 H4)).
Defined.

(** C8: whatever the world, an analyzer that holds the one game of
    2025-01-06T23:00Z for a team counts it at UTC-5, where it starts at 18:00
    on Monday, inside Monday's window from 15:00 to 22:30, and does not count
    it at UTC+9, where it starts at 08:00 on Tuesday, before Tuesday's window
    opens at 15:00. *)
Theorem scenario_one_game `{RT : Runtime} (a : analyzer) (team : string) :
  _cache a !! team = Some scenario_schedule ->
  analyze_team_viewing_time team (-5) a = (Ok (team, 1, ["2025-01-06"]), a) /\
  analyze_team_viewing_time team 9 a = (Ok (team, 0, []), a) /\
  rbind (timedelta_hours (-5)) (datetime_add (utc 2025 1 6 23 0))
  = Ok (mkdatetime (mkdate 2025 1 6) (mktime 18 0 0 0) (Some 0)) /\
  strftime_A (mkdatetime (mkdate 2025 1 6) (mktime 18 0 0 0) (Some 0)) = "Monday" /\
  assoc "Monday" VIEWING_WINDOWS_TIME = Some (mktime 15 0 0 0, mktime 22 30 0 0) /\
  rbind (timedelta_hours 9) (datetime_add (utc 2025 1 6 23 0))
  = Ok (mkdatetime (mkdate 2025 1 7) (mktime 8 0 0 0) (Some 0)) /\
  strftime_A (mkdatetime (mkdate 2025 1 7) (mktime 8 0 0 0) (Some 0)) = "Tuesday" /\
  assoc "Tuesday" VIEWING_WINDOWS_TIME = Some (mktime 15 0 0 0, mktime 22 30 0 0).
Proof.
  intros H. rewrite !(analyze_warm _ _ _ _ H).
  assert (E1 : forall t, evaluate (-5) t scenario_schedule = Ok (t, 1, ["2025-01-06"]))
    by (intros t; vm_compute; reflexivity).
  assert (E2 : forall t, evaluate 9 t scenario_schedule = Ok (t, 0, []))
    by (intros t; vm_compute; reflexivity).
  rewrite E1, E2. repeat split; vm_compute; reflexivity.
Qed.

Lemma scenario_one_game_witness :
  _cache (snd (@warm_cache scenario_world team_list (fun _ => false)
            (@__init__ scenario_world 12))) !! "NJD"
  = Some scenario_schedule /\
  @analyze_team_viewing_time scenario_world "NJD" (-5)
     (snd (@warm_cache scenario_world team_list (fun _ => false)
            (@__init__ scenario_world 12)))
  = (Ok ("NJD", 1, ["2025-01-06"]),
     snd (@warm_cache scenario_world team_list (fun _ => false)
            (@__init__ scenario_world 12))) /\
  @analyze_team_viewing_time scenario_world "NJD" 9
     (snd (@warm_cache scenario_world team_list (fun _ => false)
            (@__init__ scenario_world 12)))
  = (Ok ("NJD", 0, []),
     snd (@warm_cache scenario_world team_list (fun _ => false)
            (@__init__ scenario_world 12))).
Proof.
  assert (H : _cache (snd (@warm_cache scenario_world team_list (fun _ => false)
            (@__init__ scenario_world 12)))
              !! "NJD" = Some scenario_schedule) by (vm_compute; reflexivity).
  split; [exact H|].
  pose proof (@scenario_one_game scenario_world _ "NJD" H) as (H1 & H2 & _).
  split; [exact H1 | exact H2].
Defined.

(** Both bounds of a window count: on Monday 2025-01-06, seen from UTC, a
    game at 15:00 and a game at 22:30 are counted, a game one microsecond
    after 22:30 and a game at 14:59 are not. *)
Example window_bounds_are_inclusive :
  evaluate 0 "NJD"
    [(utc 2025 1 6 15 0, "a"); (utc 2025 1 6 22 30, "b");
     (mkdatetime (mkdate 2025 1 6) (mktime 22 30 0 1) (Some 0), "c");
     (utc 2025 1 6 14 59, "d")]
  = Ok ("NJD", 2, ["a"; "b"]).
Proof. vm_compute. reflexivity. Qed.

(** ** C9: the count is the number of dates *)

(** C9: in every row [analyze_team_viewing_time] returns, the count is the
    length of the list of dates, hence not negative; the row names the team
    asked for. *)
Theorem count_is_number_of_dates `{RT : Runtime} (a a' : analyzer) (team : string)
        (off : Z) (r : row) :
  analyze_team_viewing_time team off a = (Ok r, a') ->
  row_count r = Z.of_nat (length (row_dates r)) /\ 0 <= row_count r /\ row_team r = team.
Proof.
  rewrite analyze_unfold.
  destruct (get_team_schedule_cached team a) as [[sched|e] a1]; [|discriminate].
  unfold evaluate. destruct (timedelta_hours off) as [delta|]; cbn [rbind]; [|discriminate].
  destruct (viewing_loop delta sched 0 []) as [[n ds]|] eqn:El; cbn [rbind]; [|discriminate].
  intros [= <- _]. apply viewing_loop_inv in El as (_ & -> & ->).
  unfold row_count, row_dates, row_team. cbn [fst snd app].
  rewrite length_map, Z.add_0_l. split; [reflexivity|]. split; [lia | reflexivity].
Qed.

Lemma count_is_number_of_dates_witness :
  @analyze_team_viewing_time scenario_world "NJD" (-5) scenario_analyzer
  = (Ok ("NJD", 1, ["2025-01-06"]), scenario_analyzer) /\
  row_count ("NJD", 1, ["2025-01-06"]) = Z.of_nat (length (row_dates ("NJD", 1, ["2025-01-06"])))
  /\ 0 <= row_count ("NJD", 1, ["2025-01-06"]) /\ row_team ("NJD", 1, ["2025-01-06"]) = "NJD".
Proof.
  assert (H : @analyze_team_viewing_time scenario_world "NJD" (-5) scenario_analyzer
              = (Ok ("NJD", 1, ["2025-01-06"]), scenario_analyzer))
    by (vm_compute; reflexivity).
  split; [exact H|].
  exact (@count_is_number_of_dates scenario_world _ _ _ _ _ H).
Defined.

(** ** C5: what the parser retains *)

Section ParserClaims.
Context `{RT : Runtime}.

Lemma parse_game_ok cur g acc acc' :
  parse_game cur g acc = Ok acc' -> acc' = acc ++ kept RT cur g.
Proof.
  destruct g as [| | | | |l|kvs]; try discriminate.
  rewrite parse_game_object by exact I. intros [= <-]. reflexivity.
Qed.

(** Whenever the loop returns, it returns the retained entries in order. *)
Lemma parse_games_ok cur games : forall acc parsed,
  parse_games cur games acc = Ok parsed ->
  parsed = acc ++ omap (retained RT cur) games.
Proof.
  induction games as [|g rest IH]; intros acc parsed H; cbn [parse_games] in H.
  - injection H as <-. cbn. rewrite app_nil_r. reflexivity.
  - destruct (parse_game cur g acc) as [acc'|] eqn:Eg; cbn [rbind] in H; [|discriminate].
    apply parse_game_ok in Eg as ->. apply IH in H as ->.
    rewrite <- app_assoc. f_equal. unfold kept. cbn [omap list_omap].
    destruct (retained RT cur g); reflexivity.
Qed.

(** The retained entries are the outcomes of the entries with the skipped
    ones deleted: nothing is reordered. *)
Lemma omap_sublist {A B} (f : A -> option B) (l : list A) :
  map Some (omap f l) `sublist_of` map f l.
Proof.
  induction l as [|x r IH]; cbn [omap list_omap map]; [constructor|].
  destruct (f x) as [y|]; cbn [map]; constructor; exact IH.
Qed.

End ParserClaims.

(** The part of C5 that holds: when the body fetched for a team decodes to
    an object whose [games] (an empty list if the key is absent) is a list
    of objects, the call returns and caches exactly the entries with
    [gameType == 2] whose [startTimeUTC] is a non-empty string that
    [fromisoformat] accepts, on a day after [current_date], in the order of
    the payload; every other entry is skipped. [current_date] is the date
    read at construction and the call leaves it as it is. *)
Theorem parser_retains_future_regular_season `{RT : Runtime} (a a1 : analyzer)
        (team text : string) (payload : list (string * json)) (games : list json) :
  _cache a !! team = None ->
  fetch_api_data (schedule_url team) a = (Ok text, a1) ->
  json_loads text = Some (JObj payload) ->
  py_get (JObj payload) "games" (JArr []) = Ok (JArr games) ->
  Forall is_object games ->
  let parsed := omap (retained RT (current_date a)) games in
  get_team_schedule_cached team a
  = (Ok parsed, set_cache (<[team := parsed]> (_cache a1)) a1) /\
  map Some parsed `sublist_of` map (retained RT (current_date a)) games /\
  current_date (set_cache (<[team := parsed]> (_cache a1)) a1) = current_date a /\
  (forall workers, current_date (__init__ workers) = today) /\
  (forall g dt d,
     retained RT (current_date a) g = Some (dt, d) <->
     exists game_type s,
       py_get g "gameType" JNull = Ok game_type /\
       py_eq_int game_type 2 = true /\
       py_get g "startTimeUTC" (JStr EmptyString) = Ok (JStr s) /\
       s <> EmptyString /\
       fromisoformat (PyStr.replace "Z" "+00:00" s) = Some dt /\
       date_gt (dt_date dt) (current_date a) = true /\
       d = PyStr.split_0 "T" s).
Proof.
  intros Hm Hf Hj Hg Hobj parsed.
  destruct (fetch_api_data_spec (schedule_url team) a) as (text' & a1' & Hf' & _ & Hd & _).
  rewrite Hf in Hf'. injection Hf' as <- <-.
  split; [|split; [|split; [|split]]].
  - rewrite (get_cached_miss _ _ _ _ Hm Hf), Hj. cbn [of_option rbind].
    rewrite Hg. cbn [rbind py_iter].
    rewrite Hd, (parse_games_objects _ _ [] Hobj). reflexivity.
  - apply omap_sublist.
  - exact Hd.
  - reflexivity.
  - intros g dt d. apply retained_iff.
Qed.

Lemma parser_retains_future_regular_season_witness :
  (_cache (@__init__ scenario_world 12) !! "NJD" = None /\
   @fetch_api_data scenario_world (schedule_url "NJD") (@__init__ scenario_world 12)
   = (Ok (one_game_body "2025-01-06T23:00:00Z"), scenario_fetched) /\
   @json_loads scenario_world (one_game_body "2025-01-06T23:00:00Z")
   = Some (JObj [("games", JArr scenario_games)]) /\
   py_get (JObj [("games", JArr scenario_games)]) "games" (JArr []) = Ok (JArr scenario_games) /\
   Forall is_object scenario_games) /\
  @get_team_schedule_cached scenario_world "NJD" (@__init__ scenario_world 12)
  = (Ok (omap (retained scenario_world (mkdate 2025 1 1)) scenario_games),
     set_cache (<["NJD" := omap (retained scenario_world (mkdate 2025 1 1)) scenario_games]>
                  (_cache scenario_fetched)) scenario_fetched) /\
  omap (retained scenario_world (mkdate 2025 1 1)) scenario_games = scenario_schedule.
Proof.
  assert (H1 : _cache (@__init__ scenario_world 12) !! "NJD" = None) by reflexivity.
  assert (H2 : @fetch_api_data scenario_world (schedule_url "NJD") (@__init__ scenario_world 12)
               = (Ok (one_game_body "2025-01-06T23:00:00Z"), scenario_fetched))
    by (vm_compute; reflexivity).
  assert (H3 : @json_loads scenario_world (one_game_body "2025-01-06T23:00:00Z")
               = Some (JObj [("games", JArr scenario_games)])) by (vm_compute; reflexivity).
  assert (H4 : py_get (JObj [("games", JArr scenario_games)]) "games" (JArr [])
               = Ok (JArr scenario_games)) by reflexivity.
  assert (H5 : Forall is_object scenario_games) by (repeat constructor).
  split; [auto|].
  split; [|vm_compute; reflexivity].
  exact (proj1 (@parser_retains_future_regular_season scenario_world _ _ _ _ _ _
                  H1 H2 H3 H4 H5)).
Defined.

(** C5 at its failing input: the API answers [NJD] with an object whose
    [games] holds one regular-season game and then [null]. The [try] of the
    loop skips an entry whose start time is of the wrong type or does not
    parse, but [game.get('gameType')] stands before it: on [null] it raises
    [AttributeError] out of [get_team_schedule_cached]. The game that came
    before is lost with the rest: nothing is cached for the team, the next
    call raises again, and [warm_cache] and [main] end with the exception,
    whichever of the other loads are cancelled. *)
Theorem unparsable_entry_fails_the_team :
  @json_loads null_entry_world null_entry_body = Some null_entry_payload /\
  @parse_game null_entry_world (mkdate 2025 1 1)
     (JObj [("gameType", JInt 2); ("startTimeUTC", JInt 20250106)]) scenario_schedule
  = Ok scenario_schedule /\
  @parse_game null_entry_world (mkdate 2025 1 1)
     (JObj [("gameType", JInt 2); ("startTimeUTC", JStr "soon")]) scenario_schedule
  = Ok scenario_schedule /\
  @parse_game null_entry_world (mkdate 2025 1 1) JNull scenario_schedule
  = Raise AttributeError /\
  omap (retained null_entry_world (mkdate 2025 1 1))
       [JObj [("gameType", JInt 2); ("startTimeUTC", JStr "2025-01-06T23:00:00Z")]; JNull]
  = scenario_schedule /\
  fst (@get_team_schedule_cached null_entry_world "NJD" (@__init__ null_entry_world 12))
  = Raise AttributeError /\
  _cache (snd (@get_team_schedule_cached null_entry_world "NJD"
                 (@__init__ null_entry_world 12))) !! "NJD" = None /\
  fst (@get_team_schedule_cached null_entry_world "NJD"
         (snd (@get_team_schedule_cached null_entry_world "NJD"
                 (@__init__ null_entry_world 12))))
  = Raise AttributeError /\
  (forall racing,
     fst (@warm_cache null_entry_world team_list racing (@__init__ null_entry_world 12))
     = Raise AttributeError) /\
  (forall racing,
     fst (@main null_entry_world team_list racing timezone_range (fun _ => team_list))
     = Raise AttributeError).
Proof.
  assert (Hg : exists a1,
             @get_team_schedule_cached null_entry_world "NJD" (@__init__ null_entry_world 12)
             = (Raise AttributeError, a1)) by (eexists; vm_compute; reflexivity).
  destruct Hg as [a1 Hg].
  assert (Hwarm : forall racing,
             fst (@warm_cache null_entry_world team_list racing (@__init__ null_entry_world 12))
             = Raise AttributeError).
  { intros racing. change team_list with ("NJD" :: tail team_list).
    eapply (@warm_cache_first_raises null_entry_world); [reflexivity | exact Hg]. }
  do 8 (split; [vm_compute; reflexivity|]).
  split; [exact Hwarm|].
  intros racing. unfold main, bind. specialize (Hwarm racing).
  destruct (@warm_cache null_entry_world team_list racing (@__init__ null_entry_world 12))
    as [[u|e] a2]; cbn [fst] in *; [discriminate | congruence].
Qed.

(** ** C7: one fetch per team, one stored schedule *)

(** C7: a first call that returns a schedule has stored it and has sent at
    most one request, exactly one when the memo table of the fetch has no
    entry for the team; after any further calls, for any teams, a call for
    the team returns the stored schedule and changes nothing: no request is
    sent. *)
Theorem cached_schedule_is_reused `{RT : Runtime} (a a1 : analyzer) (team : string)
        (s : schedule) :
  _cache a !! team = None ->
  get_team_schedule_cached team a = (Ok s, a1) ->
  _cache a1 !! team = Some s /\
  (requests a1 = requests a \/ requests a1 = requests a ++ [schedule_url team]) /\
  (assoc (schedule_url team) (fetch_cache a) = None ->
   requests a1 = requests a ++ [schedule_url team]) /\
  get_team_schedule_cached team a1 = (Ok s, a1) /\
  forall later results a2,
    run_loads later [] a1 = (results, a2) ->
    get_team_schedule_cached team a2 = (Ok s, a2).
Proof.
  intros Hm Hg.
  pose proof (get_cached_frame _ _ _ _ Hg) as (_ & _ & Hreq).
  assert (Hst : _cache a1 !! team = Some s).
  { destruct (fetch_api_data_spec (schedule_url team) a) as (text & a0 & Hf & _).
    rewrite (get_cached_miss _ _ _ _ Hm Hf) in Hg.
    destruct (let+ _ := _ in _) as [parsed|e]; [|discriminate].
    injection Hg as <- <-. cbn [set_cache _cache]. apply lookup_insert_eq. }
  split; [exact Hst|]. split; [exact Hreq|]. split; [|split].
  - intros Hlru.
    destruct (fetch_api_data_spec (schedule_url team) a) as (text & a0 & Hf & _).
    pose proof (fetch_api_data_miss _ _ _ _ Hlru Hf) as [Hr0 _].
    rewrite (get_cached_miss _ _ _ _ Hm Hf) in Hg.
    destruct (let+ _ := _ in _) as [parsed|e]; injection Hg as _ <-; exact Hr0.
  - apply get_cached_hit, Hst.
  - intros later results a2 Hrun. apply get_cached_hit.
    apply run_loads_frame in Hrun as (_ & Hkeep). apply Hkeep, Hst.
Qed.

Lemma cached_schedule_is_reused_witness :
  (_cache (@__init__ scenario_world 12) !! "NJD" = None /\
   @get_team_schedule_cached scenario_world "NJD" (@__init__ scenario_world 12)
   = (Ok scenario_schedule,
      set_cache (<["NJD" := scenario_schedule]> ∅) scenario_fetched)) /\
  _cache (set_cache (<["NJD" := scenario_schedule]> ∅) scenario_fetched) !! "NJD"
  = Some scenario_schedule /\
  @get_team_schedule_cached scenario_world "NJD"
     (set_cache (<["NJD" := scenario_schedule]> ∅) scenario_fetched)
  = (Ok scenario_schedule, set_cache (<["NJD" := scenario_schedule]> ∅) scenario_fetched).
Proof.
  assert (H1 : _cache (@__init__ scenario_world 12) !! "NJD" = None) by reflexivity.
  assert (H2 : @get_team_schedule_cached scenario_world "NJD" (@__init__ scenario_world 12)
               = (Ok scenario_schedule,
                  set_cache (<["NJD" := scenario_schedule]> ∅) scenario_fetched))
    by (vm_compute; reflexivity).
  split; [auto|].
  pose proof (@cached_schedule_is_reused scenario_world _ _ _ _ H1 H2) as (H & _ & _ & H' & _).
  split; [exact H | exact H'].
Defined.

(** ** C10: the dates reported are those of the UTC text *)

Section FromTheApi.
Context `{RT : Runtime}.

(** A call that returns a schedule leaves it in the cache. *)
Lemma get_cached_stored team a s a' :
  get_team_schedule_cached team a = (Ok s, a') -> _cache a' !! team = Some s.
Proof.
  intros Hg. destruct (_cache a !! team) as [s0|] eqn:Ec.
  - rewrite (get_cached_hit _ _ _ Ec) in Hg. injection Hg as <- <-. exact Ec.
  - destruct (fetch_api_data_spec (schedule_url team) a) as (text & a0 & Hf & _).
    rewrite (get_cached_miss _ _ _ _ Ec Hf) in Hg.
    destruct (let+ _ := _ in _) as [parsed|e]; [|discriminate].
    injection Hg as <- <-. cbn [set_cache _cache]. apply lookup_insert_eq.
Qed.

(** What a fetch returns and what it leaves in the memo table are answers
    of the API. *)
Lemma fetch_from_api url a r a' :
  memo_from_api RT a -> fetch_api_data url a = (r, a') ->
  memo_from_api RT a' /\ exists k, r = Ok (response_text RT k url).
Proof.
  intros Hm. unfold fetch_api_data.
  destruct (assoc url (fetch_cache a)) as [t|] eqn:E; intros [= <- <-].
  - destruct (Hm url t (assoc_In _ _ _ E)) as [k Hk]. split; [|exists k; congruence].
    intros u x. cbn [fetch_cache In]. intros [[= <- <-] | Hin]; [eauto|].
    apply filter_In in Hin as [Hin _]. apply Hm, Hin.
  - split; [|exists (length (requests a)); reflexivity].
    intros u x. cbn [fetch_cache take lru_maxsize In].
    intros [[= <- <-] | Hin]; [exists (length (requests a)); reflexivity|].
    apply Hm. apply list_elem_of_In. apply list_elem_of_In in Hin.
    eapply elem_of_sublist; [exact Hin | apply sublist_take].
Qed.

Lemma from_api_kept :
  kept_by_get RT (fun a => memo_from_api RT a /\ cache_from_api RT a).
Proof.
  intros team a r a' [Hm Hc] Hg. destruct (_cache a !! team) as [s0|] eqn:Ec.
  - rewrite (get_cached_hit _ _ _ Ec) in Hg. injection Hg as _ <-. auto.
  - destruct (fetch_api_data_spec (schedule_url team) a)
      as (text & a1 & Hf & Hc1 & Hd1 & _).
    destruct (fetch_from_api _ _ _ _ Hm Hf) as [Hm1 [k Hk]]. injection Hk as Hk.
    assert (Hca1 : cache_from_api RT a1).
    { intros t s Hs. rewrite Hc1 in Hs. rewrite Hd1. apply Hc, Hs. }
    rewrite (get_cached_miss _ _ _ _ Ec Hf) in Hg.
    destruct (json_loads text) as [payload|] eqn:Ej; cbn [of_option rbind] in Hg;
      [|injection Hg as _ <-; auto].
    destruct (py_get payload "games" (JArr [])) as [games|] eqn:Eg; cbn [rbind] in Hg;
      [|injection Hg as _ <-; auto].
    destruct (py_iter games) as [items|] eqn:Ei; cbn [rbind] in Hg;
      [|injection Hg as _ <-; auto].
    destruct (parse_games (current_date a1) items []) as [parsed|] eqn:Ep;
      injection Hg as _ <-; [|auto].
    apply parse_games_ok in Ep. cbn [app] in Ep.
    split; [exact Hm1|]. intros t s. cbn [set_cache _cache current_date].
    destruct (decide (team = t)) as [<- | Hne].
    + rewrite lookup_insert_eq. intros [= <-]. exists k, payload, items.
      rewrite <- Hk, Ej, Eg. cbn [rbind]. auto.
    + rewrite lookup_insert_ne by exact Hne. apply Hca1.
Qed.

(** Whatever a program did with its analyzer, the memo table and the cache
    hold what the API sent. *)
Lemma reachable_from_api a :
  reachable RT a -> memo_from_api RT a /\ cache_from_api RT a.
Proof.
  induction 1 as [workers | a url r a' _ [Hm Hc] Hf | a team r a' _ IH Hg].
  - split; [intros url text [] | intros team sched Hs; cbn in Hs].
    rewrite lookup_empty in Hs. discriminate.
  - split; [exact (proj1 (fetch_from_api _ _ _ _ Hm Hf))|].
    destruct (fetch_api_data_spec url a) as (text & a1 & Hf' & Hc1 & Hd1 & _).
    rewrite Hf in Hf'. injection Hf' as _ <-.
    intros t s Hs. rewrite Hc1 in Hs. rewrite Hd1. apply Hc, Hs.
  - exact (from_api_kept _ _ _ _ IH Hg).
Qed.

(** Every method leaves a reachable analyzer reachable. *)
Lemma reachable_kept : kept_by_get RT (reachable RT).
Proof. intros team a r a' Ha Hg. eapply reach_get; eassumption. Qed.

Lemma reachable_after_warm_cache started racing workers :
  reachable RT (snd (warm_cache started racing (__init__ workers))).
Proof.
  destruct (warm_cache started racing (__init__ workers)) as [r a'] eqn:E.
  exact (warm_cache_keeps _ reachable_kept _ _ _ _ _ (reach_init RT workers) E).
Qed.

Lemma reachable_after_ranking off completed a r a' :
  reachable RT a ->
  rank_teams_by_viewing_availability_parallel off completed a = (r, a') ->
  reachable RT a'.
Proof. apply (rank_keeps _ reachable_kept). Qed.

Lemma reachable_after_main started racing tz_completed team_completed :
  reachable RT (snd (main started racing tz_completed team_completed)).
Proof. apply (main_keeps _ reachable_kept), reach_init. Qed.

End FromTheApi.

(** C10: whenever an evaluation is made, on a cold cache or on a warm one
    (as is every evaluation of a run, which follows [warm_cache]), every
    date it reports is the text before ['T'] of the [startTimeUTC] of a game
    of a payload the API sent for the team, a game that counted at the
    offset asked for: the offset decides whether the date is reported, not
    what is reported. When that text is the calendar date of the parsed UTC
    instant and the local instant falls on another day, the date reported
    is not the local day. *)
Theorem reported_dates_are_utc_text `{RT : Runtime} (a a' : analyzer) (team : string)
        (off : Z) (r : row) (d : string) :
  reachable RT a ->
  analyze_team_viewing_time team off a = (Ok r, a') ->
  In d (row_dates r) ->
  exists k payload items g s dt delta loc,
    json_loads (response_text RT k (schedule_url team)) = Some payload /\
    rbind (py_get payload "games" (JArr [])) py_iter = Ok items /\
    In g items /\
    py_get g "startTimeUTC" (JStr EmptyString) = Ok (JStr s) /\
    fromisoformat (PyStr.replace "Z" "+00:00" s) = Some dt /\
    d = PyStr.split_0 "T" s /\
    timedelta_hours off = Ok delta /\
    datetime_add dt delta = Ok loc /\
    counted delta (dt, d) = true /\
    (valid_date (dt_date dt) -> d = PyStr.isoformat (dt_date dt) ->
     dt_date loc <> dt_date dt -> d <> PyStr.isoformat (dt_date loc)).
Proof.
  intros Hreach Ha Hd. rewrite analyze_unfold in Ha.
  destruct (get_team_schedule_cached team a) as [[sched|e] a1] eqn:Eg; [|discriminate].
  pose proof (get_cached_stored _ _ _ _ Eg) as Hst.
  destruct (reachable_from_api a1 (reach_get RT _ _ _ _ Hreach Eg)) as [_ Hc].
  destruct (Hc team sched Hst) as (k & payload & items & Hj & Hitems & Hparsed).
  unfold evaluate in Ha.
  destruct (timedelta_hours off) as [delta|] eqn:Et; cbn [rbind] in Ha; [|discriminate].
  destruct (viewing_loop delta sched 0 []) as [[n ds]|] eqn:El; cbn [rbind] in Ha;
    [|discriminate].
  injection Ha as <- _. unfold row_dates in Hd. cbn [snd fst] in Hd.
  apply viewing_loop_inv in El as (Hall & _ & ->). cbn [app] in Hd.
  apply in_map_iff in Hd as ([dt d'] & Hd' & Hin). cbn [snd] in Hd'. subst d'.
  apply filter_In in Hin as [Hin Hcnt].
  rewrite List.Forall_forall in Hall. destruct (Hall _ Hin) as [loc Hloc]. cbn [fst] in Hloc.
  rewrite Hparsed in Hin. apply list_elem_of_In, list_elem_of_omap in Hin as (g & Hg & Hret).
  apply retained_iff in Hret as (gt & s & _ & _ & Hs & _ & Hiso & _ & Hsplit).
  exists k, payload, items, g, s, dt, delta, loc.
  split; [exact Hj|]. split; [exact Hitems|].
  split; [apply list_elem_of_In; exact Hg|].
  repeat (split; [first [assumption | reflexivity]|]).
  intros Hv Hdt Hne Heq. apply Hne. symmetry.
  apply isoformat_inj; [exact Hv | eapply datetime_add_valid_date, Hloc | congruence].
Qed.

Lemma reported_dates_are_utc_text_witness :
  (reachable rollover_world
     (snd (@warm_cache rollover_world team_list (fun _ => false)
             (@__init__ rollover_world 12))) /\
   @analyze_team_viewing_time rollover_world "NJD" (-5)
     (snd (@warm_cache rollover_world team_list (fun _ => false)
             (@__init__ rollover_world 12)))
   = (Ok ("NJD", 1, ["2024-01-01"]),
      snd (@warm_cache rollover_world team_list (fun _ => false)
             (@__init__ rollover_world 12))) /\
   In "2024-01-01" (row_dates ("NJD", 1, ["2024-01-01"]))) /\
  exists k payload items g s dt delta loc,
    @json_loads rollover_world (response_text rollover_world k (schedule_url "NJD"))
    = Some payload /\
    rbind (py_get payload "games" (JArr [])) py_iter = Ok items /\
    In g items /\
    py_get g "startTimeUTC" (JStr EmptyString) = Ok (JStr s) /\
    @fromisoformat rollover_world (PyStr.replace "Z" "+00:00" s) = Some dt /\
    "2024-01-01" = PyStr.split_0 "T" s /\
    timedelta_hours (-5) = Ok delta /\
    datetime_add dt delta = Ok loc /\
    counted delta (dt, "2024-01-01") = true /\
    (valid_date (dt_date dt) -> "2024-01-01" = PyStr.isoformat (dt_date dt) ->
     dt_date loc <> dt_date dt -> "2024-01-01" <> PyStr.isoformat (dt_date loc)).
Proof.
  assert (H1 : reachable rollover_world
                 (snd (@warm_cache rollover_world team_list (fun _ => false)
                         (@__init__ rollover_world 12))))
    by apply (@reachable_after_warm_cache rollover_world).
  assert (H2 : @analyze_team_viewing_time rollover_world "NJD" (-5)
                 (snd (@warm_cache rollover_world team_list (fun _ => false)
                         (@__init__ rollover_world 12)))
               = (Ok ("NJD", 1, ["2024-01-01"]),
                  snd (@warm_cache rollover_world team_list (fun _ => false)
                         (@__init__ rollover_world 12))))
    by (vm_compute; reflexivity).
  assert (H3 : In "2024-01-01" (row_dates ("NJD", 1, ["2024-01-01"]))) by (left; reflexivity).
  split; [auto|].
  exact (@reported_dates_are_utc_text rollover_world _ _ _ _ _ _ H1 H2 H3).
Defined.

(** In [rollover_world] the date reported at UTC-5 is 2024-01-01 while the
    game is watched on Sunday 2023-12-31, on the first evaluation and on
    every later one. *)
Example rollover_reports_utc_date :
  fst (@analyze_team_viewing_time rollover_world "NJD" (-5) (@__init__ rollover_world 12))
  = Ok ("NJD", 1, ["2024-01-01"]) /\
  fst (@analyze_team_viewing_time rollover_world "NJD" (-5)
         (snd (@analyze_team_viewing_time rollover_world "NJD" (-5)
                 (@__init__ rollover_world 12))))
  = Ok ("NJD", 1, ["2024-01-01"]) /\
  rbind (rbind (timedelta_hours (-5)) (datetime_add (utc 2024 1 1 2 0)))
        (fun loc => Ok (PyStr.isoformat (dt_date loc), strftime_A loc))
  = Ok ("2023-12-31", "Sunday").
Proof. repeat split; vm_compute; reflexivity. Qed.

(** ** C6: failures of the fetch *)

Section FetchFailure.
Context `{RT : Runtime}.

(** A failed request (connection error, timeout, or a 4xx or 5xx status)
    leaves an empty schedule in the cache, and the next call sends nothing. *)
Lemma request_failure_stores_empty (a : analyzer) (team : string) :
  _cache a !! team = None ->
  assoc (schedule_url team) (fetch_cache a) = None ->
  fetch_body (session_get (length (requests a)) (schedule_url team))
  = Raise RequestException ->
  json_loads "{}" = Some (JObj []) ->
  exists a1,
    get_team_schedule_cached team a = (Ok [], a1) /\
    _cache a1 !! team = Some [] /\
    requests a1 = requests a ++ [schedule_url team] /\
    get_team_schedule_cached team a1 = (Ok [], a1).
Proof.
  intros Hm Hl Hfail Hj.
  destruct (fetch_api_data_spec (schedule_url team) a) as (text & a0 & Hf & _).
  destruct (fetch_api_data_miss _ _ _ _ Hl Hf) as [Hreq Htext].
  rewrite Hfail in Htext. subst text.
  pose proof (get_cached_miss _ _ _ _ Hm Hf) as Hg.
  rewrite Hj in Hg. cbn in Hg.
  eexists. split; [exact Hg|].
  assert (Hst : _cache (set_cache (<[team := []]> (_cache a0)) a0) !! team = Some [])
    by (cbn; apply lookup_insert_eq).
  split; [exact Hst|]. split; [exact Hreq|]. apply get_cached_hit, Hst.
Qed.

End FetchFailure.

(** C6 at its failing input: the API answers [NJD] with status 200 and a body
    that is not JSON. [json.loads] raises inside [get_team_schedule_cached],
    outside any [try]: nothing is stored for [NJD], a second call raises
    again, [warm_cache] re-raises and [main] ends there, before any ranking
    is made, whichever of the other loads are cancelled. A ranking made on
    such an analyzer leaves [NJD] out. The sibling [NYI], whose request
    fails, gets its empty schedule. *)
Theorem malformed_payload_is_not_contained :
  fetch_body (Response 200 error_page) = Ok error_page /\
  @json_loads error_page_world error_page = None /\
  fst (@get_team_schedule_cached error_page_world "NJD" (@__init__ error_page_world 12))
  = Raise JSONDecodeError /\
  _cache (snd (@get_team_schedule_cached error_page_world "NJD" (@__init__ error_page_world 12)))
  !! "NJD" = None /\
  fst (@get_team_schedule_cached error_page_world "NJD"
         (snd (@get_team_schedule_cached error_page_world "NJD"
                 (@__init__ error_page_world 12))))
  = Raise JSONDecodeError /\
  fst (@get_team_schedule_cached error_page_world "NYI" (@__init__ error_page_world 12))
  = Ok [] /\
  _cache (snd (@get_team_schedule_cached error_page_world "NYI" (@__init__ error_page_world 12)))
  !! "NYI" = Some [] /\
  (forall racing,
     fst (@warm_cache error_page_world team_list racing (@__init__ error_page_world 12))
     = Raise JSONDecodeError) /\
  (forall racing,
     fst (@main error_page_world team_list racing timezone_range (fun _ => team_list))
     = Raise JSONDecodeError) /\
  fst (@rank_teams_by_viewing_availability_parallel error_page_world 0 team_list
         (@__init__ error_page_world 12))
  = Ok (map (fun t => (t, 0, [])) (tail team_list)).
Proof.
  assert (Hg : @get_team_schedule_cached error_page_world "NJD" (@__init__ error_page_world 12)
               = (Raise JSONDecodeError,
                  mkanalyzer 12 ∅ (mkdate 2025 1 1) [(schedule_url "NJD", error_page)]
                             [schedule_url "NJD"])) by (vm_compute; reflexivity).
  assert (Hwarm : forall racing,
             fst (@warm_cache error_page_world team_list racing (@__init__ error_page_world 12))
             = Raise JSONDecodeError).
  { intros racing. change team_list with ("NJD" :: tail team_list).
    eapply (@warm_cache_first_raises error_page_world); [reflexivity | exact Hg]. }
  do 7 (split; [vm_compute; reflexivity|]).
  split; [exact Hwarm|]. split; [|vm_compute; reflexivity].
  intros racing. unfold main, bind. specialize (Hwarm racing).
  destruct (@warm_cache error_page_world team_list racing (@__init__ error_page_world 12))
    as [[u|e] a1]; cbn [fst] in *; [discriminate | congruence].
Qed.

(** With the API down for every team the run goes through: every schedule is
    empty and every timezone lists five teams with no game. *)
Example outage_is_survived :
  fst (@main offline_world team_list (fun _ => false) timezone_range (fun _ => team_list))
  = Ok (map (fun tz => (timezone_key tz, map (fun t => (t, 0)) (take 5 team_list)))
            timezone_range).
Proof. vm_compute. reflexivity. Qed.

(** ** C4: the leaderboard *)

(** C4: with a pool of at least one worker and a top-N that is not negative,
    whatever the order in which the timezones and, inside each, the teams
    complete, the aggregator returns a mapping with 25 entries whose keys,
    in order of completion, are the labels of the offsets, so that the keys
    are the 25 labels UTC-12 ... UTC+12, each once. The entry of an offset
    holds the first [top_n] rows of the ranking that the task of that offset
    obtained in this run, all of them when that ranking is shorter, one team
    per row. *)
Theorem aggregator_entries `{RT : Runtime} (a : analyzer) (top_n : Z)
        (tz_completed : list Z) (team_completed : Z -> list string) :
  0 < max_workers a ->
  0 <= top_n ->
  Permutation tz_completed timezone_range ->
  (forall tz, Permutation (team_completed tz) team_list) ->
  exists out a',
    generate_timezone_analysis_parallel top_n tz_completed team_completed a = (Ok out, a') /\
    length out = 25%nat /\
    map fst out = map timezone_key tz_completed /\
    Permutation (map fst out) timezone_labels /\
    NoDup (map fst out) /\
    map fst (rankings_of_run tz_completed team_completed a) = tz_completed /\
    Forall2 (entry_of top_n) (rankings_of_run tz_completed team_completed a) out /\
    Forall (fun e => Z.of_nat (length (snd e)) <= top_n) out.
Proof.
  intros Hw Hn Htz Hteams.
  assert (Hkeys : Permutation (map timezone_key tz_completed) timezone_labels)
    by (rewrite <- timezone_keys; apply Permutation_map, Htz).
  assert (Hnd : NoDup (map timezone_key tz_completed))
    by (rewrite Hkeys; apply timezone_labels_NoDup).
  destruct (collect_timezones_spec top_n team_completed tz_completed [] a Hw)
    as (out & a' & Hrun & HF & Hrk).
  { intros tz. rewrite (Hteams tz). apply team_list_NoDup. }
  { exact Hnd. }
  { intros tz _ Hin. cbn in Hin. apply elem_of_nil in Hin. exact Hin. }
  cbn [app] in Hrun. exists out, a'.
  assert (Hfst : map fst out = map timezone_key tz_completed).
  { transitivity (map timezone_key
                      (map fst (rankings_of_run tz_completed team_completed a)));
      [|rewrite Hrk; reflexivity].
    clear -HF. induction HF as [|tr e trs es [He _] _ IH]; [reflexivity|].
    cbn [map]. rewrite He, IH. reflexivity. }
  split; [rewrite generate_unfold; exact Hrun|]. split.
  { rewrite <- (length_map fst), Hfst, length_map, (Permutation_length Htz). reflexivity. }
  split; [exact Hfst|]. rewrite Hfst.
  split; [exact Hkeys|]. split; [exact Hnd|]. split; [exact Hrk|]. split; [exact HF|].
  clear -HF Hn. induction HF as [|tr e trs es [_ (rk & _ & _ & Hlen & _)] _ IH];
    constructor; [lia | exact IH].
Qed.

Lemma aggregator_entries_witness :
  (0 < max_workers (@__init__ scenario_world 12) /\ 0 <= 5 /\
   Permutation (rev timezone_range) timezone_range /\
   (forall tz : Z, Permutation (rev team_list) team_list)) /\
  exists out a',
    @generate_timezone_analysis_parallel scenario_world 5 (rev timezone_range)
       (fun _ => rev team_list) (@__init__ scenario_world 12) = (Ok out, a') /\
    length out = 25%nat /\
    map fst out = map timezone_key (rev timezone_range) /\
    Permutation (map fst out) timezone_labels /\
    NoDup (map fst out) /\
    map fst (@rankings_of_run scenario_world (rev timezone_range) (fun _ => rev team_list)
               (@__init__ scenario_world 12)) = rev timezone_range /\
    Forall2 (entry_of 5)
            (@rankings_of_run scenario_world (rev timezone_range) (fun _ => rev team_list)
               (@__init__ scenario_world 12)) out /\
    Forall (fun e => Z.of_nat (length (snd e)) <= 5) out.
Proof.
  assert (H0 : 0 < max_workers (@__init__ scenario_world 12)) by reflexivity.
  assert (H1 : 0 <= 5) by lia.
  assert (H2 : Permutation (rev timezone_range) timezone_range)
    by (symmetry; apply Permutation_rev).
  assert (H3 : forall tz : Z, Permutation (rev team_list) team_list)
    by (intros _; symmetry; apply Permutation_rev).
  split; [auto|].
  exact (@aggregator_entries scenario_world (@__init__ scenario_world 12) 5
           (rev timezone_range) (fun _ => rev team_list) H0 H1 H2 H3).
Defined.

(** Without a worker every timezone task is refused its pool, and the
    aggregator returns the empty mapping. *)
Lemma aggregator_without_workers `{RT : Runtime} (a : analyzer) (top_n : Z)
      (tz_completed : list Z) (team_completed : Z -> list string) :
  max_workers a <= 0 ->
  generate_timezone_analysis_parallel top_n tz_completed team_completed a = (Ok [], a).
Proof.
  intros Hw. rewrite generate_unfold. apply collect_timezones_without_workers, Hw.
Qed.

(** * Further properties *)

(** ** The summary printer *)

Section Printer.

Lemma digit_val_digit d : 0 <= d < 10 -> digit_val (PyStr.digit d) = Some d.
Proof.
  intros H.
  assert (Hc : d = 0 \/ d = 1 \/ d = 2 \/ d = 3 \/ d = 4 \/ d = 5 \/ d = 6 \/ d = 7 \/
               d = 8 \/ d = 9) by lia.
  repeat (destruct Hc as [-> | Hc]); try subst d; reflexivity.
Qed.

Lemma digit_not_space d : 0 <= d < 10 -> PyInt.is_space (PyStr.digit d) = false.
Proof.
  intros H.
  assert (Hc : d = 0 \/ d = 1 \/ d = 2 \/ d = 3 \/ d = 4 \/ d = 5 \/ d = 6 \/ d = 7 \/
               d = 8 \/ d = 9) by lia.
  repeat (destruct Hc as [-> | Hc]); try subst d; reflexivity.
Qed.

(** Reading back the digits [digits_fuel] writes in front of [accs]. *)
Lemma digits_body_fuel f : forall n accs,
  0 <= n < 10 ^ Z.of_nat (S f) ->
  exists k, (1 <= k <= S f)%nat /\
    forall prev cnt,
      PyInt.digits_body (PyStr.digits_fuel (S f) n accs) prev 0 cnt
      = PyInt.digits_body accs true n (cnt + k).
Proof.
  induction f as [|f IH]; intros n accs Hn.
  - exists 1%nat. split; [lia|]. intros prev cnt. cbn [PyStr.digits_fuel].
    change (10 ^ Z.of_nat 1) with 10 in Hn.
    assert (Hq : n / 10 = 0) by (apply Z.div_small; lia).
    assert (Hr : n mod 10 = n) by (apply Z.mod_small; lia).
    rewrite Hq, Hr. cbn [Z.eqb PyInt.digits_body].
    rewrite digit_val_digit by lia. f_equal. lia.
  - cbn [PyStr.digits_fuel].
    assert (Hd : 0 <= n mod 10 < 10) by (apply Z.mod_pos_bound; lia).
    assert (Hdm : n = 10 * (n / 10) + n mod 10) by (apply Z.div_mod; lia).
    destruct (Z.eqb_spec (n / 10) 0) as [Hq | Hq].
    + exists 1%nat. split; [lia|]. intros prev cnt. cbn [PyInt.digits_body].
      rewrite digit_val_digit by lia. f_equal; lia.
    + destruct (IH (n / 10) (String (PyStr.digit (n mod 10)) accs)) as (k & Hk & Hbody).
      { rewrite Nat2Z.inj_succ, Z.pow_succ_r in Hn by lia. lia. }
      exists (S k). split; [lia|]. intros prev cnt.
      change (PyStr.digits_fuel (S f) (n / 10) (String (PyStr.digit (n mod 10)) accs))
        with (PyStr.digits_fuel (S f) (n / 10) (String (PyStr.digit (n mod 10)) accs)).
      rewrite Hbody. cbn [PyInt.digits_body]. rewrite digit_val_digit by lia.
      f_equal; lia.
Qed.

Lemma decimal_fuel_enough n : 0 <= n -> n < 10 ^ Z.of_nat (S (Z.to_nat (Z.log2 n))).
Proof.
  intros Hn. rewrite Nat2Z.inj_succ, Z2Nat.id by apply Z.log2_nonneg.
  destruct (Z.eq_dec n 0) as [-> | Hne]; [reflexivity|].
  pose proof (Z.log2_spec n ltac:(lia)) as [_ Hlt].
  eapply Z.lt_le_trans; [exact Hlt|].
  apply Z.pow_le_mono_l. pose proof (Z.log2_nonneg n). lia.
Qed.

(** [int] reads back what [str] and the format [+d] write. *)
Lemma magnitude_decimal n :
  0 <= n < 2 ^ 4299 -> PyInt.magnitude (PyStr.decimal n) = Some n.
Proof.
  intros [Hn Hlt]. unfold PyInt.magnitude, PyStr.decimal.
  destruct (digits_body_fuel (Z.to_nat (Z.log2 n)) n EmptyString (conj Hn (decimal_fuel_enough n Hn)))
    as (k & Hk & Hbody).
  rewrite Hbody. cbn [PyInt.digits_body Nat.add].
  assert (Hlog : Z.log2 n < 4299).
  { destruct (Z.eq_dec n 0) as [-> | Hne]; [reflexivity|].
    apply Z.log2_lt_pow2; lia. }
  assert (Hle : (k <= PyInt.max_str_digits)%nat).
  { unfold PyInt.max_str_digits. pose proof (Z.log2_nonneg n). lia. }
  apply Nat.leb_le in Hle. rewrite Hle. reflexivity.
Qed.

(** Strings that end in a character that is not white space. *)
Lemma rstrip_cons c r :
  PyInt.rstrip r = r -> r <> EmptyString -> PyInt.rstrip (String c r) = String c r.
Proof.
  intros Hr Hne. cbn [PyInt.rstrip]. rewrite Hr. destruct r; [contradiction | reflexivity].
Qed.

Lemma rstrip_digits_fuel f : forall n accs,
  0 <= n ->
  (accs = EmptyString \/ (PyInt.rstrip accs = accs /\ accs <> EmptyString)) ->
  (f = O -> accs <> EmptyString) ->
  PyInt.rstrip (PyStr.digits_fuel f n accs) = PyStr.digits_fuel f n accs /\
  PyStr.digits_fuel f n accs <> EmptyString.
Proof.
  induction f as [|f IH]; intros n accs Hn Hacc Hf.
  - cbn. destruct Hacc as [-> | [H1 H2]]; [exfalso; apply Hf; reflexivity | auto].
  - cbn [PyStr.digits_fuel].
    assert (Hd : 0 <= n mod 10 < 10) by (apply Z.mod_pos_bound; lia).
    assert (Hq : PyInt.rstrip (String (PyStr.digit (n mod 10)) accs)
                 = String (PyStr.digit (n mod 10)) accs
                 /\ String (PyStr.digit (n mod 10)) accs <> EmptyString).
    { split; [|discriminate]. destruct Hacc as [-> | [H1 H2]].
      - cbn [PyInt.rstrip]. rewrite digit_not_space by lia. reflexivity.
      - apply rstrip_cons; assumption. }
    destruct (n / 10 =? 0); [exact Hq|].
    apply IH; [apply Z.div_pos; lia | right; exact Hq | intros _; discriminate].
Qed.

Lemma int_format_plus_d tz :
  Z.abs tz < 2 ^ 4299 -> PyInt.int (PyStr.format_plus_d tz) = Some tz.
Proof.
  intros Hb.
  destruct (rstrip_digits_fuel (S (Z.to_nat (Z.log2 (Z.abs tz)))) (Z.abs tz) EmptyString)
    as [Hr Hne]; [lia | left; reflexivity | discriminate |].
  fold (PyStr.decimal (Z.abs tz)) in Hr, Hne.
  pose proof (magnitude_decimal (Z.abs tz) ltac:(lia)) as Hm.
  assert (Hstrip : forall c, PyInt.is_space c = false ->
            PyInt.rstrip (PyInt.lstrip (String c (PyStr.decimal (Z.abs tz))))
            = String c (PyStr.decimal (Z.abs tz))).
  { intros c Hc. cbn [PyInt.lstrip]. rewrite Hc. apply rstrip_cons; assumption. }
  unfold PyStr.format_plus_d, PyInt.int.
  destruct (Z.ltb_spec tz 0) as [Hneg | Hpos].
  - change ("-" +:+ PyStr.decimal (Z.abs tz)) with (String "-" (PyStr.decimal (Z.abs tz))).
    rewrite Hstrip by reflexivity. rewrite Hm. cbn [option_map]. f_equal. lia.
  - change ("+" +:+ PyStr.decimal (Z.abs tz)) with (String "+" (PyStr.decimal (Z.abs tz))).
    rewrite Hstrip by reflexivity. rewrite Hm. f_equal. lia.
Qed.

Lemma prefix_UTC s : String.prefix "UTC" ("UTC" +:+ s) = true.
Proof. destruct s; vm_compute; reflexivity. Qed.

Lemma timezone_sort_key_of_key tz :
  Z.abs tz < 2 ^ 4299 -> timezone_sort_key (timezone_key tz) = Ok tz.
Proof.
  intros Hb. unfold timezone_sort_key, timezone_key. rewrite prefix_UTC.
  change (str_drop 3 ("UTC" +:+ PyStr.format_plus_d tz)) with (PyStr.format_plus_d tz).
  rewrite (int_format_plus_d tz Hb). reflexivity.
Qed.

Lemma insert_by_key_perm x l : Permutation (insert_by_key x l) (x :: l).
Proof.
  induction l as [|y r IH]; cbn; [reflexivity|].
  destruct (fst y <? fst x); [|reflexivity]. rewrite IH. apply perm_swap.
Qed.

Lemma sort_by_key_perm l : Permutation (fold_right insert_by_key [] l) l.
Proof.
  induction l as [|x r IH]; cbn; [reflexivity|].
  rewrite insert_by_key_perm. constructor. exact IH.
Qed.

Lemma insert_by_key_sorted x l :
  StronglySorted (fun p q : Z * string => fst p <= fst q) l ->
  StronglySorted (fun p q : Z * string => fst p <= fst q) (insert_by_key x l).
Proof.
  induction 1 as [|y r Hs IH Hall]; cbn; [repeat constructor|].
  destruct (Z.ltb_spec (fst y) (fst x)) as [Hlt | Hge].
  - constructor; [exact IH|]. rewrite insert_by_key_perm. constructor; [lia | exact Hall].
  - constructor; [constructor; assumption|]. constructor; [exact Hge|].
    eapply Forall_impl; [exact Hall|]. cbn. intros z Hz. lia.
Qed.

Lemma sort_by_key_sorted l :
  StronglySorted (fun p q : Z * string => fst p <= fst q) (fold_right insert_by_key [] l).
Proof.
  induction l as [|x r IH]; cbn; [constructor|]. apply insert_by_key_sorted, IH.
Qed.

Lemma insert_by_key_stable z x l :
  List.filter (fun p : Z * string => fst p =? z) (insert_by_key x l)
  = List.filter (fun p : Z * string => fst p =? z) (x :: l).
Proof.
  induction l as [|y r IH]; [reflexivity|]. cbn [insert_by_key].
  destruct (Z.ltb_spec (fst y) (fst x)) as [Hlt | Hge]; [|reflexivity].
  cbn [List.filter] in *. rewrite IH.
  destruct (Z.eqb_spec (fst x) z), (Z.eqb_spec (fst y) z); try reflexivity. lia.
Qed.

Lemma sort_by_key_stable z l :
  List.filter (fun p : Z * string => fst p =? z) (fold_right insert_by_key [] l)
  = List.filter (fun p : Z * string => fst p =? z) l.
Proof.
  induction l as [|x r IH]; [reflexivity|]. cbn [fold_right].
  rewrite insert_by_key_stable. cbn [List.filter]. rewrite IH. reflexivity.
Qed.

(** The keys are computed for the whole list or the first failure is
    raised. *)
Lemma keys_of_cases key l :
  (exists ks, keys_of key l = Ok ks /\ map snd ks = l /\
              Forall (fun p => key (snd p) = Ok (fst p)) ks) \/
  (exists e, keys_of key l = Raise e /\ Exists (fun k => key k = Raise e) l).
Proof.
  induction l as [|x r IH]; cbn [keys_of].
  - left. exists []. repeat split. constructor.
  - destruct (key x) as [k|e] eqn:Ek; cbn [rbind].
    + destruct IH as [(ks & -> & Hs & HF) | (e & -> & HE)]; cbn [rbind].
      * left. exists ((k, x) :: ks). cbn [map snd]. rewrite Hs.
        repeat split. constructor; [exact Ek | exact HF].
      * right. exists e. split; [reflexivity|]. apply Exists_cons_tl. exact HE.
    + right. exists e. split; [reflexivity|]. apply Exists_cons_hd. exact Ek.
Qed.

Lemma assoc_in_keys {V} k (l : list (string * V)) :
  In k (map fst l) -> is_Some (assoc k l).
Proof.
  induction l as [|[k' v] r IH]; cbn; [contradiction|].
  intros [-> | H]; [rewrite String.eqb_refl; eauto|].
  destruct (String.eqb k k'); [eauto | apply IH, H].
Qed.

(** With every timezone among the keys the loop prints every block and no
    lookup fails. *)
Lemma print_timezones_ok data timezones : forall stdout,
  (forall t, In t timezones -> In t (map fst data)) ->
  print_timezones data timezones stdout
  = (stdout ++ flat_map (timezone_block data) timezones, None).
Proof.
  induction timezones as [|t rest IH]; intros stdout Hin; cbn [print_timezones flat_map].
  - rewrite app_nil_r. reflexivity.
  - destruct (assoc_in_keys t data (Hin t (or_introl eq_refl))) as [teams Ht].
    unfold timezone_block at 1. rewrite Ht, IH by (intros t' Ht'; apply Hin; right; exact Ht').
    rewrite <- app_assoc. reflexivity.
Qed.

Lemma timezone_sort_key_raises k e : timezone_sort_key k = Raise e -> e = ValueError.
Proof.
  unfold timezone_sort_key. destruct (String.prefix "UTC" k); [|discriminate].
  destruct (PyInt.int _); cbn; [discriminate|]. intros [= <-]. reflexivity.
Qed.

Lemma timezone_range_sorted : StronglySorted Z.le timezone_range.
Proof.
  unfold timezone_range. cbn [seq map Z.of_nat].
  repeat (constructor; [|repeat (constructor; [lia|]); constructor]). constructor.
Qed.

End Printer.

(** X1: the key under which a timezone is sorted for printing is the offset
    its label was made from. *)
Theorem timezone_label_round_trip (tz : Z) :
  Z.abs tz < 2 ^ 4299 ->
  timezone_sort_key (timezone_key tz) = Ok tz /\
  PyInt.int (PyStr.format_plus_d tz) = Some tz /\
  (forall tz', Z.abs tz' < 2 ^ 4299 -> timezone_key tz = timezone_key tz' -> tz = tz').
Proof.
  intros Hb. split; [apply timezone_sort_key_of_key, Hb|].
  split; [apply int_format_plus_d, Hb|].
  intros tz' Hb' Heq. apply (f_equal timezone_sort_key) in Heq.
  rewrite !timezone_sort_key_of_key in Heq by assumption. congruence.
Qed.

Lemma timezone_label_round_trip_witness :
  Z.abs (-12) < 2 ^ 4299 /\ timezone_sort_key (timezone_key (-12)) = Ok (-12).
Proof.
  assert (H : Z.abs (-12) < 2 ^ 4299) by (vm_compute; reflexivity).
  split; [exact H|]. exact (proj1 (timezone_label_round_trip (-12) H)).
Defined.

(** X2: [print_analysis_summary] either prints the title and then every
    timezone's block, the timezones in ascending order of their keys and, for
    equal keys, in the order of the mapping; or some key that starts with
    [UTC] has no integer after it, and then [ValueError] is raised when only
    the title has been printed. No lookup of a timezone fails. *)
Theorem summary_prints_all_or_raises (data : list (string * list (string * Z))) :
  (Exists (fun k => timezone_sort_key k = Raise ValueError) (map fst data) /\
   print_analysis_summary data = ([summary_title], Some (Builtin ValueError))) \/
  (exists keyed ks,
     map snd keyed = map fst data /\
     Forall (fun p => timezone_sort_key (snd p) = Ok (fst p)) keyed /\
     Permutation ks keyed /\
     StronglySorted (fun p q : Z * string => fst p <= fst q) ks /\
     (forall z, List.filter (fun p : Z * string => fst p =? z) ks
                = List.filter (fun p : Z * string => fst p =? z) keyed) /\
     print_analysis_summary data
     = (summary_title :: flat_map (timezone_block data) (map snd ks), None)).
Proof.
  unfold print_analysis_summary, sorted_with_key.
  destruct (keys_of_cases timezone_sort_key (map fst data))
    as [(keyed & -> & Hs & HF) | (e & -> & HE)]; cbn [rbind].
  - right. exists keyed, (fold_right insert_by_key [] keyed).
    split; [exact Hs|]. split; [exact HF|]. split; [apply sort_by_key_perm|].
    split; [apply sort_by_key_sorted|]. split; [intros z; apply sort_by_key_stable|].
    rewrite print_timezones_ok; [reflexivity|].
    intros t Ht. rewrite <- Hs.
    eapply Permutation_in; [apply Permutation_map, sort_by_key_perm | exact Ht].
  - left. assert (He : e = ValueError).
    { apply List.Exists_exists in HE as (k & _ & Hk). eapply timezone_sort_key_raises, Hk. }
    subst e. auto.
Qed.

Section SummaryOfLeaderboard.
Context `{RT : Runtime}.

Lemma keys_of_labels tzs :
  Forall (fun tz => Z.abs tz < 2 ^ 4299) tzs ->
  keys_of timezone_sort_key (map timezone_key tzs)
  = Ok (map (fun tz => (tz, timezone_key tz)) tzs).
Proof.
  induction 1 as [|tz r Hb _ IH]; [reflexivity|].
  cbn [map keys_of]. rewrite (timezone_sort_key_of_key tz Hb). cbn [rbind].
  rewrite IH. reflexivity.
Qed.

Lemma timezone_range_bounded : Forall (fun tz => Z.abs tz < 2 ^ 4299) timezone_range.
Proof. repeat constructor; vm_compute; reflexivity. Qed.

(** Sorting the labels of a permutation of the offsets on their keys gives
    the labels from UTC-12 to UTC+12. *)
Lemma sorted_labels tzs :
  Permutation tzs timezone_range ->
  sorted_with_key timezone_sort_key (map timezone_key tzs) = Ok timezone_labels.
Proof.
  intros HP. unfold sorted_with_key.
  rewrite keys_of_labels by (rewrite HP; apply timezone_range_bounded). cbn [rbind].
  set (keyed := map (fun tz => (tz, timezone_key tz)) tzs).
  set (ks := fold_right insert_by_key [] keyed).
  assert (Hperm : Permutation ks keyed) by apply sort_by_key_perm.
  assert (Hlab : Forall (fun p : Z * string => snd p = timezone_key (fst p)) ks).
  { rewrite Hperm. subst keyed. apply Forall_forall. intros p Hp.
    apply list_elem_of_fmap in Hp as (tz & -> & _). reflexivity. }
  assert (Hfst : map fst ks = timezone_range).
  { apply (StronglySorted_unique Z.le).
    - apply (StronglySorted_fmap fst (fun p q : Z * string => fst p <= fst q));
        [auto | apply sort_by_key_sorted].
    - apply timezone_range_sorted.
    - rewrite (Permutation_map fst Hperm). subst keyed. rewrite map_map. cbn [fst].
      rewrite map_id. exact HP. }
  rewrite <- timezone_keys, <- Hfst, map_map. f_equal.
  clear -Hlab. induction Hlab as [|p r Hp _ IH]; [reflexivity|].
  cbn [map]. rewrite Hp, IH. reflexivity.
Qed.

End SummaryOfLeaderboard.

(** X3: with a pool of at least one worker, whatever the order in which the
    timezones and the teams complete, the summary of the leaderboard lists
    the timezones from UTC-12 to UTC+12: the title, then for each label in
    that order its header and the lines of its teams, and no error. *)
Theorem summary_of_leaderboard_by_offset `{RT : Runtime} (a : analyzer) (top_n : Z)
        (tz_completed : list Z) (team_completed : Z -> list string) :
  0 < max_workers a ->
  Permutation tz_completed timezone_range ->
  (forall tz, Permutation (team_completed tz) team_list) ->
  exists out a',
    generate_timezone_analysis_parallel top_n tz_completed team_completed a = (Ok out, a') /\
    sorted_with_key timezone_sort_key (map fst out) = Ok timezone_labels /\
    print_analysis_summary out
    = (summary_title :: flat_map (timezone_block out) timezone_labels, None).
Proof.
  intros Hw Htz Hteams.
  assert (Hnd : NoDup (map timezone_key tz_completed)).
  { rewrite (Permutation_map timezone_key Htz), timezone_keys.
    apply timezone_labels_NoDup. }
  destruct (collect_timezones_spec top_n team_completed tz_completed [] a Hw)
    as (out & a' & Hrun & HF & Hrk).
  { intros tz. rewrite (Hteams tz). apply team_list_NoDup. }
  { exact Hnd. }
  { intros tz _ Hin. cbn in Hin. apply elem_of_nil in Hin. exact Hin. }
  cbn [app] in Hrun. exists out, a'. split; [rewrite generate_unfold; exact Hrun|].
  assert (Hfst : map fst out = map timezone_key tz_completed).
  { transitivity (map timezone_key
                      (map fst (rankings_of_run tz_completed team_completed a)));
      [|rewrite Hrk; reflexivity].
    clear -HF. induction HF as [|tr e trs es [He _] _ IH]; [reflexivity|].
    cbn [map]. rewrite He, IH. reflexivity. }
  assert (Hsorted : sorted_with_key timezone_sort_key (map fst out) = Ok timezone_labels)
    by (rewrite Hfst; apply sorted_labels, Htz).
  split; [exact Hsorted|].
  unfold print_analysis_summary. rewrite Hsorted.
  rewrite print_timezones_ok; [reflexivity|].
  intros t Ht. rewrite Hfst. rewrite <- timezone_keys in Ht.
  eapply Permutation_in; [symmetry; apply Permutation_map, Htz | exact Ht].
Qed.

Lemma summary_of_leaderboard_by_offset_witness :
  (0 < max_workers (@__init__ scenario_world 12) /\
   Permutation (rev timezone_range) timezone_range /\
   (forall tz : Z, Permutation (rev team_list) team_list)) /\
  exists out a',
    @generate_timezone_analysis_parallel scenario_world 5 (rev timezone_range)
       (fun _ => rev team_list) (@__init__ scenario_world 12) = (Ok out, a') /\
    sorted_with_key timezone_sort_key (map fst out) = Ok timezone_labels /\
    print_analysis_summary out
    = (summary_title :: flat_map (timezone_block out) timezone_labels, None).
Proof.
  assert (H2 : Permutation (rev timezone_range) timezone_range)
    by (symmetry; apply Permutation_rev).
  assert (H3 : forall tz : Z, Permutation (rev team_list) team_list)
    by (intros _; symmetry; apply Permutation_rev).
  assert (H1 : 0 < max_workers (@__init__ scenario_world 12)) by reflexivity.
  split; [auto|].
  exact (@summary_of_leaderboard_by_offset scenario_world (@__init__ scenario_world 12) 5
           (rev timezone_range) (fun _ => rev team_list) H1 H2 H3).
Defined.

(** ** The viewing windows *)

Section Windows.

Lemma assoc_dict_set_eq {V} k (v : V) l : assoc k (dict_set k v l) = Some v.
Proof.
  induction l as [|[k' v'] r IH]; cbn; [rewrite String.eqb_refl; reflexivity|].
  destruct (String.eqb k k') eqn:E; cbn; rewrite E; [reflexivity | exact IH].
Qed.

Lemma assoc_dict_set_ne {V} k k' (v : V) l :
  k' <> k -> assoc k' (dict_set k v l) = assoc k' l.
Proof.
  intros Hne. induction l as [|[k0 v0] r IH]; cbn.
  - destruct (String.eqb_spec k' k); [contradiction | reflexivity].
  - destruct (String.eqb_spec k k0) as [-> | Hk]; cbn.
    + destruct (String.eqb_spec k' k0); [contradiction | reflexivity].
    + destruct (String.eqb k' k0); [reflexivity | exact IH].
Qed.

(** Setting the entries of [w], whose keys are distinct, one after the
    other. *)
Lemma assoc_fold_dict_set {V} (w : list (string * V)) : forall table k,
  NoDup (map fst w) ->
  assoc k (fold_left (fun tbl e => dict_set (fst e) (snd e) tbl) w table)
  = match assoc k w with Some v => Some v | None => assoc k table end.
Proof.
  induction w as [|[k0 v0] r IH]; intros table k Hnd; [reflexivity|].
  cbn [fold_left fst snd map] in *. apply NoDup_cons in Hnd as [Hnin Hnd].
  rewrite IH by exact Hnd. cbn [assoc].
  destruct (String.eqb_spec k k0) as [-> | Hne].
  - destruct (assoc k0 r) eqn:E; [|apply assoc_dict_set_eq].
    exfalso. apply Hnin. clear -E. induction r as [|[k1 v1] r IH]; [discriminate|].
    cbn in *. destruct (String.eqb_spec k0 k1) as [-> | _]; [left | right; apply IH, E].
  - destruct (assoc k r); [reflexivity | apply assoc_dict_set_ne, Hne].
Qed.

Lemma precompute_unfold table :
  _precompute_time_windows table
  = fold_left (fun tbl e => dict_set (fst e) (snd e) tbl) VIEWING_WINDOWS_TIME table.
Proof. reflexivity. Qed.

End Windows.

(** X4: whatever the class attribute held before, [_precompute_time_windows]
    leaves each of the seven weekdays with its window and every other key as
    it was; run again, it changes nothing. *)
Theorem precompute_installs_the_windows (table : list (string * (time * time)))
        (k : string) :
  assoc k (_precompute_time_windows table)
  = (match assoc k VIEWING_WINDOWS_TIME with
     | Some w => Some w
     | None => assoc k table
     end) /\
  (In k day_names -> is_Some (assoc k VIEWING_WINDOWS_TIME)) /\
  assoc k (_precompute_time_windows (_precompute_time_windows table))
  = assoc k (_precompute_time_windows table).
Proof.
  assert (Hnd : NoDup (map fst VIEWING_WINDOWS_TIME))
    by (apply (bool_decide_unpack _); vm_compute; reflexivity).
  split; [|split].
  - rewrite precompute_unfold. apply assoc_fold_dict_set, Hnd.
  - intros Hin. revert k Hin. apply List.Forall_forall.
    repeat constructor; vm_compute; eauto.
  - rewrite (precompute_unfold (_precompute_time_windows table)),
      assoc_fold_dict_set by exact Hnd.
    destruct (assoc k VIEWING_WINDOWS_TIME) eqn:E; [|reflexivity].
    rewrite precompute_unfold, assoc_fold_dict_set, E by exact Hnd. reflexivity.
Qed.

(** X5: the weekday name of any datetime has a window, which opens no later
    than it closes: the test [weekday in VIEWING_WINDOWS_TIME] of the
    evaluation never fails, and a game is left out only for its time of
    day. *)
Theorem every_weekday_has_a_window (dt : datetime) :
  In (strftime_A dt) day_names /\
  exists start_time end_time,
    assoc (strftime_A dt) VIEWING_WINDOWS_TIME = Some (start_time, end_time) /\
    time_le start_time end_time = true /\
    forall tz_delta loc d,
      datetime_add dt tz_delta = Ok loc ->
      exists s e,
        assoc (strftime_A loc) VIEWING_WINDOWS_TIME = Some (s, e) /\
        counted tz_delta (dt, d) = time_le s (dt_time loc) && time_le (dt_time loc) e.
Proof.
  assert (Hall : forall x : datetime,
            In (strftime_A x) day_names /\
            exists s e, assoc (strftime_A x) VIEWING_WINDOWS_TIME = Some (s, e) /\
                        time_le s e = true).
  { intros x. unfold strftime_A, weekday.
    pose proof (Z.mod_pos_bound (toordinal (dt_date x) + 6) 7 ltac:(lia)) as Hw.
    set (w := (toordinal (dt_date x) + 6) mod 7) in *.
    assert (Hc : w = 0 \/ w = 1 \/ w = 2 \/ w = 3 \/ w = 4 \/ w = 5 \/ w = 6) by lia.
    clearbody w.
    repeat (destruct Hc as [-> | Hc]); try subst w;
      (split; [vm_compute; tauto | eexists _, _; split; vm_compute; reflexivity]). }
  destruct (Hall dt) as (Hin & s & e & Hs & Hle).
  split; [exact Hin|]. exists s, e. split; [exact Hs|]. split; [exact Hle|].
  intros tz_delta loc d Hadd.
  destruct (Hall loc) as (_ & s' & e' & Hs' & _).
  exists s', e'. split; [exact Hs'|].
  rewrite (counted_eq _ _ _ _ Hadd), Hs'. reflexivity.
Qed.

(** ** The memo table of the fetch *)

Section FetchMemo.
Context `{RT : Runtime}.

Lemma assoc_None_keys {V} k (l : list (string * V)) :
  assoc k l = None <-> ~ In k (map fst l).
Proof.
  induction l as [|[k' v] r IH]; cbn; [tauto|].
  destruct (String.eqb_spec k k') as [-> | Hne].
  - split; [discriminate | intros H; exfalso; apply H; left; reflexivity].
  - rewrite IH. split; [intros H [E | Hin]; [congruence | exact (H Hin)] | tauto].
Qed.

Lemma lru_remove_keys url c k :
  In k (map fst (lru_remove url c)) <-> In k (map fst c) /\ k <> url.
Proof.
  unfold lru_remove. rewrite !in_map_iff. split.
  - intros ([k' v] & <- & Hin). apply filter_In in Hin as [Hin Hne]. cbn in *.
    split; [exists (k', v); auto|]. intros ->. rewrite String.eqb_refl in Hne. discriminate.
  - intros [([k' v] & <- & Hin) Hne]. exists (k', v). split; [reflexivity|].
    apply filter_In. split; [exact Hin|]. cbn in *.
    destruct (String.eqb_spec url k'); [congruence | reflexivity].
Qed.

Lemma lru_remove_NoDup url c : NoDup (map fst c) -> NoDup (map fst (lru_remove url c)).
Proof.
  induction c as [|[k v] r IH]; cbn; [auto|]. intros Hnd.
  apply NoDup_cons in Hnd as [Hnin Hnd].
  destruct (String.eqb url k); cbn; [apply IH, Hnd|].
  apply NoDup_cons. split; [|apply IH, Hnd].
  intros Hin. apply Hnin. apply list_elem_of_In. apply list_elem_of_In in Hin.
  apply lru_remove_keys in Hin. tauto.
Qed.

Lemma lru_remove_absent url c : ~ In url (map fst c) -> lru_remove url c = c.
Proof.
  induction c as [|[k v] r IH]; cbn; [reflexivity|]. intros Hn.
  destruct (String.eqb_spec url k) as [-> | Hne]; [exfalso; apply Hn; left; reflexivity|].
  cbn. f_equal. apply IH. tauto.
Qed.

Lemma lru_remove_length url c : (length (lru_remove url c) <= length c)%nat.
Proof.
  induction c as [|[k v] r IH]; cbn; [lia|].
  destruct (negb (String.eqb url k)); cbn; unfold lru_remove in IH; lia.
Qed.

Lemma lru_remove_shorter url c t :
  assoc url c = Some t -> (length (lru_remove url c) < length c)%nat.
Proof.
  induction c as [|[k v] r IH]; cbn; [discriminate|].
  destruct (String.eqb url k); cbn.
  - intros _. pose proof (lru_remove_length url r). unfold lru_remove in *. lia.
  - intros H. apply IH in H. unfold lru_remove in *. lia.
Qed.

Lemma fetch_memo_ok url a r a' :
  memo_ok a -> fetch_api_data url a = (r, a') -> memo_ok a'.
Proof.
  intros [Hlen Hnd]. unfold fetch_api_data, memo_ok.
  destruct (assoc url (fetch_cache a)) as [t|] eqn:E; intros [= <- <-]; cbn [fetch_cache].
  - split.
    + cbn [length]. pose proof (lru_remove_shorter _ _ _ E). lia.
    + cbn [map fst]. apply NoDup_cons. split; [|apply lru_remove_NoDup, Hnd].
      intros Hin. apply list_elem_of_In, lru_remove_keys in Hin. tauto.
  - assert (Hsub : map fst (take 127 (fetch_cache a)) `sublist_of` map fst (fetch_cache a))
      by (apply (fmap_sublist fst), sublist_take).
    split.
    + cbn [length]. rewrite length_take. unfold lru_maxsize. lia.
    + cbn [map fst]. apply NoDup_cons. split; [|eapply sublist_NoDup; eassumption].
      intros Hin. apply assoc_None_keys in E. apply E, list_elem_of_In.
      eapply elem_of_sublist; eassumption.
Qed.

Lemma fetch_head url a r a' :
  fetch_api_data url a = (r, a') ->
  exists t rest, r = Ok t /\ fetch_cache a' = (url, t) :: rest /\
    (memo_ok a -> ~ In url (map fst rest)).
Proof.
  unfold fetch_api_data.
  destruct (assoc url (fetch_cache a)) as [t|] eqn:E; intros [= <- <-]; cbn [fetch_cache].
  - exists t, (lru_remove url (fetch_cache a)). repeat split.
    intros _ Hin. apply lru_remove_keys in Hin. tauto.
  - eexists _, (take 127 (fetch_cache a)). split; [reflexivity|].
    split; [reflexivity|]. intros _ Hin. apply assoc_None_keys in E. apply E.
    apply list_elem_of_In. apply list_elem_of_In in Hin.
    eapply elem_of_sublist; [exact Hin | apply (fmap_sublist fst), sublist_take].
Qed.

Lemma fetch_repeat (url : string) (a : analyzer) :
  exists text a1 a2,
    fetch_api_data url a = (Ok text, a1) /\
    fetch_api_data url a1 = (Ok text, a2) /\
    requests a2 = requests a1 /\
    _cache a2 = _cache a /\
    (memo_ok a -> memo_ok a1 /\ a2 = a1).
Proof.
  destruct (fetch_api_data url a) as [r a1] eqn:E1.
  destruct (fetch_head url a r a1 E1) as (t & rest & -> & Hc & Hfresh).
  exists t, a1. unfold fetch_api_data at 1. rewrite Hc.
  cbn [assoc]. rewrite String.eqb_refl. eexists. split; [reflexivity|].
  split; [reflexivity|]. cbn [requests _cache]. split; [reflexivity|].
  split; [destruct (fetch_api_data_spec url a) as (? & ? & Hs & Hk & _); congruence|].
  intros Hok. split; [eapply fetch_memo_ok; eassumption|].
  cbn [lru_remove List.filter fst]. rewrite String.eqb_refl. cbn [negb].
  fold (lru_remove url rest). rewrite lru_remove_absent by (apply Hfresh, Hok).
  rewrite <- Hc. destruct a1; reflexivity.
Qed.

End FetchMemo.

(** X6: [fetch_api_data] never raises. For a URL the memo table does not
    know it sends one request and returns the body of the response, or the
    text of the empty object when the request failed: on a connection
    error, on a timeout and on a status from 400 to 599, for which
    [raise_for_status] raises. For a URL the memo table knows it returns the
    memoized text and sends nothing. Either way the text is memoized,
    failures included: the next call for that URL returns the same text and
    sends nothing, and leaves an analyzer with a well-formed memo table
    exactly as it was. *)
Theorem fetch_is_memoized `{RT : Runtime} (url : string) (a : analyzer) :
  exists text a1 a2,
    fetch_api_data url a = (Ok text, a1) /\
    (assoc url (fetch_cache a) = None ->
     requests a1 = requests a ++ [url] /\
     match session_get (length (requests a)) url with
     | Response status body =>
         text = if (400 <=? status) && (status <? 600) then "{}" else body
     | ConnectionError | Timeout => text = "{}"
     end) /\
    (forall memoized, assoc url (fetch_cache a) = Some memoized ->
     text = memoized /\ requests a1 = requests a) /\
    fetch_api_data url a1 = (Ok text, a2) /\
    requests a2 = requests a1 /\
    (memo_ok a -> memo_ok a1 /\ a2 = a1).
Proof.
  destruct (fetch_repeat url a) as (text & a1 & a2 & H1 & H2 & H3 & _ & H4).
  exists text, a1, a2. split; [exact H1|]. split; [|split; [|auto]].
  - intros Hmiss. destruct (fetch_api_data_miss _ _ _ _ Hmiss H1) as [Hreq Htext].
    split; [exact Hreq|]. rewrite Htext.
    destruct (session_get (length (requests a)) url) as [| |status body]; cbn [fetch_body];
      [reflexivity..|].
    destruct ((400 <=? status) && (status <? 600)); reflexivity.
  - intros memoized Hhit. unfold fetch_api_data in H1. rewrite Hhit in H1.
    injection H1 as <- <-. auto.
Qed.

(** ** The exceptions of a load *)

Section LoadErrors.
Context `{RT : Runtime}.

Lemma parse_game_raise cur g acc e :
  parse_game cur g acc = Raise e -> e = AttributeError /\ ~ is_object g.
Proof.
  intros H. destruct g as [| | | | |l|kvs].
  1-6: cbn in H; injection H as <-; cbn; tauto.
  rewrite (parse_game_object cur (JObj kvs) acc I) in H. discriminate.
Qed.

Lemma parse_games_raise cur games : forall acc e,
  parse_games cur games acc = Raise e ->
  e = AttributeError /\ Exists (fun g => ~ is_object g) games.
Proof.
  induction games as [|g rest IH]; intros acc e; cbn [parse_games]; [discriminate|].
  destruct (parse_game cur g acc) as [acc'|e'] eqn:Eg; cbn [rbind].
  - intros H. apply IH in H as [-> H]. split; [reflexivity | apply Exists_cons_tl, H].
  - intros [= <-]. apply parse_game_raise in Eg as [-> Hg].
    split; [reflexivity | apply Exists_cons_hd, Hg].
Qed.


Lemma load_chain_error text cur e :
  (let+ schedule_data := of_option JSONDecodeError (json_loads text) in
   let+ games := py_get schedule_data "games" (JArr []) in
   let+ items := py_iter games in
   parse_games cur items []) = Raise e ->
  load_error e.
Proof.
  unfold load_error.
  destruct (json_loads text) as [v|]; cbn [of_option rbind]; [|intros [= <-]; auto].
  destruct (py_get v "games" (JArr [])) as [g|e1] eqn:Eg; cbn [rbind].
  - destruct (py_iter g) as [items|e2] eqn:Ei; cbn [rbind].
    + intros H. apply parse_games_raise in H as [-> _]. auto.
    + intros [= <-]. destruct g; cbn in Ei; try discriminate; injection Ei as <-; auto.
  - intros [= <-]. destruct v; cbn in Eg; try discriminate; injection Eg as <-; auto.
Qed.

End LoadErrors.



(** X8: what a first call makes of the body it fetched: a body that is not
    JSON raises [JSONDecodeError]; JSON that is not an object raises
    [AttributeError]; an object without [games] gives the empty schedule,
    which is stored; an object whose [games] is null, a boolean or a number
    raises [TypeError]. A call that raises stores nothing. *)
Theorem load_by_shape_of_payload `{RT : Runtime} (team text : string) (a a1 : analyzer) :
  _cache a !! team = None ->
  fetch_api_data (schedule_url team) a = (Ok text, a1) ->
  (json_loads text = None ->
   get_team_schedule_cached team a = (Raise JSONDecodeError, a1)) /\
  (forall v, json_loads text = Some v -> ~ is_object v ->
   get_team_schedule_cached team a = (Raise AttributeError, a1)) /\
  (forall kvs, json_loads text = Some (JObj kvs) -> assoc "games" kvs = None ->
   get_team_schedule_cached team a = (Ok [], set_cache (<[team := []]> (_cache a1)) a1)) /\
  (forall kvs g, json_loads text = Some (JObj kvs) -> assoc "games" kvs = Some g ->
   py_iter g = Raise TypeError ->
   get_team_schedule_cached team a = (Raise TypeError, a1)) /\
  (forall kvs g, json_loads text = Some (JObj kvs) -> assoc "games" kvs = Some g ->
   (g = JNull \/ (exists b, g = JBool b) \/ (exists z, g = JInt z) \/ (exists f, g = JFloat f)) ->
   py_iter g = Raise TypeError).
Proof.
  intros Hm Hf. rewrite (get_cached_miss _ _ _ _ Hm Hf).
  split; [|split; [|split; [|split]]].
  - intros ->. reflexivity.
  - intros v -> Hv. cbn [of_option rbind].
    destruct v; cbn in *; try reflexivity. contradiction.
  - intros kvs -> Hg. cbn [of_option rbind py_get]. rewrite Hg. reflexivity.
  - intros kvs g -> Hg Hi. cbn [of_option rbind py_get]. rewrite Hg. cbn [rbind].
    rewrite Hi. reflexivity.
  - intros kvs g _ _ [-> | [[b ->] | [[z ->] | [f ->]]]]; reflexivity.
Qed.

Lemma load_by_shape_of_payload_witness :
  (_cache (@__init__ no_games_world 12) !! "NJD" = None /\
   @fetch_api_data no_games_world (schedule_url "NJD") (@__init__ no_games_world 12)
   = (Ok no_games_body,
      mkanalyzer 12 ∅ (mkdate 2025 1 1) [(schedule_url "NJD", no_games_body)]
                 [schedule_url "NJD"])) /\
  @get_team_schedule_cached no_games_world "NJD" (@__init__ no_games_world 12)
  = (Ok [], set_cache (<["NJD" := []]> ∅)
              (mkanalyzer 12 ∅ (mkdate 2025 1 1) [(schedule_url "NJD", no_games_body)]
                          [schedule_url "NJD"])).
Proof.
  assert (H1 : _cache (@__init__ no_games_world 12) !! "NJD" = None) by reflexivity.
  assert (H2 : @fetch_api_data no_games_world (schedule_url "NJD") (@__init__ no_games_world 12)
               = (Ok no_games_body,
                  mkanalyzer 12 ∅ (mkdate 2025 1 1) [(schedule_url "NJD", no_games_body)]
                             [schedule_url "NJD"])) by (vm_compute; reflexivity).
  split; [auto|].
  pose proof (@load_by_shape_of_payload no_games_world _ _ _ _ H1 H2) as (_ & _ & H & _).
  apply (H [("error", JInt 1)]); vm_compute; reflexivity.
Defined.

(** ** What a run keeps *)

Section KeptByGet.
Context `{RT : Runtime}.

Lemma memo_ok_kept : kept_by_get RT memo_ok.
Proof.
  intros team a r a' Hok Hg. destruct (_cache a !! team) as [s|] eqn:Ec.
  - rewrite (get_cached_hit _ _ _ Ec) in Hg. injection Hg as _ <-. exact Hok.
  - destruct (fetch_api_data (schedule_url team) a) as [rt a1] eqn:Hf.
    pose proof (fetch_memo_ok _ _ _ _ Hok Hf) as Hok1.
    destruct (fetch_api_data_spec (schedule_url team) a) as (text & a1' & Hf' & _).
    rewrite Hf in Hf'. injection Hf' as -> <-.
    rewrite (get_cached_miss _ _ _ _ Ec Hf) in Hg.
    destruct (let+ _ := _ in _); injection Hg as _ <-; exact Hok1.
Qed.

Lemma cache_future_kept : kept_by_get RT cache_future.
Proof.
  intros team a r a' Hfut Hg. destruct (_cache a !! team) as [s|] eqn:Ec.
  - rewrite (get_cached_hit _ _ _ Ec) in Hg. injection Hg as _ <-. exact Hfut.
  - destruct (fetch_api_data_spec (schedule_url team) a) as (text & a1 & Hf & Hc & Hd & _).
    rewrite (get_cached_miss _ _ _ _ Ec Hf) in Hg.
    destruct (json_loads text) as [v|]; cbn [of_option rbind] in Hg.
    2: { injection Hg as _ <-. intros t s. rewrite Hc, Hd. apply Hfut. }
    destruct (py_get v "games" (JArr [])) as [g|]; cbn [rbind] in Hg.
    2: { injection Hg as _ <-. intros t s. rewrite Hc, Hd. apply Hfut. }
    destruct (py_iter g) as [items|]; cbn [rbind] in Hg.
    2: { injection Hg as _ <-. intros t s. rewrite Hc, Hd. apply Hfut. }
    destruct (parse_games (current_date a1) items []) as [parsed|] eqn:Ep.
    2: { injection Hg as _ <-. intros t s. rewrite Hc, Hd. apply Hfut. }
    injection Hg as _ <-. apply parse_games_ok in Ep. cbn [app] in Ep.
    intros t s. cbn [set_cache _cache current_date]. rewrite Hc.
    destruct (decide (team = t)) as [<- | Hne].
    + rewrite lookup_insert_eq. intros [= <-]. rewrite Ep.
      apply Forall_forall. intros [dt d] Hin.
      apply list_elem_of_omap in Hin as (j & _ & Hret).
      apply retained_iff in Hret as (? & ? & _ & _ & _ & _ & _ & Hgt & _). exact Hgt.
    + rewrite lookup_insert_ne by exact Hne. rewrite Hd. apply Hfut.
Qed.

Lemma current_date_kept d : kept_by_get RT (fun a => current_date a = d).
Proof.
  intros team a r a' Ha Hg. apply get_cached_frame in Hg as (Hd & _). congruence.
Qed.

End KeptByGet.

(** X9: no game of a day that is not after the date of construction is ever
    in the cache: the cache starts empty, no call of
    [get_team_schedule_cached] stores such a game, and at the end of a run,
    however its tasks were scheduled, every cached game is after [today]. *)
Theorem cache_holds_future_games `{RT : Runtime} :
  (forall workers, cache_future (__init__ workers)) /\
  kept_by_get RT cache_future /\
  forall started racing tz_completed team_completed,
    let final := snd (main started racing tz_completed team_completed) in
    current_date final = today /\
    forall team sched dt d,
      _cache final !! team = Some sched -> In (dt, d) sched ->
      date_gt (dt_date dt) today = true.
Proof.
  assert (H0 : forall workers, cache_future (__init__ workers)).
  { intros workers t s. cbn. rewrite lookup_empty. discriminate. }
  split; [exact H0|]. split; [apply cache_future_kept|].
  intros started racing tz_completed team_completed final.
  assert (Hd : current_date final = today)
    by (apply (main_keeps _ (current_date_kept today)); reflexivity).
  split; [exact Hd|]. intros team sched dt d Hs Hin.
  pose proof (main_keeps _ cache_future_kept started racing tz_completed team_completed
                (H0 12)) as Hfut.
  fold final in Hfut. specialize (Hfut team sched Hs).
  rewrite List.Forall_forall in Hfut. rewrite <- Hd. exact (Hfut (dt, d) Hin).
Qed.

(** X10: the memo table of the fetch never holds more than 128 entries nor two
    entries for one URL: it starts empty, every call keeps it so, whatever
    the number of teams asked for, and so it is at the end of a run. *)
Theorem memo_table_stays_bounded `{RT : Runtime} :
  (forall workers, memo_ok (__init__ workers)) /\
  (forall url a r a', memo_ok a -> fetch_api_data url a = (r, a') -> memo_ok a') /\
  kept_by_get RT memo_ok /\
  (forall teams results a results' a',
     memo_ok a -> run_loads teams results a = (results', a') -> memo_ok a') /\
  forall started racing tz_completed team_completed,
    memo_ok (snd (main started racing tz_completed team_completed)).
Proof.
  assert (H0 : forall workers, memo_ok (__init__ workers)).
  { intros workers. split; cbn; [unfold lru_maxsize; lia | constructor]. }
  split; [exact H0|]. split; [apply @fetch_memo_ok|]. split; [apply memo_ok_kept|].
  split; [apply (run_loads_keeps _ memo_ok_kept)|].
  intros. apply (main_keeps _ memo_ok_kept), H0.
Qed.

(** ** A whole run *)

Section Run.
Context `{RT : Runtime}.

Lemma string_length_append s t :
  String.length (s +:+ t) = (String.length s + String.length t)%nat.
Proof.
  induction s as [|c s IH]; [reflexivity|].
  change (String c s +:+ t) with (String c (s +:+ t)). cbn [String.length].
  rewrite IH. reflexivity.
Qed.

Lemma append_inj_r t : forall s1 s2, s1 +:+ t = s2 +:+ t -> s1 = s2.
Proof.
  induction s1 as [|c s1 IH]; intros [|c2 s2] H.
  - reflexivity.
  - apply (f_equal String.length) in H. rewrite !string_length_append in H.
    cbn [String.length] in H. lia.
  - apply (f_equal String.length) in H. rewrite !string_length_append in H.
    cbn [String.length] in H. lia.
  - change (String c (s1 +:+ t) = String c2 (s2 +:+ t)) in H.
    injection H as -> H. f_equal. apply IH, H.
Qed.

(** Two teams have two URLs. *)
Lemma schedule_url_inj t1 t2 : schedule_url t1 = schedule_url t2 -> t1 = t2.
Proof.
  unfold schedule_url. intros H. apply String.app_inj in H. eapply append_inj_r, H.
Qed.

Lemma loaded_init workers : loaded [] (__init__ workers).
Proof.
  split; [reflexivity|]. split; cbn.
  - intros t [s Hs]. rewrite lookup_empty in Hs. discriminate.
  - tauto.
Qed.

(** The load of a team not seen before sends one request. *)
Lemma get_loaded done team a r a' :
  loaded done a -> ~ In team done ->
  get_team_schedule_cached team a = (r, a') ->
  loaded (done ++ [team]) a' /\
  match r with
  | Ok s => _cache a' !! team = Some s
  | Raise e => load_error e /\ _cache a' !! team = None
  end.
Proof.
  intros (Hreq & Hcache & Hmemo) Hnew Hg.
  assert (Ec : _cache a !! team = None).
  { destruct (_cache a !! team) eqn:E; [|reflexivity]. exfalso. apply Hnew, Hcache. eauto. }
  assert (El : assoc (schedule_url team) (fetch_cache a) = None).
  { apply assoc_None_keys. intros Hin. apply Hmemo, in_map_iff in Hin as (t' & Hu & Ht').
    apply schedule_url_inj in Hu. subst t'. exact (Hnew Ht'). }
  destruct (fetch_api_data_spec (schedule_url team) a) as (text & a1 & Hf & Hc1 & _).
  destruct (fetch_api_data_miss _ _ _ _ El Hf) as [Hr1 _].
  assert (Hm1 : forall u, In u (map fst (fetch_cache a1)) ->
                          In u (map schedule_url (done ++ [team]))).
  { intros u Hu. rewrite map_app, in_app_iff. cbn [map In].
    unfold fetch_api_data in Hf. rewrite El in Hf. injection Hf as _ <-.
    cbn [fetch_cache take lru_maxsize map fst In] in Hu.
    destruct Hu as [<- | Hu]; [auto|]. left. apply Hmemo.
    apply list_elem_of_In. apply list_elem_of_In in Hu.
    eapply elem_of_sublist; [exact Hu | apply (fmap_sublist fst), sublist_take]. }
  assert (Hreq1 : requests a1 = map schedule_url (done ++ [team]))
    by (rewrite Hr1, Hreq, map_app; reflexivity).
  rewrite (get_cached_miss _ _ _ _ Ec Hf) in Hg.
  destruct (let+ _ := _ in _) as [parsed|e] eqn:Ech; injection Hg as <- <-.
  - split; [|cbn; apply lookup_insert_eq].
    split; [exact Hreq1|]. split; [|exact Hm1].
    intros t [s Hs]. cbn in Hs. rewrite Hc1 in Hs. rewrite in_app_iff. cbn [In].
    destruct (decide (team = t)) as [-> | Hne]; [auto|].
    rewrite lookup_insert_ne in Hs by exact Hne. left. apply Hcache. eauto.
  - split; [|split; [eapply load_chain_error, Ech | rewrite Hc1; exact Ec]].
    split; [exact Hreq1|]. split; [|exact Hm1].
    intros t Hs. rewrite Hc1 in Hs. rewrite in_app_iff. left. apply Hcache, Hs.
Qed.

(** A load changes the cache for its own team only. *)
Lemma get_other team t a r a' :
  team <> t -> get_team_schedule_cached t a = (r, a') ->
  _cache a' !! team = _cache a !! team.
Proof.
  intros Hne Hg. destruct (_cache a !! t) as [s|] eqn:Ec.
  - rewrite (get_cached_hit _ _ _ Ec) in Hg. injection Hg as _ <-. reflexivity.
  - destruct (fetch_api_data_spec (schedule_url t) a) as (text & b & Hf & Hcb & _).
    rewrite (get_cached_miss _ _ _ _ Ec Hf) in Hg.
    destruct (let+ _ := _ in _); injection Hg as _ <-; cbn; rewrite ?Hcb; [|reflexivity].
    apply lookup_insert_ne. congruence.
Qed.

Lemma run_loads_other started : forall results a results' a' team,
  ~ In team started -> run_loads started results a = (results', a') ->
  _cache a' !! team = _cache a !! team.
Proof.
  induction started as [|t rest IH]; intros results a results' a' team Hn;
    cbn [run_loads].
  - intros [= _ <-]. reflexivity.
  - destruct (get_team_schedule_cached t a) as [r a1] eqn:Eg. intros Hrun.
    rewrite (IH _ _ _ _ team ltac:(cbn in Hn; tauto) Hrun).
    eapply get_other; [|exact Eg]. intros ->. apply Hn. left. reflexivity.
Qed.

(** The loads of distinct teams, none seen before. *)
Lemma run_loads_loaded started : forall done results a results' a',
  loaded done a -> NoDup (done ++ started) ->
  run_loads started results a = (results', a') ->
  loaded (done ++ started) a' /\
  exists rs,
    results' = results ++ rs /\ map fst rs = started /\
    Forall (fun tr => match snd tr with
                      | Ok s => _cache a' !! fst tr = Some s
                      | Raise e => load_error e /\ _cache a' !! fst tr = None
                      end) rs.
Proof.
  induction started as [|team rest IH]; intros done results a results' a' Hl Hnd;
    cbn [run_loads].
  - intros [= <- <-]. rewrite !app_nil_r. split; [exact Hl|]. exists [].
    rewrite app_nil_r. split; [reflexivity|]. split; [reflexivity | constructor].
  - destruct (get_team_schedule_cached team a) as [r a1] eqn:Eg. intros Hrun.
    assert (Hnew : ~ In team done).
    { intros Hin. apply NoDup_app in Hnd as (_ & Hdis & _).
      apply (Hdis team); [apply list_elem_of_In, Hin | left]. }
    destruct (get_loaded done team a r a1 Hl Hnew Eg) as [Hl1 Hr].
    assert (Hnd1 : NoDup ((done ++ [team]) ++ rest)) by (rewrite <- app_assoc; exact Hnd).
    destruct (IH (done ++ [team]) _ a1 results' a' Hl1 Hnd1 Hrun)
      as (Hl' & rs & -> & Hfst & HF).
    rewrite <- app_assoc in Hl'. split; [exact Hl'|].
    exists ((team, r) :: rs). rewrite <- app_assoc. split; [reflexivity|].
    split; [cbn; rewrite Hfst; reflexivity|].
    constructor; [|exact HF]. cbn [fst snd].
    assert (Hrest : ~ In team rest).
    { intros Hin. apply NoDup_app in Hnd as (_ & _ & Hr'). apply NoDup_cons in Hr' as [Hn _].
      apply Hn, list_elem_of_In, Hin. }
    pose proof (proj2 (run_loads_frame _ _ _ _ _ Hrun)) as Hkeep.
    destruct r as [s|e]; [apply Hkeep, Hr|].
    destruct Hr as [He Hnone]. split; [exact He|].
    rewrite (run_loads_other _ _ _ _ _ team Hrest Hrun). exact Hnone.
Qed.

Lemma assoc_results t r (rs : list (string * result schedule)) :
  NoDup (map fst rs) -> In (t, r) rs -> assoc t rs = Some r.
Proof.
  induction rs as [|[t' r'] rest IH]; cbn; [contradiction|]. intros Hnd Hin.
  apply NoDup_cons in Hnd as [Hn Hnd].
  destruct (String.eqb_spec t t') as [-> | Hne].
  - destruct Hin as [[= ->] | Hin]; [reflexivity|]. exfalso. apply Hn.
    apply list_elem_of_In, in_map_iff. exists (t', r). auto.
  - destruct Hin as [[= -> ->] | Hin]; [contradiction | apply IH; assumption].
Qed.

Lemma first_exception_spec teams (rs : list (string * result schedule)) :
  match first_exception teams rs with
  | Some e => exists t, In t teams /\ assoc t rs = Some (Raise e)
  | None => forall t e, In t teams -> assoc t rs <> Some (Raise e)
  end.
Proof.
  induction teams as [|t rest IH]; cbn [first_exception]; [intros t e []|].
  destruct (assoc t rs) as [[s|e]|] eqn:E.
  - destruct (first_exception rest rs) as [e'|].
    + destruct IH as (t' & Hin & Ht'). exists t'. split; [right|]; assumption.
    + intros t' e' [<- | Hin]; [congruence | apply IH, Hin].
  - exists t. split; [left; reflexivity | exact E].
  - destruct (first_exception rest rs) as [e'|].
    + destruct IH as (t' & Hin & Ht'). exists t'. split; [right|]; assumption.
    + intros t' e' [<- | Hin]; [congruence | apply IH, Hin].
Qed.

Lemma snapshot_rows_teams cache off completed :
  map row_team (omap (snapshot_row cache off) completed) `sublist_of` completed.
Proof.
  induction completed as [|t rest IH]; cbn [omap list_omap]; [constructor|].
  unfold snapshot_row at 1. destruct (cache !! t) as [sched|]; [|constructor; exact IH].
  destruct (evaluate off t sched) as [r|] eqn:E; [|constructor; exact IH].
  cbn [map]. rewrite (evaluate_team _ _ _ _ E). constructor. exact IH.
Qed.

(** On a warm cache a timezone is processed without touching the
    analyzer. *)
Lemma process_timezone_warm top_n tz completed a :
  0 < max_workers a ->
  NoDup completed -> (forall t, In t completed -> is_Some (_cache a !! t)) ->
  process_timezone top_n tz completed a
  = (Ok (tz, top_entries top_n (sorted_desc (omap (snapshot_row (_cache a) tz) completed))), a).
Proof.
  intros Hpool Hnd Hw. unfold process_timezone, bind, ret.
  rewrite rank_unfold by exact Hpool. rewrite collect_rankings_warm by exact Hw. cbn [app].
  set (ranking := sorted_desc _).
  assert (Hteams : NoDup (map row_team ranking)).
  { subst ranking. rewrite (Permutation_map row_team (sorted_desc_perm _)).
    eapply sublist_NoDup; [exact Hnd | apply snapshot_rows_teams]. }
  f_equal. f_equal. f_equal.
  rewrite top_rows_fold by (exact Hteams || lia). unfold top_entries. f_equal.
  destruct (Z.le_gt_cases top_n (Z.of_nat (length ranking))).
  - rewrite Z.min_l by lia. reflexivity.
  - rewrite Z.min_r, Nat2Z.id, firstn_all by lia. symmetry. apply take_ge. lia.
Qed.

Lemma collect_timezones_warm top_n team_completed tz_completed a : forall acc,
  0 < max_workers a ->
  (forall tz, NoDup (team_completed tz)) ->
  (forall tz t, In t (team_completed tz) -> is_Some (_cache a !! t)) ->
  NoDup (map timezone_key tz_completed) ->
  (forall tz, In tz tz_completed -> ~ In (timezone_key tz) (map fst acc)) ->
  collect_timezones top_n tz_completed team_completed acc a
  = (Ok (acc ++ map (fun tz =>
                       (timezone_key tz,
                        top_entries top_n
                          (sorted_desc (omap (snapshot_row (_cache a) tz) (team_completed tz)))))
                    tz_completed), a).
Proof.
  induction tz_completed as [|tz rest IH]; intros acc Hpool Hnd Hw Hkeys Hacc;
    cbn [collect_timezones map].
  - rewrite app_nil_r. reflexivity.
  - rewrite process_timezone_warm by (exact Hpool || apply Hnd || apply Hw).
    rewrite dict_set_fresh
      by (intros Hin; apply (Hacc tz (or_introl eq_refl)), list_elem_of_In, Hin).
    cbn [map] in Hkeys. apply NoDup_cons in Hkeys as [Hn Hkeys].
    rewrite IH; [rewrite <- app_assoc; reflexivity | assumption.. |].
    intros tz' Hin. rewrite map_app, in_app_iff. cbn [map fst In].
    intros [H | [H | []]]; [exact (Hacc tz' (or_intror Hin) H)|].
    apply Hn. rewrite H. apply list_elem_of_In, in_map. exact Hin.
Qed.

End Run.

Section RunOutcome.
Context `{RT : Runtime}.

(** The first exception in the order of the teams, with the teams before
    it. *)
Lemma first_exception_prefix teams (rs : list (string * result schedule)) e :
  first_exception teams rs = Some e ->
  exists pre t post,
    teams = pre ++ t :: post /\ assoc t rs = Some (Raise e) /\
    forall u e', In u pre -> assoc u rs <> Some (Raise e').
Proof.
  induction teams as [|t rest IH]; cbn [first_exception]; [discriminate|].
  destruct (assoc t rs) as [[s|e0]|] eqn:E.
  - intros H. destruct (IH H) as (pre & t' & post & -> & Ht' & Hpre).
    exists (t :: pre), t', post. split; [reflexivity|]. split; [exact Ht'|].
    intros u e' [<- | Hu]; [congruence | apply Hpre, Hu].
  - intros [= ->]. exists [], t, rest. split; [reflexivity|]. split; [exact E|].
    intros u e' [].
  - intros H. destruct (IH H) as (pre & t' & post & -> & Ht' & Hpre).
    exists (t :: pre), t', post. split; [reflexivity|]. split; [exact Ht'|].
    intros u e' [<- | Hu]; [congruence | apply Hpre, Hu].
Qed.

(** When an exception was met, every team before it had returned. *)
Lemma exception_seen_prefix pre t post (rs : list (string * result schedule)) :
  exception_seen (pre ++ t :: post) rs = true ->
  (forall u e', In u pre -> assoc u rs <> Some (Raise e')) ->
  forall u, In u pre -> is_Some (assoc u rs).
Proof.
  induction pre as [|p pre IH]; cbn [app exception_seen]; [intros _ _ u []|].
  intros Hseen Hok u Hu. destruct (assoc p rs) as [[s|e0]|] eqn:E.
  - destruct Hu as [<- | Hu]; [rewrite E; eauto|].
    apply IH; [exact Hseen | intros; apply Hok; right; assumption | exact Hu].
  - exfalso. apply (Hok p e0); [left; reflexivity | exact E].
  - discriminate.
Qed.

Lemma first_exception_None_seen teams (rs : list (string * result schedule)) :
  first_exception teams rs = None -> exception_seen teams rs = false.
Proof.
  induction teams as [|t rest IH]; cbn [first_exception exception_seen]; [reflexivity|].
  destruct (assoc t rs) as [[s|e0]|]; [exact IH | discriminate | reflexivity].
Qed.

(** The two ways a run can go. [ran] are the loads that were not
    cancelled. *)
Lemma main_spec started racing tz_completed team_completed :
  Permutation started team_list ->
  Permutation tz_completed timezone_range ->
  (forall tz, Permutation (team_completed tz) team_list) ->
  let run := main started racing tz_completed team_completed in
  exists ran,
    ran `sublist_of` started /\
    requests (snd run) = map schedule_url ran /\
    ((exists e pre t post,
        fst run = Raise e /\ load_error e /\ team_list = pre ++ t :: post /\
        (forall u, In u (pre ++ [t]) -> In u ran) /\
        _cache (snd run) !! t = None) \/
     (ran = started /\
      (forall t, In t team_list -> is_Some (_cache (snd run) !! t)) /\
      fst run
      = Ok (map (fun tz =>
                   (timezone_key tz,
                    top_entries 5
                      (sorted_desc (omap (snapshot_row (_cache (snd run)) tz)
                                         (team_completed tz)))))
                tz_completed))).
Proof.
  intros Hs Htz Hteams run. subst run. unfold main, bind.
  rewrite warm_cache_unfold by reflexivity.
  destruct (map_loads started racing [] (__init__ 12)) as [results a1] eqn:Em.
  destruct (map_loads_ran _ _ _ _ _ _ Em) as (ran & Hsub & Er & Hall).
  assert (Hnds : NoDup started) by (rewrite Hs; apply team_list_NoDup).
  assert (Hnd : NoDup ran) by (eapply sublist_NoDup; eassumption).
  destruct (run_loads_loaded ran [] [] _ _ _ (loaded_init 12) Hnd Er)
    as ((Hreq & _) & rs & Hres & Hfst & HF).
  cbn [app] in Hres, Hreq. subst results.
  assert (Hrs : NoDup (map fst rs)) by (rewrite Hfst; exact Hnd).
  assert (Hpool : max_workers a1 = 12)
    by exact (run_loads_keeps (fun a => max_workers a = 12) (workers_kept 12)
                ran [] (__init__ 12) rs a1 eq_refl Er).
  rewrite List.Forall_forall in HF.
  exists ran. split; [exact Hsub|].
  pose proof (first_exception_spec team_list rs) as Hfe.
  destruct (first_exception team_list rs) as [e|] eqn:Efe; cbn [fst snd].
  - split; [exact Hreq|]. left.
    destruct (first_exception_prefix _ _ _ Efe) as (pre & t & post & Hsplit & Ht & Hpre).
    pose proof (assoc_In _ _ _ Ht) as Hin. specialize (HF _ Hin). cbn [fst snd] in HF.
    exists e, pre, t, post. split; [reflexivity|]. split; [tauto|].
    split; [exact Hsplit|]. split; [|tauto].
    intros u Hu. apply in_app_iff in Hu as [Hu | [<- | []]].
    2: { rewrite <- Hfst. apply in_map_iff. exists (t, Raise e). auto. }
    destruct (exception_seen team_list rs) eqn:Eseen.
    + rewrite Hsplit in Eseen.
      destruct (exception_seen_prefix _ _ _ _ Eseen Hpre u Hu) as [r Hr].
      rewrite <- Hfst. apply in_map_iff. exists (u, r). split; [reflexivity|].
      apply assoc_In, Hr.
    + rewrite (Hall eq_refl). eapply Permutation_in; [symmetry; exact Hs|].
      rewrite Hsplit. apply in_app_iff. auto.
  - pose proof (Hall (first_exception_None_seen _ _ Efe)) as Hran.
    rewrite Hran in *. clear Hran.
    assert (Hwarm : forall t, In t team_list -> is_Some (_cache a1 !! t)).
    { intros t Hin.
      assert (Hst : In t (map fst rs))
        by (rewrite Hfst; eapply Permutation_in; [symmetry; exact Hs | exact Hin]).
      apply in_map_iff in Hst as ([t' r] & <- & Htr). cbn [fst].
      pose proof (HF _ Htr) as Hr. cbn [fst snd] in Hr.
      destruct r as [s|e]; [eauto|]. exfalso.
      apply (Hfe t' e Hin), assoc_results; assumption. }
    rewrite generate_unfold, collect_timezones_warm.
    + cbn [fst snd app]. split; [exact Hreq|]. right.
      split; [reflexivity|]. split; [exact Hwarm | reflexivity].
    + lia.
    + intros tz. rewrite (Hteams tz). apply team_list_NoDup.
    + intros tz t Hin. apply Hwarm. eapply Permutation_in; [apply Hteams | exact Hin].
    + rewrite (Permutation_map timezone_key Htz), timezone_keys. apply timezone_labels_NoDup.
    + intros tz _ [].
Qed.

End RunOutcome.

(** X11: in a run the session sends one request for each load of
    [warm_cache] that was not cancelled and no other: the URLs of those
    teams, each once, in the order in which their loads start, at most 32.
    When the run returns the leaderboard no load was cancelled and the
    requests are the 32 URLs. When it ends with an exception, the team whose
    load raised it and every team before it in [team_list] were loaded: they
    are never cancelled. Every evaluation of the 25 rankings is served from
    the cache. *)
Theorem run_sends_one_request_per_load `{RT : Runtime} (started : list string)
        (racing : string -> bool) (tz_completed : list Z)
        (team_completed : Z -> list string) :
  Permutation started team_list ->
  Permutation tz_completed timezone_range ->
  (forall tz, Permutation (team_completed tz) team_list) ->
  let run := main started racing tz_completed team_completed in
  exists ran,
    ran `sublist_of` started /\
    requests (snd run) = map schedule_url ran /\
    NoDup (requests (snd run)) /\
    (length (requests (snd run)) <= 32)%nat /\
    (forall out, fst run = Ok out ->
       ran = started /\ length (requests (snd run)) = 32%nat) /\
    (forall e, fst run = Raise e ->
       exists pre t post,
         team_list = pre ++ t :: post /\
         (forall u, In u (pre ++ [t]) -> In (schedule_url u) (requests (snd run))) /\
         _cache (snd run) !! t = None).
Proof.
  intros Hs Htz Hteams run.
  destruct (main_spec started racing tz_completed team_completed Hs Htz Hteams)
    as (ran & Hsub & Hreq & Hcases).
  fold run in Hreq, Hcases.
  assert (Hnd : NoDup ran).
  { eapply sublist_NoDup; [|exact Hsub]. rewrite Hs. apply team_list_NoDup. }
  assert (Hlen : (length ran <= 32)%nat).
  { rewrite (sublist_length _ _ Hsub), (Permutation_length Hs). reflexivity. }
  exists ran. split; [exact Hsub|]. split; [exact Hreq|]. rewrite Hreq, length_map.
  split.
  { apply NoDup_fmap_2_strong; [|exact Hnd]. intros t1 t2 _ _. apply schedule_url_inj. }
  split; [exact Hlen|]. split.
  - intros out Hout.
    destruct Hcases as [(e & pre & t & post & He & _) | (-> & _)]; [congruence|].
    split; [reflexivity|]. rewrite (Permutation_length Hs). reflexivity.
  - intros e He.
    destruct Hcases as [(e' & pre & t & post & _ & _ & Hsplit & Hran & Hnone) | (_ & _ & Hok)];
      [|congruence].
    exists pre, t, post. split; [exact Hsplit|]. split; [|exact Hnone].
    intros u Hu. apply in_map, Hran, Hu.
Qed.

Lemma run_sends_one_request_per_load_witness :
  (Permutation (rev team_list) team_list /\
   Permutation (rev timezone_range) timezone_range /\
   (forall tz : Z, Permutation team_list team_list)) /\
  let run := @main scenario_world (rev team_list) (fun _ => false) (rev timezone_range)
               (fun _ => team_list) in
  exists ran,
    ran `sublist_of` rev team_list /\
    requests (snd run) = map schedule_url ran /\
    NoDup (requests (snd run)) /\
    (length (requests (snd run)) <= 32)%nat /\
    (forall out, fst run = Ok out ->
       ran = rev team_list /\ length (requests (snd run)) = 32%nat) /\
    (forall e, fst run = Raise e ->
       exists pre t post,
         team_list = pre ++ t :: post /\
         (forall u, In u (pre ++ [t]) -> In (schedule_url u) (requests (snd run))) /\
         _cache (snd run) !! t = None).
Proof.
  assert (H1 : Permutation (rev team_list) team_list) by (symmetry; apply Permutation_rev).
  assert (H2 : Permutation (rev timezone_range) timezone_range)
    by (symmetry; apply Permutation_rev).
  assert (H3 : forall tz : Z, Permutation team_list team_list) by reflexivity.
  split; [auto|].
  exact (@run_sends_one_request_per_load scenario_world (rev team_list) (fun _ => false)
           (rev timezone_range) (fun _ => team_list) H1 H2 H3).
Defined.

(** Two runs against the API that answers [NJD] with a page that is not
    JSON, the loads starting in the order of [team_list]. When the
    cancellation reaches every future in time, the one request of [NJD] is
    all that is sent; when twelve workers have taken their loads and the
    first of them takes the thirteenth, thirteen requests are sent. A run
    that goes through sends the 32. *)
Example cancelled_loads_send_nothing :
  requests (snd (@main error_page_world team_list (fun _ => false) timezone_range
                   (fun _ => team_list)))
  = [schedule_url "NJD"] /\
  requests (snd (@main error_page_world team_list first_thirteen timezone_range
                   (fun _ => team_list)))
  = map schedule_url (take 13 team_list) /\
  requests (snd (@main offline_world team_list (fun _ => false) timezone_range
                   (fun _ => team_list)))
  = map schedule_url team_list.
Proof. repeat split; vm_compute; reflexivity. Qed.



(** ** Rankings and leaderboards of a snapshot *)

Section Snapshot.
Context `{RT : Runtime}.

Lemma assoc_map_key {K V} (f : K -> string) (g : K -> V) (l : list K) (k : K) :
  NoDup (map f l) -> In k l -> assoc (f k) (map (fun x => (f x, g x)) l) = Some (g k).
Proof.
  induction l as [|x r IH]; cbn; [contradiction|]. intros Hnd Hin.
  apply NoDup_cons in Hnd as [Hn Hnd].
  destruct (String.eqb_spec (f k) (f x)) as [E | Hne].
  - destruct Hin as [-> | Hin]; [reflexivity|]. exfalso. apply Hn. rewrite <- E.
    apply list_elem_of_In, in_map, Hin.
  - destruct Hin as [-> | Hin]; [contradiction | apply IH; assumption].
Qed.

Lemma snapshot_row_team cache off t r : snapshot_row cache off t = Some r -> row_team r = t.
Proof.
  unfold snapshot_row. destruct (cache !! t) as [sched|]; [|discriminate].
  destruct (evaluate off t sched) eqn:E; [|discriminate]. intros [= <-].
  eapply evaluate_team, E.
Qed.

End Snapshot.

(** X13: with a pool of at least one worker the ranker returns a ranking
    that never lists a team twice and lists only teams that were submitted.
    When every submitted team has its schedule in the cache, the rows are
    exactly the rows of the snapshot: a team is listed if and only if its
    evaluation returns, and the analyzer is left as it was. *)
Theorem ranking_lists_each_team_once `{RT : Runtime} (off : Z) (completed : list string)
        (a : analyzer) :
  0 < max_workers a ->
  NoDup completed ->
  exists ranking a',
    rank_teams_by_viewing_availability_parallel off completed a = (Ok ranking, a') /\
    NoDup (map row_team ranking) /\
    (forall t, In t (map row_team ranking) -> In t completed) /\
    (length ranking <= length completed)%nat /\
    ((forall t, In t completed -> is_Some (_cache a !! t)) ->
     a' = a /\
     forall r, In r ranking <->
               exists t, In t completed /\ snapshot_row (_cache a) off t = Some r).
Proof.
  intros Hpool Hnd.
  destruct (rank_total off completed a Hpool) as (presort & a' & Hc & Hr & Hsub & _).
  exists (sorted_desc presort), a'. split; [exact Hr|].
  assert (Hperm : Permutation (map row_team (sorted_desc presort)) (map row_team presort))
    by apply Permutation_map, sorted_desc_perm.
  split; [rewrite Hperm; eapply sublist_NoDup; eassumption|].
  split.
  { intros t Ht. apply list_elem_of_In. eapply elem_of_sublist; [|exact Hsub].
    rewrite <- Hperm. apply list_elem_of_In, Ht. }
  split.
  { rewrite (Permutation_length (sorted_desc_perm presort)),
      <- (length_map row_team presort). apply sublist_length, Hsub. }
  intros Hw. rewrite collect_rankings_warm in Hc by exact Hw. injection Hc as <- <-.
  split; [reflexivity|]. intros r. cbn [app].
  rewrite <- list_elem_of_In, (sorted_desc_perm _), list_elem_of_omap. split.
  - intros (t & Ht & Hs). exists t. split; [apply list_elem_of_In, Ht | exact Hs].
  - intros (t & Ht & Hs). exists t. split; [apply list_elem_of_In, Ht | exact Hs].
Qed.

Lemma ranking_lists_each_team_once_witness :
  (0 < max_workers (@__init__ error_page_world 12) /\ NoDup team_list) /\
  exists ranking a',
    @rank_teams_by_viewing_availability_parallel error_page_world 0 team_list
       (@__init__ error_page_world 12) = (Ok ranking, a') /\
    NoDup (map row_team ranking) /\
    (forall t, In t (map row_team ranking) -> In t team_list) /\
    (length ranking <= length team_list)%nat.
Proof.
  assert (H0 : 0 < max_workers (@__init__ error_page_world 12)) by reflexivity.
  split; [split; [exact H0 | apply team_list_NoDup]|].
  destruct (@ranking_lists_each_team_once error_page_world 0 team_list
              (@__init__ error_page_world 12) H0 team_list_NoDup)
    as (ranking & a' & H1 & H2 & H3 & H4 & _).
  exists ranking, a'. auto.
Defined.

(** X14: with a pool of at least one worker, on a snapshot in which every
    team has its schedule, the aggregator leaves the analyzer as it was and
    returns, for each timezone in order of completion, its label with the
    first [top_n] rows of the ranking of the snapshot; looked up by label,
    the leaderboard does not depend on the order in which the timezones
    complete. *)
Theorem leaderboard_of_a_snapshot `{RT : Runtime} (a : analyzer) (top_n : Z)
        (tz_completed : list Z) (team_completed : Z -> list string) :
  0 < max_workers a ->
  (forall t, In t team_list -> is_Some (_cache a !! t)) ->
  Permutation tz_completed timezone_range ->
  (forall tz, Permutation (team_completed tz) team_list) ->
  let entry := fun tz =>
    top_entries top_n
      (sorted_desc (omap (snapshot_row (_cache a) tz) (team_completed tz))) in
  generate_timezone_analysis_parallel top_n tz_completed team_completed a
  = (Ok (map (fun tz => (timezone_key tz, entry tz)) tz_completed), a) /\
  forall tz, In tz timezone_range ->
    assoc (timezone_key tz) (map (fun tz => (timezone_key tz, entry tz)) tz_completed)
    = Some (entry tz).
Proof.
  intros Hpool Hw Htz Hteams entry.
  assert (Hnd : NoDup (map timezone_key tz_completed)).
  { rewrite (Permutation_map timezone_key Htz), timezone_keys.
    apply timezone_labels_NoDup. }
  split.
  - rewrite generate_unfold, collect_timezones_warm.
    + reflexivity.
    + exact Hpool.
    + intros tz. rewrite (Hteams tz). apply team_list_NoDup.
    + intros tz t Hin. apply Hw. eapply Permutation_in; [apply Hteams | exact Hin].
    + exact Hnd.
    + intros tz _ [].
  - intros tz Hin. apply (assoc_map_key timezone_key entry); [exact Hnd|].
    eapply Permutation_in; [symmetry; exact Htz | exact Hin].
Qed.

Lemma leaderboard_of_a_snapshot_witness :
  (0 < max_workers scenario_analyzer /\
   (forall t, In t team_list -> is_Some (_cache scenario_analyzer !! t)) /\
   Permutation (rev timezone_range) timezone_range /\
   (forall tz : Z, Permutation (rev team_list) team_list)) /\
  @generate_timezone_analysis_parallel scenario_world 5 (rev timezone_range)
     (fun _ => rev team_list) scenario_analyzer
  = (Ok (map (fun tz =>
                (timezone_key tz,
                 top_entries 5
                   (sorted_desc (omap (snapshot_row (_cache scenario_analyzer) tz)
                                      (rev team_list)))))
             (rev timezone_range)), scenario_analyzer).
Proof.
  assert (H1 : forall t, In t team_list -> is_Some (_cache scenario_analyzer !! t))
    by apply warmed_is_warm.
  assert (H2 : Permutation (rev timezone_range) timezone_range)
    by (symmetry; apply Permutation_rev).
  assert (H3 : forall tz : Z, Permutation (rev team_list) team_list)
    by (intros _; symmetry; apply Permutation_rev).
  assert (H0 : 0 < max_workers scenario_analyzer) by reflexivity.
  split; [auto|].
  exact (proj1 (@leaderboard_of_a_snapshot scenario_world scenario_analyzer 5
                  (rev timezone_range) (fun _ => rev team_list) H0 H1 H2 H3)).
Defined.

(** X15: with a pool of at least one worker and [top_n_teams] zero or
    negative the aggregator still returns the 25 timezones, each with no
    team. *)
Theorem no_teams_for_nonpositive_top_n `{RT : Runtime} (a : analyzer) (top_n : Z)
        (tz_completed : list Z) (team_completed : Z -> list string) :
  0 < max_workers a ->
  top_n <= 0 ->
  Permutation tz_completed timezone_range ->
  (forall tz, Permutation (team_completed tz) team_list) ->
  exists a',
    generate_timezone_analysis_parallel top_n tz_completed team_completed a
    = (Ok (map (fun tz => (timezone_key tz, [])) tz_completed), a').
Proof.
  intros Hpool Hn Htz Hteams.
  destruct (collect_timezones_spec top_n team_completed tz_completed [] a Hpool)
    as (out & a' & Hrun & HF & Hrk).
  { intros tz. rewrite (Hteams tz). apply team_list_NoDup. }
  { rewrite (Permutation_map timezone_key Htz), timezone_keys. apply timezone_labels_NoDup. }
  { intros tz _ Hin. cbn in Hin. apply elem_of_nil in Hin. exact Hin. }
  cbn [app] in Hrun. exists a'. rewrite generate_unfold, Hrun.
  f_equal. f_equal.
  transitivity (map (fun tz => (timezone_key tz, @nil (string * Z)))
                    (map fst (rankings_of_run tz_completed team_completed a)));
    [|rewrite Hrk; reflexivity].
  clear -HF Hn.
  induction HF as [|tr [k data] trs es [Hk (rk & _ & _ & Hlen & _)] _ IH];
    [reflexivity|].
  cbn [map fst snd] in *. rewrite IH, Hk. f_equal. f_equal.
  destruct data; [reflexivity|]. cbn [length] in Hlen. lia.
Qed.

Lemma no_teams_for_nonpositive_top_n_witness :
  (0 < max_workers scenario_analyzer /\ 0 <= 0 /\
   Permutation (rev timezone_range) timezone_range /\
   (forall tz : Z, Permutation (rev team_list) team_list)) /\
  exists a',
    @generate_timezone_analysis_parallel scenario_world 0 (rev timezone_range)
       (fun _ => rev team_list) scenario_analyzer
    = (Ok (map (fun tz => (timezone_key tz, [])) (rev timezone_range)), a').
Proof.
  assert (H1 : 0 <= 0) by lia.
  assert (H2 : Permutation (rev timezone_range) timezone_range)
    by (symmetry; apply Permutation_rev).
  assert (H3 : forall tz : Z, Permutation (rev team_list) team_list)
    by (intros _; symmetry; apply Permutation_rev).
  assert (H0 : 0 < max_workers scenario_analyzer) by reflexivity.
  split; [auto|].
  exact (@no_teams_for_nonpositive_top_n scenario_world scenario_analyzer 0
           (rev timezone_range) (fun _ => rev team_list) H0 H1 H2 H3).
Defined.

(** ** The evaluation at the edges of [datetime] *)

Section Overflow.

Lemma timedelta_new_raise d s us e : timedelta_new d s us = Raise e -> e = OverflowError.
Proof. unfold timedelta_new. destruct (_ <=? _); [discriminate | intros [= <-]; reflexivity]. Qed.

Lemma datetime_add_raise dt delta e : datetime_add dt delta = Raise e -> e = OverflowError.
Proof.
  unfold datetime_add, timedelta_add.
  destruct (timedelta_new _ _ _) as [d1|e1] eqn:E1; cbn [rbind];
    [|intros [= <-]; eapply timedelta_new_raise, E1].
  destruct (timedelta_new (days d1 + _) _ _) as [d2|e2] eqn:E2; cbn [rbind];
    [|intros [= <-]; eapply timedelta_new_raise, E2].
  destruct (_ && _); [discriminate | intros [= <-]; reflexivity].
Qed.

Lemma timedelta_hours_raise off :
  ~ timedelta_range off -> timedelta_hours off = Raise OverflowError.
Proof.
  unfold timedelta_range, timedelta_hours, timedelta_new. intros H.
  change (0 / 1000000) with 0. rewrite Z.add_0_r, Z.add_0_l.
  destruct (Z.leb_spec (Z.abs (off * 3600 / 86400)) 999999999) as [Hle | _]; [|reflexivity].
  exfalso. apply H. divmod_facts (off * 3600) 86400. lia.
Qed.

(** Outside the days [date] can hold the addition raises. *)
Lemma datetime_add_overflow dt off delta :
  valid_datetime dt -> timedelta_hours off = Ok delta ->
  ~ (1 <= local_day off dt <= _MAXORDINAL) ->
  datetime_add dt delta = Raise OverflowError.
Proof.
  intros [Hvd (Hh & Hmi & Hse & Hus)] Hd Hday.
  pose proof (toordinal_range _ Hvd) as Hord.
  destruct (datetime_add dt delta) as [loc|e] eqn:Ea;
    [|f_equal; eapply datetime_add_raise, Ea].
  exfalso. apply Hday. clear Hday.
  unfold local_day, local_micros, to_micros, to_seconds, micros_per_day.
  unfold timedelta_hours, timedelta_new in Hd.
  change (0 / 1000000) with 0 in Hd. change (0 mod 1000000) with 0 in Hd.
  rewrite !Z.add_0_r, !Z.add_0_l in Hd.
  destruct (Z.abs (off * 3600 / 86400) <=? 999999999); [|discriminate].
  injection Hd as <-.
  unfold datetime_add, timedelta_add, timedelta_new, _MAXORDINAL in *.
  cbn [days seconds microseconds] in Ea.
  set (ord := toordinal (dt_date dt)) in *.
  set (hs := hour (dt_time dt) * 3600 + minute (dt_time dt) * 60 + second (dt_time dt)) in *.
  assert (Hhs : 0 <= hs < 86400) by (subst hs; lia).
  set (us := microsecond (dt_time dt)) in *.
  replace (ord * 86400 + hour (dt_time dt) * 3600 + minute (dt_time dt) * 60
           + second (dt_time dt)) with (ord * 86400 + hs) by (subst hs; lia).
  clearbody ord hs us.
  assert (Hus0 : us / 1000000 = 0) by (apply Z.div_small; lia).
  assert (Hus1 : us mod 1000000 = us) by (apply Z.mod_small; lia).
  assert (Hhs0 : hs / 86400 = 0) by (apply Z.div_small; lia).
  assert (Hhs1 : hs mod 86400 = hs) by (apply Z.mod_small; lia).
  rewrite Hus0, Hus1, !Z.add_0_r, Hhs0, Hhs1, !Z.add_0_r in Ea.
  destruct (Z.abs ord <=? 999999999); cbn [rbind days seconds microseconds] in Ea;
    [|discriminate].
  rewrite ?Z.add_0_r, Hus0, Hus1, ?Z.add_0_r in Ea.
  destruct (Z.abs _ <=? 999999999); cbn [rbind days seconds microseconds] in Ea;
    [|discriminate].
  destruct ((0 <? _) && (_ <=? 3652059)) eqn:Hin; [|discriminate].
  apply andb_true_iff in Hin as [H1 H2]. apply Z.ltb_lt in H1. apply Z.leb_le in H2.
  set (T := (ord * 86400 + hs) * 1000000 + us + off * 3600000000).
  divmod_facts T 86400000000. divmod_facts (off * 3600) 86400.
  divmod_facts (hs + (off * 3600) mod 86400) 86400.
  assert (HD : ord + off * 3600 / 86400 + (hs + (off * 3600) mod 86400) / 86400
               = T / 86400000000) by lia.
  lia.
Qed.

Lemma viewing_loop_raise delta (sched : schedule) : forall n ds e,
  viewing_loop delta sched n ds = Raise e -> e = OverflowError.
Proof.
  induction sched as [|[dt d] rest IH]; intros n ds e; cbn [viewing_loop]; [discriminate|].
  destruct (datetime_add dt delta) as [loc|e1] eqn:Ea; cbn [rbind];
    [|intros [= <-]; eapply datetime_add_raise, Ea].
  destruct (assoc _ _) as [[s en]|]; [destruct (_ && _)|]; apply IH.
Qed.

Lemma viewing_loop_overflow delta (sched : schedule) : forall n ds,
  Exists (fun g : game => datetime_add (fst g) delta = Raise OverflowError) sched ->
  viewing_loop delta sched n ds = Raise OverflowError.
Proof.
  induction sched as [|[dt d] rest IH]; intros n ds HE; [inversion HE|].
  cbn [viewing_loop].
  destruct (datetime_add dt delta) as [loc|e1] eqn:Ea; cbn [rbind];
    [|f_equal; eapply datetime_add_raise, Ea].
  assert (HE' : Exists (fun g : game => datetime_add (fst g) delta = Raise OverflowError) rest).
  { inversion HE as [? ? H | ? ? H]; subst; [cbn in H; congruence | exact H]. }
  destruct (assoc _ _) as [[s en]|]; [destruct (_ && _)|]; apply IH, HE'.
Qed.

End Overflow.

(** X16: once the schedule is at hand the only exception of the evaluation is
    [OverflowError], and for a schedule of datetimes it is raised exactly
    when the offset is more than [timedelta] holds or some game's local
    instant falls outside the days [date] holds; otherwise the evaluation
    returns. *)
Theorem evaluation_overflows_only_out_of_range `{RT : Runtime} (a a' : analyzer)
        (team : string) (off : Z) (sched : schedule) :
  get_team_schedule_cached team a = (Ok sched, a') ->
  Forall (fun g : game => valid_datetime (fst g)) sched ->
  (forall e, fst (analyze_team_viewing_time team off a) = Raise e -> e = OverflowError) /\
  (analyze_team_viewing_time team off a = (Raise OverflowError, a') <->
   ~ timedelta_range off \/ Exists (fun g => ~ representable off g) sched) /\
  ((exists r, analyze_team_viewing_time team off a = (Ok r, a')) <->
   timedelta_range off /\ Forall (representable off) sched).
Proof.
  intros Hget Hv. rewrite analyze_unfold, Hget. unfold evaluate.
  assert (Hdec : timedelta_range off \/ ~ timedelta_range off)
    by (unfold timedelta_range; lia).
  assert (Hrep : forall g, representable off g \/ ~ representable off g)
    by (intros g; unfold representable; lia).
  assert (Hall : Forall (representable off) sched
                 \/ Exists (fun g => ~ representable off g) sched).
  { clear -Hrep. induction sched as [|g rest IH]; [left; constructor|].
    destruct (Hrep g) as [Hg | Hg]; [|right; apply Exists_cons_hd, Hg].
    destruct IH as [IH | IH]; [left; constructor; assumption | right; apply Exists_cons_tl, IH]. }
  assert (Hno : Forall (representable off) sched ->
                Exists (fun g => ~ representable off g) sched -> False).
  { intros HF HE. apply List.Exists_exists in HE as (g & Hin & Hn).
    rewrite List.Forall_forall in HF. exact (Hn (HF g Hin)). }
  destruct Hdec as [Hr | Hr].
  - destruct (timedelta_hours_ok off Hr) as [delta Hd]. rewrite Hd. cbn [rbind fst].
    destruct Hall as [HF | HE].
    + rewrite (viewing_loop_spec off delta sched Hd Hv HF). cbn [rbind].
      split; [discriminate|]. split.
      * split; [discriminate | intros [H | H]; [contradiction | exfalso; eauto]].
      * split; [auto | eauto].
    + rewrite viewing_loop_overflow.
      2: { apply List.Exists_exists in HE as (g & Hin & Hn). apply List.Exists_exists.
           exists g. split; [exact Hin|]. rewrite List.Forall_forall in Hv.
           eapply datetime_add_overflow; [apply Hv, Hin | exact Hd | exact Hn]. }
      cbn [rbind]. split; [intros e [= <-]; reflexivity|]. split.
      * split; [auto | reflexivity].
      * split; [intros [r Hr']; discriminate | intros [_ HF]; exfalso; eauto].
  - rewrite (timedelta_hours_raise off Hr). cbn [rbind fst].
    split; [intros e [= <-]; reflexivity|]. split.
    + split; [auto | reflexivity].
    + split; [intros [r Hr']; discriminate | tauto].
Qed.

Lemma evaluation_overflows_only_out_of_range_witness :
  (@get_team_schedule_cached scenario_world "NJD"
     (warmed scenario_world [(utc 9999 12 31 23 0, "9999-12-31")])
   = (Ok [(utc 9999 12 31 23 0, "9999-12-31")],
      warmed scenario_world [(utc 9999 12 31 23 0, "9999-12-31")]) /\
   Forall (fun g : game => valid_datetime (fst g)) [(utc 9999 12 31 23 0, "9999-12-31")]) /\
  (@analyze_team_viewing_time scenario_world "NJD" 1
     (warmed scenario_world [(utc 9999 12 31 23 0, "9999-12-31")])
   = (Raise OverflowError, warmed scenario_world [(utc 9999 12 31 23 0, "9999-12-31")]) <->
   ~ timedelta_range 1 \/
   Exists (fun g => ~ representable 1 g) [(utc 9999 12 31 23 0, "9999-12-31")]).
Proof.
  assert (H1 : @get_team_schedule_cached scenario_world "NJD"
                 (warmed scenario_world [(utc 9999 12 31 23 0, "9999-12-31")])
               = (Ok [(utc 9999 12 31 23 0, "9999-12-31")],
                  warmed scenario_world [(utc 9999 12 31 23 0, "9999-12-31")]))
    by (apply get_cached_hit, warmed_lookup; left; reflexivity).
  assert (H2 : Forall (fun g : game => valid_datetime (fst g))
                      [(utc 9999 12 31 23 0, "9999-12-31")])
    by (repeat constructor; cbn; lia).
  split; [auto|].
  exact (proj1 (proj2 (@evaluation_overflows_only_out_of_range scenario_world _ _ "NJD" 1
                         _ H1 H2))).
Defined.

(** In that world the game on the last evening of year 9999 overflows at
    UTC+1 and the ranking of UTC+1 goes on without any team. *)
Example last_day_overflows :
  fst (@analyze_team_viewing_time scenario_world "NJD" 1
         (warmed scenario_world [(utc 9999 12 31 23 0, "9999-12-31")]))
  = Raise OverflowError /\
  fst (@rank_teams_by_viewing_availability_parallel scenario_world 1 team_list
         (warmed scenario_world [(utc 9999 12 31 23 0, "9999-12-31")]))
  = Ok [].
Proof. split; vm_compute; reflexivity. Qed.

(** ** An analyzer without workers *)

(** X17: an analyzer built with [max_workers] zero or negative gets no
    thread pool: the ranker and [warm_cache] raise [ValueError] before any
    task is submitted, and the aggregator, which catches the exception of
    each of its timezone tasks, returns the empty mapping. Nothing is
    fetched or cached, and the summary of that mapping is the title
    alone. *)
Theorem no_workers_no_leaderboard `{RT : Runtime} (a : analyzer) (off top_n : Z)
        (completed started : list string) (racing : string -> bool)
        (tz_completed : list Z) (team_completed : Z -> list string) :
  max_workers a <= 0 ->
  rank_teams_by_viewing_availability_parallel off completed a = (Raise ValueError, a) /\
  warm_cache started racing a = (Raise ValueError, a) /\
  generate_timezone_analysis_parallel top_n tz_completed team_completed a = (Ok [], a) /\
  print_analysis_summary [] = ([summary_title], None).
Proof.
  intros Hw. split; [apply rank_without_workers, Hw|].
  split; [apply warm_cache_without_workers, Hw|].
  split; [|reflexivity].
  rewrite generate_unfold. apply collect_timezones_without_workers, Hw.
Qed.

Lemma no_workers_no_leaderboard_witness :
  max_workers (@__init__ scenario_world 0) <= 0 /\
  @generate_timezone_analysis_parallel scenario_world 5 timezone_range (fun _ => team_list)
     (@__init__ scenario_world 0)
  = (Ok [], @__init__ scenario_world 0).
Proof.
  assert (H : max_workers (@__init__ scenario_world 0) <= 0) by (cbn; lia).
  split; [exact H|].
  exact (proj1 (proj2 (proj2
    (@no_workers_no_leaderboard scenario_world (@__init__ scenario_world 0) 0 5
       team_list team_list (fun _ => false) timezone_range (fun _ => team_list) H)))).
Defined.
